(** * WhyWhyWhy: question/answer extraction from EPUB books

    A shallow embedding of [extract_qa.py] (the generic extractor, class
    names containing "heading" or "title") and of [extract_qa_chinese.py]
    (the book-specific extractor, class "bodycontent-second-title").

    Python strings are sequences of Unicode code points, so [len] counts
    code points and ['？'] is the single code point U+FF1F.  A string is
    therefore a list of code points here, not a list of bytes. *)

From Stdlib Require Import Ascii String.
From Stdlib Require Import List Arith NArith Bool Lia.
Import ListNotations.
Local Open Scope N_scope.
Set Warnings "-register-all,-notation-for-abbreviation".

(* ------------------------------------------------------------------ *)
(** ** Python [str] *)

Definition char := N.
Definition str := list char.

(** ASCII literals, to write the constants of the source. *)
Fixpoint lit (s : string) : str :=
  match s with
  | EmptyString => []
  | String a r => N_of_ascii a :: lit r
  end.

Definition SPACE : char := 32.
Definition NEWLINE : char := 10.
(** ['？'], FULLWIDTH QUESTION MARK. *)
Definition FULLWIDTH_QUESTION_MARK : char := 65311.

(** Truth value of a string: [if text], [x and ...]. *)
Definition truthy_str (s : str) : bool :=
  match s with [] => false | _ :: _ => true end.

Fixpoint str_eqb (a b : str) : bool :=
  match a, b with
  | [], [] => true
  | x :: a', y :: b' => (x =? y) && str_eqb a' b'
  | _, _ => false
  end.

Fixpoint startswith (s prefix : str) {struct prefix} : bool :=
  match prefix, s with
  | [], _ => true
  | p :: prefix', c :: s' => (c =? p) && startswith s' prefix'
  | _ :: _, [] => false
  end.

(** [needle in hay] on strings: substring test. *)
Fixpoint contains (needle hay : str) : bool :=
  startswith hay needle ||
  match hay with
  | [] => false
  | _ :: hay' => contains needle hay'
  end.

(** [s.endswith(suffix)]. *)
Definition endswith (s suffix : str) : bool :=
  startswith (rev s) (rev suffix).

(** [x in l] on a list of strings. *)
Definition str_in (x : str) (l : list str) : bool :=
  existsb (str_eqb x) l.

(** [sep.join(l)]. *)
Fixpoint join (sep : str) (l : list str) : str :=
  match l with
  | [] => []
  | [x] => x
  | x :: rest => x ++ sep ++ join sep rest
  end.

(** Unicode whitespace as CPython has it ([Py_UNICODE_ISSPACE]); both the
    [\s] class of [re] on [str] patterns and [str.strip()] use it. *)
Definition isspace (c : char) : bool :=
  ((9 <=? c) && (c <=? 13)) || ((28 <=? c) && (c <=? 32)) ||
  (c =? 133) || (c =? 160) || (c =? 5760) ||
  ((8192 <=? c) && (c <=? 8202)) ||
  (c =? 8232) || (c =? 8233) || (c =? 8239) || (c =? 8287) || (c =? 12288).

(* ------------------------------------------------------------------ *)
(** ** [clean_text] (both files, identical) *)

(** [re.sub(r'\s+', ' ', text)]: a left-to-right scan; [in_match] tells
    that the previous character belongs to the whitespace run being
    replaced, which has already produced its single space. *)
Fixpoint re_sub_spaces (in_match : bool) (text : str) : str :=
  match text with
  | [] => []
  | c :: rest =>
      if isspace c
      then if in_match then re_sub_spaces true rest
           else SPACE :: re_sub_spaces true rest
      else c :: re_sub_spaces false rest
  end.

Fixpoint lstrip (s : str) : str :=
  match s with
  | [] => []
  | c :: rest => if isspace c then lstrip rest else s
  end.

Fixpoint rstrip (s : str) : str :=
  match s with
  | [] => []
  | c :: rest =>
      match rstrip rest with
      | [] => if isspace c then [] else [c]
      | kept => c :: kept
      end
  end.

(** [text.strip()]. *)
Definition strip (s : str) : str := rstrip (lstrip s).

Definition clean_text (text : str) : str :=
  let text := re_sub_spaces false text in
  strip text.

(** The description of [clean_text] in words: the whitespace-separated
    words of the text ([text.split()]), joined by single spaces. *)
Fixpoint split_words (s : str) : list str :=
  match s with
  | [] => []
  | c :: rest =>
      if isspace c then split_words rest
      else match rest with
           | [] => [[c]]
           | d :: _ =>
               if isspace d then [c] :: split_words rest
               else match split_words rest with
                    | w :: ws => (c :: w) :: ws
                    | [] => [[c]]
                    end
           end
  end.

Definition clean_text_spec (text : str) : str :=
  join [SPACE] (split_words text).

(** A cleaned string: no whitespace but single spaces, none of them
    leading ([after_space] set at the start), doubled or trailing. *)
Fixpoint normalized (after_space : bool) (s : str) : bool :=
  match s with
  | [] => true
  | c :: rest =>
      if isspace c
      then negb after_space && (c =? SPACE) && normalized true rest
      else normalized false rest
  end.

(** A string that does not start with whitespace. *)
Definition no_leading_space (s : str) : bool :=
  match s with
  | [] => true
  | c :: _ => negb (isspace c)
  end.

Definition ends_with_space (s : str) : bool :=
  match rev s with
  | [] => false
  | c :: _ => isspace c
  end.

(* ------------------------------------------------------------------ *)
(** ** The parse tree of BeautifulSoup

    What [BeautifulSoup(html, 'lxml')] builds: tags with a name, the
    value of the [class] attribute (absent, or the list of its tokens:
    the HTML tree builders split [class] on whitespace) and children;
    text nodes; and the string nodes that [get_text] leaves out
    (comments, doctype, processing instructions). *)

Inductive node : Type :=
| Tag (name : str) (class : option (list str)) (contents : list node)
| NavigableString (s : str)
| Comment (s : str).

(** [current.name]: [None] on the string nodes. *)
Definition name_of (n : node) : option str :=
  match n with
  | Tag name _ _ => Some name
  | _ => None
  end.

(** [current.get('class', [])]; only evaluated on tags in the source. *)
Definition get_class (n : node) : list str :=
  match n with
  | Tag _ (Some tokens) _ => tokens
  | _ => []
  end.

(** [current.name in names]. *)
Definition name_in (n : node) (names : list str) : bool :=
  match name_of n with
  | Some name => str_in name names
  | None => false
  end.

(** [current.name == name]. *)
Definition name_is (n : node) (name : str) : bool :=
  match name_of n with
  | Some x => str_eqb x name
  | None => false
  end.

(** [while current:] a tag is always true, a string node is a [str] and
    is true when it is not empty; [None] (no sibling left) is the end of
    the sibling list. *)
Definition truthy (n : node) : bool :=
  match n with
  | Tag _ _ _ => true
  | NavigableString s => truthy_str s
  | Comment s => truthy_str s
  end.

(** [tag.get_text()]: the text nodes below the tag, in document order. *)
Fixpoint get_text (n : node) : str :=
  match n with
  | Tag _ _ contents =>
      (fix texts (l : list node) : str :=
         match l with
         | [] => []
         | c :: rest => get_text c ++ texts rest
         end) contents
  | NavigableString s => s
  | Comment _ => []
  end.

(** A node found in the tree, with what [next_sibling] reaches from it:
    the nodes after it under the same parent, in order. *)
Definition located : Type := (node * list node)%type.

(** All nodes below [n] in document order, each with its next siblings. *)
Fixpoint descendants (n : node) : list located :=
  match n with
  | Tag _ _ contents =>
      (fix walk (l : list node) : list located :=
         match l with
         | [] => []
         | c :: rest => (c, rest) :: descendants c ++ walk rest
         end) contents
  | _ => []
  end.

(** The same for the children list of a tag. *)
Fixpoint descendants_of_list (l : list node) : list located :=
  match l with
  | [] => []
  | c :: rest => (c, rest) :: descendants c ++ descendants_of_list rest
  end.

(** [soup.find_all(names, class_=f)]: the tags below [soup] whose name is
    in [names] and whose [class] value passes [f]: [f] receives [None]
    when the attribute is absent and is otherwise tried on the tokens one
    by one.  (bs4 also tries the tokens joined by spaces; the functions
    of the source look for a substring free of spaces, which is in the
    joined value only when it is in a token.) *)
Definition class_passes (f : option str -> bool) (n : node) : bool :=
  match n with
  | Tag _ None _ => f None
  | Tag _ (Some tokens) _ => existsb (fun c => f (Some c)) tokens
  | _ => false
  end.

Definition matches (names : list str) (f : option str -> bool)
    (n : node) : bool :=
  name_in n names && class_passes f n.

Definition find_all (names : list str) (f : option str -> bool)
    (soup : node) : list located :=
  filter (fun q => matches names f (fst q)) (descendants soup).

(** The document that the lxml builder makes of a page: the soup object,
    [html], [body], then the nodes of the page. *)
Definition page (body : list node) : node :=
  Tag (lit "[document]") None
    [Tag (lit "html") None [Tag (lit "body") None body]].

(* ------------------------------------------------------------------ *)
(** ** Results, exceptions, the log *)

Record QAPair : Type := { question : str; answer : str }.

Inductive exn : Type :=
| UnicodeDecodeError
| Exception (message : str).

(** The calls to [logging], in order. *)
Inductive log_record : Type :=
| DebugNoQuestion (file_name : str)
| DebugPair (question_prefix : str)
| ErrorHtml (file_name : str) (e : exn)
| InfoReadEpub (epub_path : str)
| ErrorReadEpub (e : exn)
| InfoFile (name : str) (count : nat)
| InfoProgress (processed_files : nat) (count : nat)
| ErrorFile (name : str) (e : exn)
| InfoTotal (processed_files : nat) (count : nat).

(* ------------------------------------------------------------------ *)
(** ** The package: ebooklib items *)

Record EpubItem : Type := {
  get_type : N;
  get_name : str;
  get_content : list N    (* bytes, each below 256 *)
}.

(** [ebooklib.ITEM_DOCUMENT]. *)
Definition ITEM_DOCUMENT : N := 9.

(** [bytes.decode('utf-8')], strict: a continuation byte is 10xxxxxx, and
    overlong forms, surrogates and values above U+10FFFF are refused. *)
Definition continuation (b : N) : bool := (128 <=? b) && (b <=? 191).

Fixpoint decode_utf8 (bs : list N) : exn + str :=
  let cons_ok (c : char) (r : exn + str) : exn + str :=
    match r with inl e => inl e | inr s => inr (c :: s) end in
  match bs with
  | [] => inr []
  | b0 :: r0 =>
      if b0 <? 128 then cons_ok b0 (decode_utf8 r0)
      else if (194 <=? b0) && (b0 <=? 223) then
        match r0 with
        | b1 :: r1 =>
            if continuation b1
            then cons_ok ((b0 - 192) * 64 + (b1 - 128)) (decode_utf8 r1)
            else inl UnicodeDecodeError
        | _ => inl UnicodeDecodeError
        end
      else if (224 <=? b0) && (b0 <=? 239) then
        match r0 with
        | b1 :: b2 :: r2 =>
            let c := (b0 - 224) * 4096 + (b1 - 128) * 64 + (b2 - 128) in
            if continuation b1 && continuation b2 && (2048 <=? c)
               && negb ((55296 <=? c) && (c <=? 57343))
            then cons_ok c (decode_utf8 r2)
            else inl UnicodeDecodeError
        | _ => inl UnicodeDecodeError
        end
      else if (240 <=? b0) && (b0 <=? 244) then
        match r0 with
        | b1 :: b2 :: b3 :: r3 =>
            let c := (b0 - 240) * 262144 + (b1 - 128) * 4096
                     + (b2 - 128) * 64 + (b3 - 128) in
            if continuation b1 && continuation b2 && continuation b3
               && (65536 <=? c) && (c <=? 1114111)
            then cons_ok c (decode_utf8 r3)
            else inl UnicodeDecodeError
        | _ => inl UnicodeDecodeError
        end
      else inl UnicodeDecodeError
  end.

(** [is_content_item] (both files, identical).  [lower] is [str.lower]. *)
Definition is_content_item (lower : str -> str) (item : EpubItem) : bool :=
  if get_type item =? ITEM_DOCUMENT then
    let filename := lower (get_name item) in
    if existsb (fun x => contains x filename)
         [lit "nav"; lit "toc"; lit "content.opf"; lit "cover"]
    then false
    else true
  else false.

(** [read_epub] (both files, identical): [epub.read_epub] either raises,
    which is logged and raised again, or gives the book, of which the
    callers use [get_items()] only. *)
Definition read_epub (epub_read_epub : str -> exn + list EpubItem)
    (epub_path : str) : (exn + list EpubItem) * list log_record :=
  match epub_read_epub epub_path with
  | inr book => (inr book, [InfoReadEpub epub_path])
  | inl e => (inl e, [ErrorReadEpub e])
  end.

(* ------------------------------------------------------------------ *)
(** ** [extract_qa_from_html]: the part the two files share

    The two functions differ in four places only: the arguments of
    [find_all] (line 46, lines 45-46), the test that skips a heading
    (line 56), the test that ends the walk over the siblings (lines
    64-65) and the test that takes a paragraph (line 68). *)

Section ExtractQaFromHtml.

Variable BeautifulSoup : str -> exn + node.
Variable names : list str.
Variable class_ : option str -> bool.
Variable skip_question : str -> bool.
Variable is_next_question : node -> bool.
Variable is_answer_paragraph : node -> bool.

(** Lines 60-72, the [while current:] loop from [current =
    q.next_sibling]; the result is [answer_paragraphs]. *)
Fixpoint collect_answer_paragraphs (siblings : list node) : list str :=
  match siblings with
  | [] => []
  | current :: rest =>
      if negb (truthy current) then []
      else if is_next_question current then []
      else if is_answer_paragraph current then
        let text := clean_text (get_text current) in
        if truthy_str text
        then text :: collect_answer_paragraphs rest
        else collect_answer_paragraphs rest
      else collect_answer_paragraphs rest
  end.

(** Lines 53-82, one turn of [for q in questions], on [qa_pairs] and
    the log. *)
Definition for_question (state : list QAPair * list log_record)
    (q : located) : list QAPair * list log_record :=
  let question_text := clean_text (get_text (fst q)) in
  if skip_question question_text then state
  else
    let answer_paragraphs := collect_answer_paragraphs (snd q) in
    let answer := join [NEWLINE] answer_paragraphs in
    if truthy_str question_text && truthy_str answer
    then (fst state ++ [{| question := question_text; answer := answer |}],
          snd state ++ [DebugPair (firstn 50 question_text)])
    else state.

(** Lines 43-87 once the document is parsed. *)
Definition extract_qa_from_soup (soup : node) (file_name : str)
    : list QAPair * list log_record :=
  let questions := find_all names class_ soup in
  match questions with
  | [] => ([], [DebugNoQuestion file_name])
  | _ :: _ => fold_left for_question questions ([], [])
  end.

(** The whole function, lines 41-87.  The [try] block holds the call of
    the parser and the loop; of these only the parser can raise, the
    calls on the tree ([find_all], [get_text], [next_sibling], [name],
    [get]) being total.  [qa_pairs] is still empty when the parser
    raises; the handler logs and the function returns [qa_pairs].  (For
    a library whose calls on the tree raise as well, see
    [extract_qa_from_html_raising] below.) *)
Definition extract_qa_from_html_with (html_content file_name : str)
    : list QAPair * list log_record :=
  match BeautifulSoup html_content with
  | inl e => ([], [ErrorHtml file_name e])
  | inr soup => extract_qa_from_soup soup file_name
  end.

(** What one heading contributes to [qa_pairs]. *)
Definition pairs_of_question (q : located) : list QAPair :=
  fst (for_question ([], []) q).

End ExtractQaFromHtml.

(* ------------------------------------------------------------------ *)
(** ** extract_qa.py *)

Module ExtractQa.
Section Generic.

Variable lower : str -> str.
Variable BeautifulSoup : str -> exn + node.
Variable epub_read_epub : str -> exn + list EpubItem.

Definition names : list str := [lit "h4"; lit "h3"; lit "h2"].

(** ['heading' in x.lower() or 'title' in x.lower()] *)
Definition heading_or_title (x : str) : bool :=
  contains (lit "heading") (lower x) || contains (lit "title") (lower x).

(** Line 46, the [class_] argument: [lambda x: x and (...)]. *)
Definition class_ (x : option str) : bool :=
  match x with
  | None => false
  | Some x => truthy_str x && heading_or_title x
  end.

(** Line 56. *)
Definition skip_question (question_text : str) : bool :=
  negb (truthy_str question_text)
  || (N.of_nat (length question_text) <? 2)
  || negb (endswith question_text [FULLWIDTH_QUESTION_MARK]).

(** Lines 64-65; [isinstance(current.get('class', []), list)] holds of
    every tree of the HTML builders. *)
Definition is_next_question (current : node) : bool :=
  name_in current names
  && true
  && existsb heading_or_title (get_class current).

(** Line 68. *)
Definition is_answer_paragraph (current : node) : bool :=
  name_is current (lit "p").

Definition extract_qa_from_html (html_content file_name : str)
    : list QAPair * list log_record :=
  extract_qa_from_html_with BeautifulSoup names class_ skip_question
    is_next_question is_answer_paragraph html_content file_name.

(** Lines 96-106, one turn of [for item in book.get_items()], on
    [all_qa_pairs], [processed_files] and the log. *)
Definition for_item (state : list QAPair * nat * list log_record)
    (item : EpubItem) : list QAPair * nat * list log_record :=
  let '(all_qa_pairs, processed_files, log) := state in
  if is_content_item lower item then
    match decode_utf8 (get_content item) with
    | inl e => (all_qa_pairs, processed_files,
                log ++ [ErrorFile (get_name item) e])
    | inr html_content =>
        let (qa_pairs, log') :=
          extract_qa_from_html html_content (get_name item) in
        match qa_pairs with
        | [] => (all_qa_pairs, processed_files, log ++ log')
        | _ :: _ =>
            (all_qa_pairs ++ qa_pairs, S processed_files,
             log ++ log' ++ [InfoFile (get_name item) (length qa_pairs)])
        end
    end
  else state.

(** What one package entry adds to [all_qa_pairs]. *)
Definition pairs_of_item (item : EpubItem) : list QAPair :=
  if is_content_item lower item then
    match decode_utf8 (get_content item) with
    | inl _ => []
    | inr html_content =>
        fst (extract_qa_from_html html_content (get_name item))
    end
  else [].

Definition extract_qa_from_epub (epub_path : str)
    : (exn + list QAPair) * list log_record :=
  match read_epub epub_read_epub epub_path with
  | (inl e, log) => (inl e, log)
  | (inr book, log) =>
      let '(all_qa_pairs, processed_files, log) :=
        fold_left for_item book ([], O, log) in
      (inr all_qa_pairs,
       log ++ [InfoTotal processed_files (length all_qa_pairs)])
  end.

End Generic.
End ExtractQa.

(* ------------------------------------------------------------------ *)
(** ** extract_qa_chinese.py *)

Module ExtractQaChinese.
Section BookSpecific.

Variable lower : str -> str.
Variable BeautifulSoup : str -> exn + node.
Variable epub_read_epub : str -> exn + list EpubItem.

Definition names : list str := [lit "h3"; lit "h2"].

(** Lines 45-46, the [class_] argument. *)
Definition class_ (x : option str) : bool :=
  match x with
  | None => false
  | Some x =>
      truthy_str x
      && (contains (lit "bodycontent-second-title") x
          || contains (lit "bodycontent-second-title1") x)
  end.

(** Line 56. *)
Definition skip_question (question_text : str) : bool :=
  negb (truthy_str question_text)
  || (N.of_nat (length question_text) <? 2).

(** Lines 64-65. *)
Definition is_next_question (current : node) : bool :=
  name_in current names
  && true
  && existsb (fun c => contains (lit "bodycontent-second-title") c)
       (get_class current).

(** Line 68. *)
Definition is_answer_paragraph (current : node) : bool :=
  name_is current (lit "p")
  && str_in (lit "bodycontent-text") (get_class current).

Definition extract_qa_from_html (html_content file_name : str)
    : list QAPair * list log_record :=
  extract_qa_from_html_with BeautifulSoup names class_ skip_question
    is_next_question is_answer_paragraph html_content file_name.

(** Lines 96-107, one turn of [for item in book.get_items()]. *)
Definition for_item (state : list QAPair * nat * list log_record)
    (item : EpubItem) : list QAPair * nat * list log_record :=
  let '(all_qa_pairs, processed_files, log) := state in
  if is_content_item lower item then
    match decode_utf8 (get_content item) with
    | inl e => (all_qa_pairs, processed_files,
                log ++ [ErrorFile (get_name item) e])
    | inr html_content =>
        let (qa_pairs, log') :=
          extract_qa_from_html html_content (get_name item) in
        let all_qa_pairs :=
          match qa_pairs with
          | [] => all_qa_pairs
          | _ :: _ => all_qa_pairs ++ qa_pairs
          end in
        let processed_files := S processed_files in
        (all_qa_pairs, processed_files,
         log ++ log'
         ++ (if Nat.eqb (Nat.modulo processed_files 10) 0
             then [InfoProgress processed_files (length all_qa_pairs)]
             else []))
    end
  else state.

(** What one package entry adds to [all_qa_pairs]. *)
Definition pairs_of_item (item : EpubItem) : list QAPair :=
  if is_content_item lower item then
    match decode_utf8 (get_content item) with
    | inl _ => []
    | inr html_content =>
        fst (extract_qa_from_html html_content (get_name item))
    end
  else [].

Definition extract_qa_from_epub (epub_path : str)
    : (exn + list QAPair) * list log_record :=
  match read_epub epub_read_epub epub_path with
  | (inl e, log) => (inl e, log)
  | (inr book, log) =>
      let '(all_qa_pairs, processed_files, log) :=
        fold_left for_item book ([], O, log) in
      (inr all_qa_pairs,
       log ++ [InfoTotal processed_files (length all_qa_pairs)])
  end.

End BookSpecific.
End ExtractQaChinese.

(** [str.lower] on ASCII text, for the examples. *)
Definition ascii_lower (s : str) : str :=
  map (fun c => if (65 <=? c) && (c <=? 90) then c + 32 else c) s.

(* ------------------------------------------------------------------ *)
(** ** Pages and packages for the examples *)

(** A heading with one class token and its text; a [p] with its text. *)
Definition heading_tag (name class text : str) : node :=
  Tag name (Some [class]) [NavigableString text].

Definition p_tag (class : option (list str)) (text : str) : node :=
  Tag (lit "p") class [NavigableString text].

(** A parser that is known on the listed pages and raises elsewhere. *)
Definition parser_of (pages : list (str * node)) (html_content : str)
    : exn + node :=
  match find (fun known => str_eqb (fst known) html_content) pages with
  | Some known => inr (snd known)
  | None => inl (Exception (lit "ParserRejectedMarkup"))
  end.

(** A reader that opens every path as the given package. *)
Definition reader_of (book : list EpubItem) (epub_path : str)
    : exn + list EpubItem :=
  inr book.

(** One question and its answer, in the markup of each of the books. *)
Definition generic_html (q a : str) : str :=
  lit "<h2 class='title'>" ++ q ++ lit "</h2><p>" ++ a ++ lit "</p>".

Definition generic_soup (q a : str) : node :=
  page [heading_tag (lit "h2") (lit "title") q; p_tag None a].

Definition book_html (q a : str) : str :=
  lit "<h2 class='bodycontent-second-title'>" ++ q
  ++ lit "</h2><p class='bodycontent-text'>" ++ a ++ lit "</p>".

Definition book_soup (q a : str) : node :=
  page [heading_tag (lit "h2") (lit "bodycontent-second-title") q;
        p_tag (Some [lit "bodycontent-text"]) a].

(** "A？", "B？", "C？" as text, and "A？" as UTF-8 bytes. *)
Definition question_A : str := [65; FULLWIDTH_QUESTION_MARK].
Definition question_B : str := [66; FULLWIDTH_QUESTION_MARK].
Definition question_C : str := [67; FULLWIDTH_QUESTION_MARK].
Definition utf8_question_mark : list N := [239; 188; 159].

(** [<h2 class='title'>Q？</h2><p>a</p><p>b</p>
     <h3 class='Heading1'>R？</h3><p>c</p>] *)
Definition heading_Q : node :=
  heading_tag (lit "h2") (lit "title") [81; FULLWIDTH_QUESTION_MARK].
Definition heading_R : node :=
  heading_tag (lit "h3") (lit "Heading1") [82; FULLWIDTH_QUESTION_MARK].
Definition p_a : node := p_tag None (lit "a").
Definition p_b : node := p_tag None (lit "b").
Definition p_c : node := p_tag None (lit "c").
Definition p_blank : node := p_tag None (lit " ").

Definition two_questions_html : str :=
  lit "<h2 class='title'>Q" ++ [FULLWIDTH_QUESTION_MARK]
  ++ lit "</h2><p>a</p><p>b</p><h3 class='Heading1'>R"
  ++ [FULLWIDTH_QUESTION_MARK] ++ lit "</h3><p>c</p>".

Definition two_questions_body : list node :=
  [heading_Q; p_a; p_b; heading_R; p_c].

(** The same page with a blank first paragraph:
    [<h2 class='title'>Q？</h2><p> </p><p>b</p>
     <h3 class='Heading1'>R？</h3><p>c</p>] *)
Definition blank_paragraph_html : str :=
  lit "<h2 class='title'>Q" ++ [FULLWIDTH_QUESTION_MARK]
  ++ lit "</h2><p> </p><p>b</p><h3 class='Heading1'>R"
  ++ [FULLWIDTH_QUESTION_MARK] ++ lit "</h3><p>c</p>".

Definition blank_paragraph_body : list node :=
  [heading_Q; p_blank; p_b; heading_R; p_c].

(** [<h2 class='bodycontent-second-title'>ab</h2>
     <p class='bodycontent-text'>c</p><p class='bodycontent-text'>d</p>
     <h3 class='bodycontent-second-title1'>ef</h3><p class='note'>g</p>] *)
Definition book_two_questions_html : str :=
  lit "<h2 class='bodycontent-second-title'>ab</h2>"
  ++ lit "<p class='bodycontent-text'>c</p><p class='bodycontent-text'>d</p>"
  ++ lit "<h3 class='bodycontent-second-title1'>ef</h3><p class='note'>g</p>".

Definition book_heading_ab : node :=
  heading_tag (lit "h2") (lit "bodycontent-second-title") (lit "ab").
Definition book_heading_ef : node :=
  heading_tag (lit "h3") (lit "bodycontent-second-title1") (lit "ef").
Definition book_p_c : node := p_tag (Some [lit "bodycontent-text"]) (lit "c").
Definition book_p_d : node := p_tag (Some [lit "bodycontent-text"]) (lit "d").
Definition book_p_note : node := p_tag (Some [lit "note"]) (lit "g").

Definition book_two_questions_body : list node :=
  [book_heading_ab; book_p_c; book_p_d; book_heading_ef; book_p_note].

(** A heading that is skipped, between two questions:
    [<h2 class='title'>Q？</h2><p>a</p><h2 class='title'>Contents</h2>
     <p>lost</p><h2 class='title'>R？</h2><p>c</p>], and the same page
    without [<p>lost</p>]. *)
Definition skipped_before : list node :=
  [heading_tag (lit "h2") (lit "title") [81; FULLWIDTH_QUESTION_MARK];
   p_tag None (lit "a")].
Definition skipped_heading : node :=
  heading_tag (lit "h2") (lit "title") (lit "Contents").
Definition skipped_mid : list node := [p_tag None (lit "lost")].
Definition skipped_after : list node :=
  [heading_tag (lit "h2") (lit "title") [82; FULLWIDTH_QUESTION_MARK];
   p_tag None (lit "c")].

Definition skipped_html : str :=
  lit "<h2 class='title'>Q" ++ [FULLWIDTH_QUESTION_MARK]
  ++ lit "</h2><p>a</p><h2 class='title'>Contents</h2><p>lost</p>"
  ++ lit "<h2 class='title'>R" ++ [FULLWIDTH_QUESTION_MARK]
  ++ lit "</h2><p>c</p>".

Definition skipped_short_html : str :=
  lit "<h2 class='title'>Q" ++ [FULLWIDTH_QUESTION_MARK]
  ++ lit "</h2><p>a</p><h2 class='title'>Contents</h2>"
  ++ lit "<h2 class='title'>R" ++ [FULLWIDTH_QUESTION_MARK]
  ++ lit "</h2><p>c</p>".

(** The like in the markup of the second book, the skipped heading
    being the one-character [x]. *)
Definition book_skipped_before : list node :=
  [heading_tag (lit "h2") (lit "bodycontent-second-title") (lit "ab");
   p_tag (Some [lit "bodycontent-text"]) (lit "a")].
Definition book_skipped_heading : node :=
  heading_tag (lit "h2") (lit "bodycontent-second-title") (lit "x").
Definition book_skipped_mid : list node :=
  [p_tag (Some [lit "bodycontent-text"]) (lit "lost")].
Definition book_skipped_after : list node :=
  [heading_tag (lit "h2") (lit "bodycontent-second-title") (lit "cd");
   p_tag (Some [lit "bodycontent-text"]) (lit "c")].

Definition book_skipped_html : str :=
  book_html (lit "ab") (lit "a") ++ book_html (lit "x") (lit "lost")
  ++ book_html (lit "cd") (lit "c").

Definition book_skipped_short_html : str :=
  book_html (lit "ab") (lit "a")
  ++ lit "<h2 class='bodycontent-second-title'>x</h2>"
  ++ book_html (lit "cd") (lit "c").

(** The pages that the example parser knows. *)
Definition example_pages : list (str * node) :=
  [(two_questions_html, page two_questions_body);
   (blank_paragraph_html, page blank_paragraph_body);
   (book_two_questions_html, page book_two_questions_body);
   (skipped_html,
    page (skipped_before ++ skipped_heading :: skipped_mid ++ skipped_after));
   (skipped_short_html,
    page (skipped_before ++ skipped_heading :: skipped_after));
   (book_skipped_html,
    page (book_skipped_before ++ book_skipped_heading
          :: book_skipped_mid ++ book_skipped_after));
   (book_skipped_short_html,
    page (book_skipped_before ++ book_skipped_heading :: book_skipped_after));
   (generic_html question_A (lit "a"), generic_soup question_A (lit "a"));
   (generic_html question_B (lit "b"), generic_soup question_B (lit "b"));
   (generic_html question_C (lit "c"), generic_soup question_C (lit "c"));
   (book_html (lit "qa") (lit "a"), book_soup (lit "qa") (lit "a"));
   (book_html (lit "qb") (lit "b"), book_soup (lit "qb") (lit "b"));
   (book_html (lit "qc") (lit "c"), book_soup (lit "qc") (lit "c"));
   (lit "<p>no heading</p>", page [p_tag None (lit "no heading")])].

Definition example_parser : str -> exn + node := parser_of example_pages.

(** Package entries: three chapters of each book, one whose bytes are
    no UTF-8, one the parser refuses, and a picture. *)
Definition chapter (name : str) (content : list N) : EpubItem :=
  {| get_type := ITEM_DOCUMENT; get_name := name; get_content := content |}.

Definition generic_A : EpubItem :=
  chapter (lit "ch1.xhtml")
    (lit "<h2 class='title'>A" ++ utf8_question_mark ++ lit "</h2><p>a</p>").
Definition generic_B : EpubItem :=
  chapter (lit "ch2.xhtml")
    (lit "<h2 class='title'>B" ++ utf8_question_mark ++ lit "</h2><p>b</p>").
Definition generic_C : EpubItem :=
  chapter (lit "ch3.xhtml")
    (lit "<h2 class='title'>C" ++ utf8_question_mark ++ lit "</h2><p>c</p>").

Definition book_A : EpubItem :=
  chapter (lit "ch1.xhtml") (book_html (lit "qa") (lit "a")).
Definition book_B : EpubItem :=
  chapter (lit "ch2.xhtml") (book_html (lit "qb") (lit "b")).
Definition book_C : EpubItem :=
  chapter (lit "ch3.xhtml") (book_html (lit "qc") (lit "c")).

Definition not_utf8 : EpubItem := chapter (lit "ch2.xhtml") [60; 112; 62; 255].
Definition refused : EpubItem := chapter (lit "ch2.xhtml") (lit "<p>?</p>").
Definition picture : EpubItem :=
  {| get_type := 1; get_name := lit "fig1.jpg"; get_content := [255; 216] |}.

(* ------------------------------------------------------------------ *)
(** ** [extract_qa_from_html] when a call on the tree raises

    The [try] block of lines 42-82 ends at the first exception, whatever
    raises it; the handler of lines 84-85 logs it and line 87 returns
    [qa_pairs] as it is then.  Here the calls of [find_all] and of
    [get_text] may raise as well as the parser: [find_all_raises soup]
    and [get_text_raises n] are the exception that
    [soup.find_all(...)] and [n.get_text()] raise, if they raise (a
    [MemoryError] or a [RecursionError] of the library, say).  What is
    left of the block reads attributes ([name], [next_sibling]) and tests
    strings.  The functions above are the case where neither call
    raises. *)

Section ExtractQaFromHtmlRaising.

Variable find_all_raises : node -> option exn.
Variable get_text_raises : node -> option exn.
Variable BeautifulSoup : str -> exn + node.
Variable names : list str.
Variable class_ : option str -> bool.
Variable skip_question : str -> bool.
Variable is_next_question : node -> bool.
Variable is_answer_paragraph : node -> bool.

(** [n.get_text()]. *)
Definition get_text_or_raise (n : node) : exn + str :=
  match get_text_raises n with
  | Some e => inl e
  | None => inr (get_text n)
  end.

(** Lines 60-72: the walk, which ends at the first paragraph whose
    [get_text] (line 69) raises. *)
Fixpoint collect_or_raise (siblings : list node) : exn + list str :=
  match siblings with
  | [] => inr []
  | current :: rest =>
      if negb (truthy current) then inr []
      else if is_next_question current then inr []
      else if is_answer_paragraph current then
        match get_text_or_raise current with
        | inl e => inl e
        | inr raw =>
            let text := clean_text raw in
            match collect_or_raise rest with
            | inl e => inl e
            | inr more => inr (if truthy_str text then text :: more else more)
            end
        end
      else collect_or_raise rest
  end.

(** Lines 53-82, one turn of [for q in questions]: the next state, or
    the exception of [q.get_text()] (line 53) or of the walk. *)
Definition for_question_or_raise (state : list QAPair * list log_record)
    (q : located) : exn + list QAPair * list log_record :=
  match get_text_or_raise (fst q) with
  | inl e => inl e
  | inr raw =>
      let question_text := clean_text raw in
      if skip_question question_text then inr state
      else
        match collect_or_raise (snd q) with
        | inl e => inl e
        | inr answer_paragraphs =>
            let answer := join [NEWLINE] answer_paragraphs in
            if truthy_str question_text && truthy_str answer
            then inr (fst state
                      ++ [{| question := question_text; answer := answer |}],
                      snd state ++ [DebugPair (firstn 50 question_text)])
            else inr state
        end
  end.

(** The loop, up to its end or to the first turn that raises: the state
    reached, and the exception if there is one. *)
Fixpoint for_questions_or_raise (questions : list located)
    (state : list QAPair * list log_record)
    : (list QAPair * list log_record) * option exn :=
  match questions with
  | [] => (state, None)
  | q :: rest =>
      match for_question_or_raise state q with
      | inl e => (state, Some e)
      | inr next => for_questions_or_raise rest next
      end
  end.

(** The exception that the turn of [q] raises, if it raises. *)
Definition raised_by (q : located) : option exn :=
  match for_question_or_raise ([], []) q with
  | inl e => Some e
  | inr _ => None
  end.

(** Lines 41-87. *)
Definition extract_qa_from_html_raising (html_content file_name : str)
    : list QAPair * list log_record :=
  match BeautifulSoup html_content with
  | inl e => ([], [ErrorHtml file_name e])
  | inr soup =>
      match find_all_raises soup with
      | Some e => ([], [ErrorHtml file_name e])
      | None =>
          match find_all names class_ soup with
          | [] => ([], [DebugNoQuestion file_name])
          | q :: more =>
              match for_questions_or_raise (q :: more) ([], []) with
              | (state, None) => state
              | (state, Some e) =>
                  (fst state, snd state ++ [ErrorHtml file_name e])
              end
          end
      end
  end.

End ExtractQaFromHtmlRaising.

(** [extract_qa.py] over this function: [extract_qa_from_html] with the
    arguments of the file, and lines 89-109 on it. *)
Module ExtractQaRaising.
Section Generic.

Variable find_all_raises : node -> option exn.
Variable get_text_raises : node -> option exn.
Variable lower : str -> str.
Variable BeautifulSoup : str -> exn + node.
Variable epub_read_epub : str -> exn + list EpubItem.

Definition extract_qa_from_html (html_content file_name : str)
    : list QAPair * list log_record :=
  extract_qa_from_html_raising find_all_raises get_text_raises BeautifulSoup
    ExtractQa.names (ExtractQa.class_ lower) ExtractQa.skip_question
    (ExtractQa.is_next_question lower) ExtractQa.is_answer_paragraph
    html_content file_name.

(** Lines 96-106. *)
Definition for_item (state : list QAPair * nat * list log_record)
    (item : EpubItem) : list QAPair * nat * list log_record :=
  let '(all_qa_pairs, processed_files, log) := state in
  if is_content_item lower item then
    match decode_utf8 (get_content item) with
    | inl e => (all_qa_pairs, processed_files,
                log ++ [ErrorFile (get_name item) e])
    | inr html_content =>
        let (qa_pairs, log') :=
          extract_qa_from_html html_content (get_name item) in
        match qa_pairs with
        | [] => (all_qa_pairs, processed_files, log ++ log')
        | _ :: _ =>
            (all_qa_pairs ++ qa_pairs, S processed_files,
             log ++ log' ++ [InfoFile (get_name item) (length qa_pairs)])
        end
    end
  else state.

Definition pairs_of_item (item : EpubItem) : list QAPair :=
  if is_content_item lower item then
    match decode_utf8 (get_content item) with
    | inl _ => []
    | inr html_content =>
        fst (extract_qa_from_html html_content (get_name item))
    end
  else [].

Definition extract_qa_from_epub (epub_path : str)
    : (exn + list QAPair) * list log_record :=
  match read_epub epub_read_epub epub_path with
  | (inl e, log) => (inl e, log)
  | (inr book, log) =>
      let '(all_qa_pairs, processed_files, log) :=
        fold_left for_item book ([], O, log) in
      (inr all_qa_pairs,
       log ++ [InfoTotal processed_files (length all_qa_pairs)])
  end.

End Generic.
End ExtractQaRaising.

(** [extract_qa_chinese.py] over this function. *)
Module ExtractQaChineseRaising.
Section BookSpecific.

Variable find_all_raises : node -> option exn.
Variable get_text_raises : node -> option exn.
Variable lower : str -> str.
Variable BeautifulSoup : str -> exn + node.
Variable epub_read_epub : str -> exn + list EpubItem.

Definition extract_qa_from_html (html_content file_name : str)
    : list QAPair * list log_record :=
  extract_qa_from_html_raising find_all_raises get_text_raises BeautifulSoup
    ExtractQaChinese.names ExtractQaChinese.class_
    ExtractQaChinese.skip_question ExtractQaChinese.is_next_question
    ExtractQaChinese.is_answer_paragraph html_content file_name.

(** Lines 96-107. *)
Definition for_item (state : list QAPair * nat * list log_record)
    (item : EpubItem) : list QAPair * nat * list log_record :=
  let '(all_qa_pairs, processed_files, log) := state in
  if is_content_item lower item then
    match decode_utf8 (get_content item) with
    | inl e => (all_qa_pairs, processed_files,
                log ++ [ErrorFile (get_name item) e])
    | inr html_content =>
        let (qa_pairs, log') :=
          extract_qa_from_html html_content (get_name item) in
        let all_qa_pairs :=
          match qa_pairs with
          | [] => all_qa_pairs
          | _ :: _ => all_qa_pairs ++ qa_pairs
          end in
        let processed_files := S processed_files in
        (all_qa_pairs, processed_files,
         log ++ log'
         ++ (if Nat.eqb (Nat.modulo processed_files 10) 0
             then [InfoProgress processed_files (length all_qa_pairs)]
             else []))
    end
  else state.

Definition pairs_of_item (item : EpubItem) : list QAPair :=
  if is_content_item lower item then
    match decode_utf8 (get_content item) with
    | inl _ => []
    | inr html_content =>
        fst (extract_qa_from_html html_content (get_name item))
    end
  else [].

Definition extract_qa_from_epub (epub_path : str)
    : (exn + list QAPair) * list log_record :=
  match read_epub epub_read_epub epub_path with
  | (inl e, log) => (inl e, log)
  | (inr book, log) =>
      let '(all_qa_pairs, processed_files, log) :=
        fold_left for_item book ([], O, log) in
      (inr all_qa_pairs,
       log ++ [InfoTotal processed_files (length all_qa_pairs)])
  end.

End BookSpecific.
End ExtractQaChineseRaising.

(** Calls that never raise. *)
Definition never_raises (n : node) : option exn := None.

(** A [get_text] that raises on the tag whose text is "R？". *)
Definition second_heading_raises (n : node) : option exn :=
  if str_eqb (get_text n) [82; FULLWIDTH_QUESTION_MARK]
  then Some (Exception (lit "MemoryError"))
  else None.

(** A [find_all] that raises on every tree. *)
Definition find_all_fails (soup : node) : option exn :=
  Some (Exception (lit "RecursionError")).

(** The page of the two questions as a package entry. *)
Definition two_questions_chapter : EpubItem :=
  chapter (lit "ch2.xhtml")
    (lit "<h2 class='title'>Q" ++ utf8_question_mark
     ++ lit "</h2><p>a</p><p>b</p><h3 class='Heading1'>R"
     ++ utf8_question_mark ++ lit "</h3><p>c</p>").

(** [logging.basicConfig(level=logging.INFO)], line 10 of both files:
    the records of [logging.debug] are below the level and are not
    emitted. *)
Definition emitted (r : log_record) : bool :=
  match r with
  | DebugNoQuestion _ | DebugPair _ => false
  | _ => true
  end.

(* ------------------------------------------------------------------ *)
(** ** The walk, in closed form *)

(** The siblings that the loop of lines 63-72 visits: those before the
    first one at which [while current:] or the test of lines 64-65
    ends it. *)
Fixpoint visited_siblings (is_next_question : node -> bool)
    (siblings : list node) : list node :=
  match siblings with
  | [] => []
  | current :: rest =>
      if negb (truthy current) || is_next_question current then []
      else current :: visited_siblings is_next_question rest
  end.

(** [s.split(sep)] for a one-character separator. *)
Fixpoint split_on (sep : char) (s : str) : list str :=
  match s with
  | [] => [[]]
  | c :: rest =>
      if c =? sep then [] :: split_on sep rest
      else match split_on sep rest with
           | w :: ws => (c :: w) :: ws
           | [] => [[c]]
           end
  end.

(* ------------------------------------------------------------------ *)
(** ** UTF-8, the other way *)

(** A Unicode scalar value: a code point that is no surrogate. *)
Definition scalar_value (c : char) : bool :=
  (c <=? 1114111) && negb ((55296 <=? c) && (c <=? 57343)).

(** [str.encode('utf-8')] of one character; it raises on a surrogate. *)
Definition encode_char (c : char) : option (list N) :=
  if c <? 128 then Some [c]
  else if c <? 2048 then Some [192 + c / 64; 128 + c mod 64]
  else if c <? 65536 then
    if (55296 <=? c) && (c <=? 57343) then None
    else Some [224 + c / 4096; 128 + (c / 64) mod 64; 128 + c mod 64]
  else if c <=? 1114111 then
    Some [240 + c / 262144; 128 + (c / 4096) mod 64;
          128 + (c / 64) mod 64; 128 + c mod 64]
  else None.

Fixpoint encode_utf8 (s : str) : option (list N) :=
  match s with
  | [] => Some []
  | c :: rest =>
      match encode_char c, encode_utf8 rest with
      | Some bs, Some more => Some (bs ++ more)
      | _, _ => None
      end
  end.

(** The records that [extract_qa_from_html] can log. *)
Definition html_record (r : log_record) : Prop :=
  match r with
  | DebugNoQuestion _ | DebugPair _ | ErrorHtml _ _ => True
  | _ => False
  end.

(** The progress records of [extract_qa_chinese.py] and the per-file
    records of [extract_qa.py] in a log. *)
Definition progress_records (log : list log_record) : list log_record :=
  filter (fun r => match r with InfoProgress _ _ => true | _ => false end) log.

Definition file_records (log : list log_record) : list log_record :=
  filter (fun r => match r with InfoFile _ _ => true | _ => false end) log.

(** A decoded character put before the decoding of the rest. *)
Definition then_cons (c : char) (r : exn + str) : exn + str :=
  match r with inl e => inl e | inr s => inr (c :: s) end.

(* ------------------------------------------------------------------ *)
(** ** [save_qa_to_json] and [main]

    What a run does, in order: the calls to [logging], the call of
    [json.dump] on the opened output file, the lines printed. *)

Inductive print_line : Type :=
| PrintStatistics
| PrintTotal (count : nat)
| PrintExamples
| PrintExample (i : nat)
| PrintQuestion (question : str)
| PrintAnswer (answer_prefix : str).

Inductive event : Type :=
| Logging (r : log_record)
| InfoSaved (count : nat) (output_file : str)
| ErrorSave (e : exn)
| ErrorMain (e : exn)
| InfoStart
| InfoDone
| WarningNoPairs
| JsonDump (output_file : str) (qa_pairs : list QAPair)
| Print (line : print_line).

(** [save_qa_to_json] (both files, the same but for the text of the
    error message).  [open_file output_file] stands for
    [open(output_file, 'w', encoding='utf-8')] and
    [json_dump output_file qa_pairs] for
    [json.dump(qa_pairs, f, ensure_ascii=False, indent=2)] on the opened
    file: [None] when the call returns, the exception when it raises.
    When [open] raises, [json.dump] is not called.  The exception of
    either is logged and raised again. *)
Definition save_qa_to_json (open_file : str -> option exn)
    (json_dump : str -> list QAPair -> option exn)
    (qa_pairs : list QAPair) (output_file : str)
    : option exn * list event :=
  match open_file output_file with
  | Some e => (Some e, [ErrorSave e])
  | None =>
      match json_dump output_file qa_pairs with
      | None =>
          (None, [JsonDump output_file qa_pairs;
                  InfoSaved (length qa_pairs) output_file])
      | Some e => (Some e, [JsonDump output_file qa_pairs; ErrorSave e])
      end
  end.

(** The files that a run dumps, with what it dumps in them. *)
Fixpoint dumps (events : list event) : list (str * list QAPair) :=
  match events with
  | [] => []
  | JsonDump output_file qa_pairs :: rest =>
      (output_file, qa_pairs) :: dumps rest
  | _ :: rest => dumps rest
  end.

(** The lines that a run prints. *)
Fixpoint printed (events : list event) : list print_line :=
  match events with
  | [] => []
  | Print line :: rest => line :: printed rest
  | _ :: rest => printed rest
  end.

Module ExtractQaMain.
Section Main.

Variable lower : str -> str.
Variable BeautifulSoup : str -> exn + node.
Variable epub_read_epub : str -> exn + list EpubItem.
Variable open_file : str -> option exn.
Variable json_dump : str -> list QAPair -> option exn.

Definition epub_path : str :=
  [29233; 38382; 30334; 31185; 95; 26469; 33258; 32654; 22269; 30340;
   21313; 19975; 20010; 20026; 20160; 20040; 40; 22871; 35013; 20849; 55;
   20876; 41; 32; 45; 32; 40; 32654; 41; 32; 29595; 24503; 29747; 183;
   36842; 20811; 23572; 26862; 32; 38; 32; 24085; 29305; 20029; 22799;
   183; 24052; 23612; 26031; 45; 26031; 29926; 23612; 65292; 25176; 39532;
   26031; 183; 69; 46; 26031; 29926; 32; 38; 32; 40; 32654; 41; 21305;
   20857; 22561; 21345; 32784; 22522; 22270; 20070; 39302; 46; 101; 112;
   117; 98].

Definition output_file : str := lit "qa_pairs.json".

(** Lines 135-138, one turn of [for i, qa in enumerate(qa_pairs[:3], 1)]. *)
Definition print_example (numbered : nat * QAPair) : list print_line :=
  let (i, qa) := numbered in
  [PrintExample i; PrintQuestion (question qa);
   PrintAnswer (firstn 200 (answer qa))].

(** Lines 121-141. *)
Definition main : list event :=
  match ExtractQa.extract_qa_from_epub lower BeautifulSoup epub_read_epub
          epub_path with
  | (inl e, log) => map Logging log ++ [ErrorMain e]
  | (inr qa_pairs, log) =>
      map Logging log ++
      match save_qa_to_json open_file json_dump qa_pairs output_file with
      | (Some e, saved) => saved ++ [ErrorMain e]
      | (None, saved) =>
          saved
          ++ map Print
               ([PrintStatistics; PrintTotal (length qa_pairs);
                 PrintExamples]
                ++ flat_map print_example
                     (combine (seq 1 3) (firstn 3 qa_pairs)))
      end
  end.

End Main.
End ExtractQaMain.

Module ExtractQaChineseMain.
Section Main.

Variable lower : str -> str.
Variable BeautifulSoup : str -> exn + node.
Variable epub_read_epub : str -> exn + list EpubItem.
Variable open_file : str -> option exn.
Variable json_dump : str -> list QAPair -> option exn.

Definition epub_path : str :=
  [21313; 19975; 20010; 20026; 20160; 20040; 45; 45; 31532; 20845; 29256;
   45; 24425; 33394; 22270; 25991; 26412; 32; 40; 38889; 21551; 24503;
   20027; 32534; 32; 91; 38889; 21551; 24503; 20027; 32534; 93; 41; 32;
   40; 90; 45; 76; 105; 98; 114; 97; 114; 121; 41; 46; 101; 112; 117; 98].

Definition output_file : str := lit "qa_pairs_chinese.json".

(** Lines 122-137. *)
Definition main : list event :=
  [InfoStart] ++
  match ExtractQaChinese.extract_qa_from_epub lower BeautifulSoup
          epub_read_epub epub_path with
  | (inl e, log) => map Logging log ++ [ErrorMain e]
  | (inr qa_pairs, log) =>
      map Logging log ++
      match qa_pairs with
      | _ :: _ =>
          match save_qa_to_json open_file json_dump qa_pairs output_file with
          | (Some e, saved) => saved ++ [ErrorMain e]
          | (None, saved) => saved ++ [InfoDone]
          end
      | [] => [WarningNoPairs]
      end
  end.

End Main.
End ExtractQaChineseMain.

(** An output file that can be opened, and one that cannot. *)
Definition open_ok (output_file : str) : option exn := None.

Definition open_fails (output_file : str) : option exn :=
  Some (Exception (lit "PermissionError")).

(** A dump that returns, and one that raises while it writes. *)
Definition dump_ok (output_file : str) (qa_pairs : list QAPair)
    : option exn := None.

Definition dump_fails (output_file : str) (qa_pairs : list QAPair)
    : option exn := Some (Exception (lit "OSError")).

(** A reader that cannot open the package. *)
Definition reader_fails (epub_path : str) : exn + list EpubItem :=
  inl (Exception (lit "BadZipFile")).

(** A chapter without a question. *)
Definition generic_plain : EpubItem :=
  chapter (lit "ch0.xhtml") (lit "<p>no heading</p>").

(** The page of the two questions inside a [div]. *)
Definition wrapped_html : str :=
  lit "<div class='chapter'>" ++ two_questions_html ++ lit "</div>".

Definition wrapped_body : list node :=
  [Tag (lit "div") (Some [lit "chapter"]) two_questions_body].

Definition wider_parser : str -> exn + node :=
  parser_of ((wrapped_html, page wrapped_body) :: example_pages).

(* ================================================================== *)
(** * Properties *)

(* ------------------------------------------------------------------ *)
(** ** Strings *)

Lemma space_isspace : isspace SPACE = true.
Proof. reflexivity. Qed.

Lemma truthy_str_true (s : str) : truthy_str s = true <-> s <> [].
Proof. destruct s; simpl; split; congruence. Qed.

Lemma str_eqb_eq (a b : str) : str_eqb a b = true <-> a = b.
Proof.
  revert b; induction a as [|x a IH]; intros [|y b]; simpl;
    try (split; congruence).
  rewrite andb_true_iff, N.eqb_eq, IH. split.
  - intros [-> ->]. reflexivity.
  - intros H; injection H; auto.
Qed.

Lemma startswith_prefix (s p : str) :
  startswith s p = true <-> exists rest, s = p ++ rest.
Proof.
  revert s; induction p as [|x p IH]; intros s; simpl.
  - split; [intros _; exists s; reflexivity | reflexivity].
  - destruct s as [|c s].
    + split; [discriminate | intros [rest H]; discriminate].
    + rewrite andb_true_iff, N.eqb_eq, IH. split.
      * intros [-> [rest ->]]. exists rest. reflexivity.
      * intros [rest H]. injection H as -> ->. split; eauto.
Qed.

(** [needle in hay] is true exactly when [needle] occurs in [hay]. *)
Lemma contains_substring (needle hay : str) :
  contains needle hay = true <->
  exists before after, hay = before ++ needle ++ after.
Proof.
  induction hay as [|c hay IH].
  - simpl. rewrite orb_false_r, startswith_prefix. split.
    + intros [rest H]. exists [], rest. exact H.
    + intros [[|b before] [after H]]; [exists after; exact H | discriminate].
  - cbn [contains]. rewrite orb_true_iff, startswith_prefix, IH. split.
    + intros [[rest H] | [before [after H]]].
      * exists [], rest. exact H.
      * exists (c :: before), after. rewrite H. reflexivity.
    + intros [[|b before] [after H]].
      * left. exists after. exact H.
      * right. injection H as _ H. exists before, after. exact H.
Qed.

(* ------------------------------------------------------------------ *)
(** ** [clean_text] *)

Lemma re_sub_spaces_normalized (b : bool) (x : str) :
  normalized b (re_sub_spaces b x) = true.
Proof.
  revert b; induction x as [|c x IH]; intros b; simpl; [reflexivity|].
  destruct (isspace c) eqn:Hc.
  - destruct b; [apply IH|].
    cbn [normalized]. rewrite space_isspace. cbn. apply IH.
  - simpl. rewrite Hc. apply IH.
Qed.

Lemma re_sub_spaces_fixed (b : bool) (s : str) :
  normalized b s = true -> re_sub_spaces b s = s.
Proof.
  revert b; induction s as [|c s IH]; intros b; simpl; [reflexivity|].
  destruct (isspace c) eqn:Hc.
  - destruct b; simpl; [discriminate|].
    rewrite andb_true_iff, N.eqb_eq. intros [-> H]. f_equal. apply IH, H.
  - intros H. f_equal. apply IH, H.
Qed.

Lemma lstrip_normalized (b b' : bool) (s : str) :
  normalized b s = true -> normalized b' (lstrip s) = true.
Proof.
  revert b; induction s as [|c s IH]; intros b; simpl; [reflexivity|].
  destruct (isspace c) eqn:Hc.
  - rewrite !andb_true_iff. intros [_ H]. eapply IH, H.
  - simpl. rewrite Hc. trivial.
Qed.

Lemma rstrip_normalized (b : bool) (s : str) :
  normalized b s = true -> normalized b (rstrip s) = true.
Proof.
  revert b; induction s as [|c s IH]; intros b; simpl; [reflexivity|].
  destruct (isspace c) eqn:Hc.
  - rewrite !andb_true_iff. intros [[Hb Hsp] H].
    specialize (IH true H). destruct (rstrip s) as [|k kept]; [reflexivity|].
    cbn [normalized]. rewrite Hc, Hb, Hsp. exact IH.
  - intros H. specialize (IH false H).
    destruct (rstrip s) as [|k kept]; simpl; rewrite Hc; [reflexivity|].
    exact IH.
Qed.

Lemma rstrip_idempotent (s : str) : rstrip (rstrip s) = rstrip s.
Proof.
  induction s as [|c s IH]; simpl; [reflexivity|].
  destruct (rstrip s) as [|k kept] eqn:E.
  - destruct (isspace c) eqn:Hc; simpl; [reflexivity|]. rewrite Hc. reflexivity.
  - cbn [rstrip] in *. rewrite IH. reflexivity.
Qed.

Lemma lstrip_no_leading_space (s : str) : no_leading_space (lstrip s) = true.
Proof.
  induction s as [|c s IH]; simpl; [reflexivity|].
  destruct (isspace c) eqn:Hc; [exact IH|]. simpl. rewrite Hc. reflexivity.
Qed.

Lemma lstrip_fixed (s : str) : no_leading_space s = true -> lstrip s = s.
Proof.
  destruct s as [|c s]; simpl; [reflexivity|].
  destruct (isspace c); [discriminate | reflexivity].
Qed.

Lemma rstrip_no_leading_space (s : str) :
  no_leading_space s = true -> no_leading_space (rstrip s) = true.
Proof.
  destruct s as [|c s]; simpl; [reflexivity|].
  destruct (isspace c) eqn:Hc; [discriminate|]. intros _.
  destruct (rstrip s); simpl; rewrite Hc; reflexivity.
Qed.

Lemma clean_text_normalized (x : str) : normalized true (clean_text x) = true.
Proof.
  unfold clean_text, strip.
  apply rstrip_normalized, (lstrip_normalized false), re_sub_spaces_normalized.
Qed.

Lemma normalized_weaken (b : bool) (s : str) :
  normalized true s = true -> normalized b s = true.
Proof.
  destruct s as [|c s]; simpl; [reflexivity|].
  destruct (isspace c); [discriminate | trivial].
Qed.

Lemma clean_text_no_leading_space (x : str) :
  no_leading_space (clean_text x) = true.
Proof.
  unfold clean_text, strip. apply rstrip_no_leading_space, lstrip_no_leading_space.
Qed.

Lemma clean_text_idempotent (x : str) : clean_text (clean_text x) = clean_text x.
Proof.
  unfold clean_text at 1. cbv zeta. unfold strip.
  rewrite re_sub_spaces_fixed
    by apply normalized_weaken, clean_text_normalized.
  rewrite lstrip_fixed by apply clean_text_no_leading_space.
  unfold clean_text, strip. apply rstrip_idempotent.
Qed.

Lemma lstrip_re_sub_spaces (b : bool) (x : str) :
  lstrip (re_sub_spaces b x) = re_sub_spaces true x.
Proof.
  revert b; induction x as [|c x IH]; intros b; simpl; [reflexivity|].
  destruct (isspace c) eqn:Hc.
  - destruct b; [apply IH|]. cbn [lstrip]. rewrite space_isspace. apply IH.
  - simpl. rewrite Hc. reflexivity.
Qed.

Lemma split_words_nonempty (s : str) : Forall (fun w => w <> []) (split_words s).
Proof.
  induction s as [|c s IH]; simpl; [constructor|].
  destruct (isspace c); [exact IH|].
  destruct s as [|d s']; [repeat constructor; discriminate|].
  destruct (isspace d).
  - constructor; [discriminate | exact IH].
  - destruct (split_words (d :: s')) as [|w ws].
    + repeat constructor; discriminate.
    + inversion IH; subst. constructor; [discriminate | assumption].
Qed.

Lemma join_nil (sep : str) (l : list str) :
  Forall (fun w => w <> []) l -> join sep l = [] -> l = [].
Proof.
  destruct l as [|w l]; [reflexivity|]. intros H. inversion H; subst.
  destruct w as [|a w]; [congruence|]. destruct l; discriminate.
Qed.

Lemma join_cons (sep w : str) (l : list str) :
  l <> [] -> join sep (w :: l) = w ++ sep ++ join sep l.
Proof. destruct l; [congruence | reflexivity]. Qed.

Lemma rstrip_re_sub_spaces (x : str) :
  rstrip (re_sub_spaces true x) = join [SPACE] (split_words x).
Proof.
  induction x as [|c x IH]; [reflexivity|].
  cbn [re_sub_spaces split_words].
  destruct (isspace c) eqn:Hc; [exact IH|].
  destruct x as [|d x'].
  - simpl. rewrite Hc. reflexivity.
  - pose proof (split_words_nonempty (d :: x')) as Hne.
    cbn [rstrip]. destruct (isspace d) eqn:Hd.
    + (* a run of whitespace follows [c] *)
      cbn [re_sub_spaces] in *. rewrite Hd in *. cbn [rstrip]. rewrite IH.
      destruct (join [SPACE] (split_words (d :: x'))) as [|k kept] eqn:E.
      * apply join_nil in E; [|exact Hne]. rewrite E, Hc. reflexivity.
      * rewrite join_cons by (intros E'; rewrite E' in E; discriminate).
        rewrite E. reflexivity.
    + (* [c] and [d] are in the same word *)
      assert (Hg : re_sub_spaces false (d :: x') = re_sub_spaces true (d :: x'))
        by (cbn [re_sub_spaces]; rewrite Hd; reflexivity).
      rewrite Hg, IH.
      destruct (split_words (d :: x')) as [|w ws] eqn:E.
      * exfalso. cbn [split_words] in E. rewrite Hd in E.
        destruct x' as [|e x'']; [discriminate|].
        destruct (isspace e); [discriminate|].
        destruct (split_words (e :: x'')); discriminate.
      * inversion Hne; subst.
        destruct w as [|a w]; [congruence|].
        destruct ws; reflexivity.
Qed.

(** [clean_text] computes what its description says. *)
Lemma clean_text_refines_spec (x : str) : clean_text x = clean_text_spec x.
Proof.
  unfold clean_text, clean_text_spec, strip.
  rewrite lstrip_re_sub_spaces. apply rstrip_re_sub_spaces.
Qed.

Lemma ends_with_space_cons (c : char) (s : str) :
  s <> [] -> ends_with_space (c :: s) = ends_with_space s.
Proof.
  unfold ends_with_space. simpl. intros H.
  destruct (rev s) as [|x t] eqn:E; [|reflexivity].
  apply (f_equal (@rev char)) in E. rewrite rev_involutive in E. contradiction.
Qed.

Lemma rstrip_no_trailing_space (s : str) : ends_with_space (rstrip s) = false.
Proof.
  induction s as [|c s IH]; simpl; [reflexivity|].
  destruct (rstrip s) as [|k kept] eqn:E.
  - destruct (isspace c) eqn:Hc; [reflexivity|].
    unfold ends_with_space. simpl. exact Hc.
  - rewrite ends_with_space_cons by discriminate. exact IH.
Qed.

(** The words of a text are free of whitespace. *)
Lemma split_words_no_space (s : str) :
  Forall (fun w => forallb (fun c => negb (isspace c)) w = true) (split_words s).
Proof.
  induction s as [|c s IH]; simpl; [constructor|].
  destruct (isspace c) eqn:Hc; [exact IH|].
  destruct s as [|d s'].
  - repeat constructor. simpl. rewrite Hc. reflexivity.
  - destruct (isspace d).
    + constructor; [simpl; rewrite Hc; reflexivity | exact IH].
    + destruct (split_words (d :: s')) as [|w ws].
      * repeat constructor. simpl. rewrite Hc. reflexivity.
      * inversion IH; subst. constructor; [|assumption].
        simpl. rewrite Hc. assumption.
Qed.

Lemma split_words_head (d : char) (s : str) :
  isspace d = false -> split_words (d :: s) <> [].
Proof.
  intros Hd. cbn [split_words]. rewrite Hd.
  destruct s as [|e s']; [discriminate|].
  destruct (isspace e); [discriminate|].
  destruct (split_words (e :: s')); discriminate.
Qed.

(** Whitespace separates words, and nothing else does. *)
Lemma split_words_space (a b : str) (c : char) :
  isspace c = true -> split_words (a ++ c :: b) = split_words a ++ split_words b.
Proof.
  intros Hc. induction a as [|x a IH].
  - simpl. rewrite Hc. reflexivity.
  - cbn [app split_words]. destruct (isspace x); [exact IH|].
    destruct a as [|d a'].
    + simpl. rewrite Hc. reflexivity.
    + cbn [app] in *. destruct (isspace d) eqn:Hd; [rewrite IH; reflexivity|].
      rewrite IH. pose proof (split_words_head d a' Hd) as Hne.
      destruct (split_words (d :: a')); [congruence | reflexivity].
Qed.

Lemma split_words_word (w : str) :
  w <> [] -> forallb (fun c => negb (isspace c)) w = true -> split_words w = [w].
Proof.
  induction w as [|c w IH]; [congruence|]. intros _. simpl.
  rewrite andb_true_iff, negb_true_iff. intros [Hc Hw]. rewrite Hc.
  destruct w as [|d w']; [reflexivity|].
  assert (Hd : isspace d = false)
    by (simpl in Hw; apply andb_true_iff in Hw; destruct Hw as [Hd _];
        apply negb_true_iff; exact Hd).
  rewrite Hd, IH by (discriminate || exact Hw). reflexivity.
Qed.

(** C8: [clean_text] replaces every run of whitespace (newlines and tabs
    included) by one space and removes the whitespace at both ends: its
    result is the words of the text joined by single spaces, it holds no
    whitespace other than single spaces between words, [clean_text] of
    [" a \n\n b "] is ["a b"], and cleaning a cleaned text changes
    nothing. *)
Theorem clean_text_collapses_and_is_idempotent :
  clean_text [32; 97; 32; 10; 10; 32; 98; 32] = lit "a b"
  /\ clean_text [9; 97; 9; 13; 10; 98; 12288] = lit "a b"
  /\ (forall x, clean_text x = join [SPACE] (split_words x))
  /\ (forall x, normalized true (clean_text x) = true
                /\ ends_with_space (clean_text x) = false)
  /\ (forall x, clean_text (clean_text x) = clean_text x).
Proof.
  split; [reflexivity|]. split; [reflexivity|].
  split; [exact clean_text_refines_spec|].
  split; [|exact clean_text_idempotent].
  intros x. split; [apply clean_text_normalized|].
  unfold clean_text, strip. apply rstrip_no_trailing_space.
Qed.

(* ------------------------------------------------------------------ *)
(** ** [is_content_item] *)

(** C9: an item is a content item exactly when its type is
    [ITEM_DOCUMENT] and none of "nav", "toc", "content.opf", "cover"
    occurs in its lower-cased name. *)
Theorem is_content_item_iff (lower : str -> str) (item : EpubItem) :
  is_content_item lower item = true <->
  get_type item = ITEM_DOCUMENT
  /\ forall x, In x [lit "nav"; lit "toc"; lit "content.opf"; lit "cover"] ->
       ~ exists before after, lower (get_name item) = before ++ x ++ after.
Proof.
  unfold is_content_item.
  destruct (get_type item =? ITEM_DOCUMENT) eqn:Ht.
  - apply N.eqb_eq in Ht.
    destruct (existsb _ _) eqn:Hx.
    + split; [discriminate|]. intros [_ Hno]. exfalso.
      apply existsb_exists in Hx. destruct Hx as [x [Hin Hc]].
      apply (Hno x Hin). apply contains_substring. exact Hc.
    + split; [|reflexivity]. intros _. split; [exact Ht|].
      intros x Hin Hocc. apply contains_substring in Hocc.
      assert (existsb (fun x => contains x (lower (get_name item)))
                [lit "nav"; lit "toc"; lit "content.opf"; lit "cover"] = true)
        by (apply existsb_exists; exists x; split; assumption).
      congruence.
  - apply N.eqb_neq in Ht. split; [discriminate|]. intros [H _]. contradiction.
Qed.

Example is_content_item_chapter :
  is_content_item ascii_lower
    {| get_type := ITEM_DOCUMENT; get_name := lit "Text/Chapter1.xhtml";
       get_content := [] |} = true.
Proof. reflexivity. Qed.

Example is_content_item_upper_case_nav :
  is_content_item ascii_lower
    {| get_type := ITEM_DOCUMENT; get_name := lit "Text/NAV.xhtml";
       get_content := [] |} = false.
Proof. reflexivity. Qed.

Example is_content_item_image :
  is_content_item ascii_lower
    {| get_type := 1; get_name := lit "Images/fig1.jpg";
       get_content := [] |} = false.
Proof. reflexivity. Qed.

(* ------------------------------------------------------------------ *)
(** ** The tree and [find_all] *)

Lemma descendants_tag (name : str) (class : option (list str))
    (contents : list node) :
  descendants (Tag name class contents) = descendants_of_list contents.
Proof.
  simpl. induction contents as [|c rest IH]; [reflexivity|].
  simpl. rewrite IH. reflexivity.
Qed.

Lemma name_is_not_in (n : node) (name : str) (names : list str) :
  name_is n name = true -> str_in name names = false -> name_in n names = false.
Proof.
  unfold name_is, name_in. destruct (name_of n) as [x|]; [|reflexivity].
  rewrite str_eqb_eq. intros ->. trivial.
Qed.

Lemma name_is_truthy (n : node) (name : str) :
  name_is n name = true -> truthy n = true.
Proof. destruct n; simpl; trivial; discriminate. Qed.

Lemma name_in_truthy (n : node) (names : list str) :
  name_in n names = true -> truthy n = true.
Proof. destruct n; simpl; trivial; discriminate. Qed.

(** On a page, [find_all] looks at the nodes of the body: [html] and
    [body] are no headings. *)
Lemma find_all_page (names : list str) (f : option str -> bool)
    (body : list node) :
  str_in (lit "html") names = false ->
  str_in (lit "body") names = false ->
  find_all names f (page body)
  = filter (fun q => matches names f (fst q)) (descendants_of_list body).
Proof.
  intros Hh Hb. unfold find_all, page.
  rewrite descendants_tag. cbn [descendants_of_list].
  rewrite descendants_tag. cbn [descendants_of_list].
  rewrite descendants_tag. rewrite !app_nil_r.
  assert (Hhtml : forall c, matches names f (Tag (lit "html") None c) = false)
    by (intros c; unfold matches, name_in; cbn [name_of]; rewrite Hh;
        reflexivity).
  assert (Hbody : forall c, matches names f (Tag (lit "body") None c) = false)
    by (intros c; unfold matches, name_in; cbn [name_of]; rewrite Hb;
        reflexivity).
  cbn [filter fst app]. rewrite Hhtml, Hbody. reflexivity.
Qed.

(* ------------------------------------------------------------------ *)
(** ** The loop over the questions *)

Section ExtractQaFromHtmlFacts.

Variable BeautifulSoup : str -> exn + node.
Variable names : list str.
Variable class_ : option str -> bool.
Variable skip_question : str -> bool.
Variable is_next_question : node -> bool.
Variable is_answer_paragraph : node -> bool.

Notation collect :=
  (collect_answer_paragraphs is_next_question is_answer_paragraph).
Notation pairs_of :=
  (pairs_of_question skip_question is_next_question is_answer_paragraph).
Notation step :=
  (for_question skip_question is_next_question is_answer_paragraph).
Notation from_soup :=
  (extract_qa_from_soup names class_ skip_question is_next_question
     is_answer_paragraph).
Notation from_html :=
  (extract_qa_from_html_with BeautifulSoup names class_ skip_question
     is_next_question is_answer_paragraph).

Lemma pairs_of_question_eq (q : located) :
  pairs_of q =
  let question_text := clean_text (get_text (fst q)) in
  let answer := join [NEWLINE] (collect (snd q)) in
  if skip_question question_text then []
  else if truthy_str question_text && truthy_str answer
       then [{| question := question_text; answer := answer |}]
       else [].
Proof.
  unfold pairs_of_question, for_question. cbv zeta.
  destruct (skip_question _); [reflexivity|].
  destruct (_ && _); reflexivity.
Qed.

Lemma for_question_pairs (state : list QAPair * list log_record)
    (q : located) :
  fst (step state q) = fst state ++ pairs_of q.
Proof.
  unfold pairs_of_question, for_question. cbv zeta.
  destruct (skip_question _); [simpl; rewrite app_nil_r; reflexivity|].
  destruct (_ && _); simpl; [reflexivity | rewrite app_nil_r; reflexivity].
Qed.

Lemma for_questions_pairs (questions : list located)
    (state : list QAPair * list log_record) :
  fst (fold_left step questions state)
  = fst state ++ flat_map pairs_of questions.
Proof.
  revert state; induction questions as [|q questions IH]; intros state.
  - simpl. rewrite app_nil_r. reflexivity.
  - cbn [fold_left flat_map]. rewrite IH, for_question_pairs, app_assoc.
    reflexivity.
Qed.

(** The calls of [logging.debug] in the loop: one for each pair. *)
Lemma for_question_log (state : list QAPair * list log_record)
    (q : located) :
  snd (step state q)
  = snd state
    ++ map (fun p => DebugPair (firstn 50 (question p))) (pairs_of q).
Proof.
  unfold pairs_of_question, for_question. cbv zeta.
  destruct (skip_question _); [simpl; rewrite app_nil_r; reflexivity|].
  destruct (_ && _); simpl; [reflexivity | rewrite app_nil_r; reflexivity].
Qed.

Lemma for_questions_log (questions : list located)
    (state : list QAPair * list log_record) :
  snd (fold_left step questions state)
  = snd state
    ++ map (fun p => DebugPair (firstn 50 (question p)))
         (flat_map pairs_of questions).
Proof.
  revert state; induction questions as [|q questions IH]; intros state.
  - simpl. rewrite app_nil_r. reflexivity.
  - cbn [fold_left flat_map]. rewrite IH, for_question_log, map_app, app_assoc.
    reflexivity.
Qed.

(** The pairs of a parsed document: what its questions contribute, in
    document order. *)
Lemma extract_qa_from_soup_pairs (soup : node) (file_name : str) :
  fst (from_soup soup file_name)
  = flat_map pairs_of (find_all names class_ soup).
Proof.
  unfold extract_qa_from_soup.
  destruct (find_all names class_ soup) as [|q questions]; [reflexivity|].
  apply for_questions_pairs.
Qed.

Lemma extract_qa_from_html_pairs (html_content file_name : str) :
  fst (from_html html_content file_name)
  = match BeautifulSoup html_content with
    | inl _ => []
    | inr soup => flat_map pairs_of (find_all names class_ soup)
    end.
Proof.
  unfold extract_qa_from_html_with.
  destruct (BeautifulSoup html_content); [reflexivity|].
  apply extract_qa_from_soup_pairs.
Qed.

(** Every collected paragraph is a cleaned text and is not empty. *)
Lemma collect_answer_paragraphs_cleaned (siblings : list node) :
  Forall (fun text => text <> [] /\ exists x, text = clean_text x)
         (collect siblings).
Proof.
  induction siblings as [|current rest IH]; simpl; [constructor|].
  destruct (truthy current); simpl; [|constructor].
  destruct (is_next_question current); [constructor|].
  destruct (is_answer_paragraph current); [|exact IH].
  destruct (clean_text (get_text current)) as [|c text] eqn:E; simpl;
    [exact IH|].
  constructor; [|exact IH]. split; [discriminate|].
  exists (get_text current). symmetry. exact E.
Qed.

(** The walk ends at a node that passes the test of lines 64-65,
    whatever follows it. *)
Lemma collect_answer_paragraphs_stops (before after : list node)
    (next : node) :
  is_next_question next = true ->
  collect (before ++ next :: after) = collect before.
Proof.
  intros Hnext. induction before as [|current rest IH]; simpl.
  - rewrite Hnext. destruct (truthy next); reflexivity.
  - destruct (truthy current); simpl; [|reflexivity].
    destruct (is_next_question current); [reflexivity|].
    destruct (is_answer_paragraph current); [|exact IH].
    destruct (truthy_str _); [rewrite IH; reflexivity | exact IH].
Qed.

Lemma pairs_of_question_emitted (q : located) (p : QAPair) :
  In p (pairs_of q) ->
  question p = clean_text (get_text (fst q))
  /\ skip_question (question p) = false
  /\ question p <> []
  /\ answer p = join [NEWLINE] (collect (snd q))
  /\ answer p <> [].
Proof.
  rewrite pairs_of_question_eq. cbv zeta.
  destruct (skip_question _) eqn:Hs; [intros []|].
  destruct (truthy_str (clean_text _) && truthy_str _) eqn:Ht; [|intros []].
  apply andb_true_iff in Ht. destruct Ht as [Hq Ha].
  intros [<- | []]. simpl.
  rewrite truthy_str_true in Hq, Ha. auto.
Qed.

End ExtractQaFromHtmlFacts.

(* ------------------------------------------------------------------ *)
(** ** The two signatures *)

Lemma length_lt_2 (s : str) :
  (N.of_nat (length s) <? 2) = false <-> (2 <= length s)%nat.
Proof. rewrite N.ltb_ge. lia. Qed.

Lemma generic_skip_question_false (s : str) :
  ExtractQa.skip_question s = false <->
  s <> [] /\ (2 <= length s)%nat
  /\ endswith s [FULLWIDTH_QUESTION_MARK] = true.
Proof.
  unfold ExtractQa.skip_question.
  rewrite !orb_false_iff, !negb_false_iff, truthy_str_true, length_lt_2.
  tauto.
Qed.

Lemma book_skip_question_false (s : str) :
  ExtractQaChinese.skip_question s = false <-> (2 <= length s)%nat.
Proof.
  unfold ExtractQaChinese.skip_question.
  rewrite orb_false_iff, negb_false_iff, truthy_str_true, length_lt_2.
  split; [tauto|]. intros H. split; [|exact H].
  destruct s; [simpl in H; lia | discriminate].
Qed.

(** A heading that [find_all] returns ends the walk of lines 63-72. *)
Lemma generic_matches_is_next_question (lower : str -> str) (n : node) :
  matches ExtractQa.names (ExtractQa.class_ lower) n = true ->
  ExtractQa.is_next_question lower n = true.
Proof.
  unfold matches, ExtractQa.is_next_question.
  rewrite !andb_true_iff. intros [Hn Hc]. repeat split; [exact Hn|].
  destruct n as [name [tokens|] contents| |]; simpl in *; try discriminate.
  apply existsb_exists in Hc. destruct Hc as [c [Hin Hc]].
  apply andb_true_iff in Hc. destruct Hc as [_ Hc].
  apply existsb_exists. exists c. split; assumption.
Qed.

Lemma book_matches_is_next_question (n : node) :
  matches ExtractQaChinese.names ExtractQaChinese.class_ n = true ->
  ExtractQaChinese.is_next_question n = true.
Proof.
  unfold matches, ExtractQaChinese.is_next_question.
  rewrite !andb_true_iff. intros [Hn Hc]. repeat split; [exact Hn|].
  destruct n as [name [tokens|] contents| |]; simpl in *; try discriminate.
  apply existsb_exists in Hc. destruct Hc as [c [Hin Hc]].
  apply andb_true_iff in Hc. destruct Hc as [_ Hc].
  apply existsb_exists. exists c. split; [exact Hin|].
  apply orb_true_iff in Hc. destruct Hc as [Hc | Hc]; [exact Hc|].
  apply contains_substring in Hc. destruct Hc as [before [after ->]].
  apply contains_substring.
  exists before, ([49] ++ after). reflexivity.
Qed.

(** A [p] tag is no heading of either signature. *)
Lemma generic_paragraph (lower : str -> str) (n : node) :
  name_is n (lit "p") = true ->
  truthy n = true
  /\ ExtractQa.is_next_question lower n = false
  /\ matches ExtractQa.names (ExtractQa.class_ lower) n = false.
Proof.
  intros Hp. split; [eapply name_is_truthy; exact Hp|].
  assert (Hn : name_in n ExtractQa.names = false)
    by (eapply name_is_not_in; [exact Hp | reflexivity]).
  unfold ExtractQa.is_next_question, matches. rewrite Hn. split; reflexivity.
Qed.

Lemma book_paragraph (n : node) :
  name_is n (lit "p") = true ->
  truthy n = true
  /\ ExtractQaChinese.is_next_question n = false
  /\ matches ExtractQaChinese.names ExtractQaChinese.class_ n = false.
Proof.
  intros Hp. split; [eapply name_is_truthy; exact Hp|].
  assert (Hn : name_in n ExtractQaChinese.names = false)
    by (eapply name_is_not_in; [exact Hp | reflexivity]).
  unfold ExtractQaChinese.is_next_question, matches. rewrite Hn.
  split; reflexivity.
Qed.

(* ------------------------------------------------------------------ *)
(** ** The emitted pairs *)

Lemma clean_text_head (c : char) (rest : str) :
  isspace c = false -> clean_text (c :: rest) <> [].
Proof.
  intros Hc. unfold clean_text, strip. cbn [re_sub_spaces]. rewrite Hc.
  cbn [lstrip]. rewrite Hc. cbn [rstrip].
  destruct (rstrip _); [rewrite Hc|]; discriminate.
Qed.

Lemma cleaned_head (x : str) :
  clean_text x <> [] ->
  exists c rest, clean_text x = c :: rest /\ isspace c = false.
Proof.
  intros Hne. pose proof (clean_text_no_leading_space x) as H.
  destruct (clean_text x) as [|c rest]; [congruence|].
  exists c, rest. split; [reflexivity|]. apply negb_true_iff. exact H.
Qed.

(** An answer made of cleaned, non-empty paragraphs does not clean to
    the empty string. *)
Lemma answer_cleans_nonempty (paragraphs : list str) :
  Forall (fun text => text <> [] /\ exists x, text = clean_text x) paragraphs ->
  join [NEWLINE] paragraphs <> [] ->
  clean_text (join [NEWLINE] paragraphs) <> [].
Proof.
  intros Hall Hne.
  destruct paragraphs as [|text rest]; [exfalso; apply Hne; reflexivity|].
  inversion Hall as [|? ? [Ht [x Hx]] _]; subst.
  destruct (cleaned_head x Ht) as [c [tail [E Hc]]].
  assert (Hj : exists more, join [NEWLINE] (clean_text x :: rest) = c :: more).
  { rewrite E. destruct rest; simpl; eauto. }
  destruct Hj as [more ->]. apply clean_text_head, Hc.
Qed.

Section EmittedPairs.

Variable BeautifulSoup : str -> exn + node.
Variable names : list str.
Variable class_ : option str -> bool.
Variable skip_question : str -> bool.
Variable is_next_question : node -> bool.
Variable is_answer_paragraph : node -> bool.

Lemma emitted_pair (html_content file_name : str) (p : QAPair) :
  In p (fst (extract_qa_from_html_with BeautifulSoup names class_
               skip_question is_next_question is_answer_paragraph
               html_content file_name)) ->
  skip_question (question p) = false
  /\ question p <> [] /\ answer p <> []
  /\ clean_text (question p) = question p
  /\ clean_text (answer p) <> [].
Proof.
  rewrite extract_qa_from_html_pairs.
  destruct (BeautifulSoup html_content) as [e|soup]; [intros []|].
  rewrite in_flat_map. intros [q [_ Hp]].
  apply pairs_of_question_emitted in Hp.
  destruct Hp as [Hq [Hs [Hqne [Ha Hane]]]].
  repeat split; try assumption.
  - rewrite Hq. apply clean_text_idempotent.
  - rewrite Ha in *. apply answer_cleans_nonempty; [|exact Hane].
    apply collect_answer_paragraphs_cleaned.
Qed.

End EmittedPairs.

(* ------------------------------------------------------------------ *)
(** ** The walk over the siblings *)

Section SiblingWalk.

Variable names : list str.
Variable class_ : option str -> bool.
Variable skip_question : str -> bool.
Variable is_next_question : node -> bool.
Variable is_answer_paragraph : node -> bool.

Hypothesis html_no_heading : str_in (lit "html") names = false.
Hypothesis body_no_heading : str_in (lit "body") names = false.
Hypothesis heading_is_next :
  forall n, matches names class_ n = true -> is_next_question n = true.
Hypothesis answer_paragraph_is_p :
  forall n, is_answer_paragraph n = true -> name_is n (lit "p") = true.
Hypothesis p_no_heading :
  forall n, name_is n (lit "p") = true ->
    truthy n = true /\ is_next_question n = false
    /\ matches names class_ n = false.
Hypothesis kept_question_nonempty :
  forall s, skip_question s = false -> s <> [].

Notation collect :=
  (collect_answer_paragraphs is_next_question is_answer_paragraph).
Notation pairs_of :=
  (pairs_of_question skip_question is_next_question is_answer_paragraph).
Notation from_soup :=
  (extract_qa_from_soup names class_ skip_question is_next_question
     is_answer_paragraph).
Notation heading := (fun q : located => matches names class_ (fst q)).

Lemma pairs_of_question_same_walk (q : node) (siblings siblings' : list node) :
  collect siblings = collect siblings' ->
  pairs_of (q, siblings) = pairs_of (q, siblings').
Proof.
  intros H. rewrite !pairs_of_question_eq. cbn [fst snd]. rewrite H.
  reflexivity.
Qed.

Lemma pairs_of_question_skipped (q : located) :
  skip_question (clean_text (get_text (fst q))) = true -> pairs_of q = [].
Proof. intros H. rewrite pairs_of_question_eq. cbv zeta. rewrite H. reflexivity. Qed.

Lemma pairs_of_question_kept (q : located) :
  skip_question (clean_text (get_text (fst q))) = false ->
  pairs_of q =
  match collect (snd q) with
  | [] => []
  | _ :: _ => [{| question := clean_text (get_text (fst q));
                  answer := join [NEWLINE] (collect (snd q)) |}]
  end.
Proof.
  intros H. rewrite pairs_of_question_eq. cbv zeta. rewrite H.
  apply kept_question_nonempty, truthy_str_true in H. rewrite H.
  pose proof (collect_answer_paragraphs_cleaned is_next_question
                is_answer_paragraph (snd q)) as Hall.
  destruct (collect (snd q)) as [|text rest] eqn:E; [reflexivity|].
  inversion Hall as [|? ? [Ht _] _]; subst.
  assert (Hj : join [NEWLINE] (text :: rest) <> []).
  { destruct text as [|c text]; [congruence|]. destruct rest; discriminate. }
  apply truthy_str_true in Hj. rewrite Hj. reflexivity.
Qed.

(** What [find_all] returns on [body], as a function of the children. *)
Lemma headings_cons (c : node) (rest : list node) :
  filter heading (descendants_of_list (c :: rest))
  = (if matches names class_ c then [(c, rest)] else [])
    ++ find_all names class_ c
    ++ filter heading (descendants_of_list rest).
Proof.
  cbn [descendants_of_list filter fst]. rewrite filter_app.
  destruct (matches names class_ c); reflexivity.
Qed.

Lemma headings_skip (mid after : list node) :
  Forall (fun n => matches names class_ n = false
                   /\ find_all names class_ n = []) mid ->
  filter heading (descendants_of_list (mid ++ after))
  = filter heading (descendants_of_list after).
Proof.
  induction 1 as [|n mid [Hn Hbelow] _ IH]; [reflexivity|].
  cbn [app]. rewrite headings_cons, Hn, Hbelow. exact IH.
Qed.

(** The paragraphs after a skipped heading, up to the next heading,
    reach no answer: the pairs are those of the page without them. *)
Lemma skipped_heading_paragraphs_lost (before mid after : list node)
    (x : node) :
  matches names class_ x = true ->
  skip_question (clean_text (get_text x)) = true ->
  Forall (fun n => matches names class_ n = false
                   /\ find_all names class_ n = []) mid ->
  flat_map pairs_of
    (filter heading (descendants_of_list (before ++ x :: mid ++ after)))
  = flat_map pairs_of
      (filter heading (descendants_of_list (before ++ x :: after))).
Proof.
  intros Hx Hskip Hmid. induction before as [|c before IH].
  - cbn [app]. rewrite !headings_cons, Hx, !flat_map_app.
    cbn [flat_map]. rewrite !pairs_of_question_skipped by exact Hskip.
    rewrite headings_skip by exact Hmid. reflexivity.
  - cbn [app]. rewrite !headings_cons, !flat_map_app, IH.
    f_equal. destruct (matches names class_ c); [|reflexivity].
    cbn [flat_map]. f_equal. apply pairs_of_question_same_walk.
    rewrite !collect_answer_paragraphs_stops by (apply heading_is_next, Hx).
    reflexivity.
Qed.

Lemma skipped_heading_page (before mid after : list node) (x : node)
    (file_name : str) :
  matches names class_ x = true ->
  skip_question (clean_text (get_text x)) = true ->
  Forall (fun n => matches names class_ n = false
                   /\ find_all names class_ n = []) mid ->
  fst (from_soup (page (before ++ x :: mid ++ after)) file_name)
  = fst (from_soup (page (before ++ x :: after)) file_name).
Proof.
  intros Hx Hskip Hmid. rewrite !extract_qa_from_soup_pairs.
  rewrite !find_all_page by assumption.
  apply skipped_heading_paragraphs_lost; assumption.
Qed.

Lemma collect_paragraph (p : node) (rest : list node) :
  is_answer_paragraph p = true ->
  collect (p :: rest)
  = (if truthy_str (clean_text (get_text p))
     then [clean_text (get_text p)] else []) ++ collect rest.
Proof.
  intros Hp. destruct (p_no_heading p (answer_paragraph_is_p p Hp))
    as [Ht [Hn _]].
  cbn [collect_answer_paragraphs]. rewrite Ht, Hn, Hp. cbn [negb].
  destruct (truthy_str _); reflexivity.
Qed.

Lemma collect_last_paragraph (p : node) :
  name_is p (lit "p") = true ->
  collect [p]
  = if is_answer_paragraph p && truthy_str (clean_text (get_text p))
    then [clean_text (get_text p)] else [].
Proof.
  intros Hp. destruct (p_no_heading p Hp) as [Ht [Hn _]].
  cbn [collect_answer_paragraphs]. rewrite Ht, Hn. cbn [negb].
  destruct (is_answer_paragraph p); [|reflexivity].
  destruct (truthy_str _); reflexivity.
Qed.

(** The page [H1 P1 P2 H2 P3]: the paragraphs [P1] and [P2] that have
    text make the answer of [H1], the walk ends at [H2], and [H2] has
    [P3] for its answer. *)
Lemma two_headings_page (h1 p1 p2 h2 p3 : node) (file_name : str) :
  matches names class_ h1 = true ->
  skip_question (clean_text (get_text h1)) = false ->
  is_answer_paragraph p1 = true ->
  is_answer_paragraph p2 = true ->
  matches names class_ h2 = true ->
  name_is p3 (lit "p") = true ->
  Forall (fun n => find_all names class_ n = []) [h1; p1; p2; h2; p3] ->
  fst (from_soup (page [h1; p1; p2; h2; p3]) file_name)
  = pairs_of (h1, [p1; p2]) ++ pairs_of (h2, [p3]).
Proof.
  intros Hh1 Hk1 Hp1 Hp2 Hh2 Hp3 Hbelow.
  rewrite extract_qa_from_soup_pairs, find_all_page by assumption.
  repeat match goal with
         | H : Forall _ (_ :: _) |- _ => inversion H; subst; clear H
         end.
  destruct (p_no_heading p1 (answer_paragraph_is_p p1 Hp1)) as [_ [_ Hm1]].
  destruct (p_no_heading p2 (answer_paragraph_is_p p2 Hp2)) as [_ [_ Hm2]].
  destruct (p_no_heading p3 Hp3) as [_ [_ Hm3]].
  rewrite !headings_cons.
  repeat match goal with
         | H : find_all _ _ _ = [] |- _ => rewrite H; clear H
         end.
  rewrite Hh1, Hh2, Hm1, Hm2, Hm3. cbn [descendants_of_list filter app flat_map].
  rewrite app_nil_r. f_equal.
  apply pairs_of_question_same_walk.
  apply (collect_answer_paragraphs_stops is_next_question is_answer_paragraph
           [p1; p2] [p3] h2).
  apply heading_is_next, Hh2.
Qed.

Lemma first_heading_pair (h1 p1 p2 : node) :
  skip_question (clean_text (get_text h1)) = false ->
  is_answer_paragraph p1 = true ->
  is_answer_paragraph p2 = true ->
  pairs_of (h1, [p1; p2])
  = match (if truthy_str (clean_text (get_text p1))
           then [clean_text (get_text p1)] else [])
          ++ (if truthy_str (clean_text (get_text p2))
              then [clean_text (get_text p2)] else []) with
    | [] => []
    | text :: more =>
        [{| question := clean_text (get_text h1);
            answer := join [NEWLINE] (text :: more) |}]
    end.
Proof.
  intros Hk Hp1 Hp2. rewrite pairs_of_question_kept by exact Hk.
  cbn [fst snd]. rewrite !collect_paragraph by assumption.
  cbn [collect_answer_paragraphs]. rewrite app_nil_r.
  destruct (_ ++ _); reflexivity.
Qed.

Lemma second_heading_pair (h2 p3 : node) :
  name_is p3 (lit "p") = true ->
  pairs_of (h2, [p3])
  = if negb (skip_question (clean_text (get_text h2)))
       && is_answer_paragraph p3
       && truthy_str (clean_text (get_text p3))
    then [{| question := clean_text (get_text h2);
             answer := clean_text (get_text p3) |}]
    else [].
Proof.
  intros Hp3. destruct (skip_question (clean_text (get_text h2))) eqn:Hk.
  - apply pairs_of_question_skipped. exact Hk.
  - rewrite pairs_of_question_kept by exact Hk. cbn [fst snd negb andb].
    rewrite collect_last_paragraph by exact Hp3.
    destruct (_ && _); reflexivity.
Qed.

Lemma two_headings_pairs (h1 p1 p2 h2 p3 : node) (file_name : str) :
  matches names class_ h1 = true ->
  skip_question (clean_text (get_text h1)) = false ->
  is_answer_paragraph p1 = true -> clean_text (get_text p1) <> [] ->
  is_answer_paragraph p2 = true -> clean_text (get_text p2) <> [] ->
  matches names class_ h2 = true ->
  name_is p3 (lit "p") = true ->
  Forall (fun n => find_all names class_ n = []) [h1; p1; p2; h2; p3] ->
  fst (from_soup (page [h1; p1; p2; h2; p3]) file_name)
  = {| question := clean_text (get_text h1);
       answer := clean_text (get_text p1) ++ [NEWLINE]
                 ++ clean_text (get_text p2) |}
    :: (if negb (skip_question (clean_text (get_text h2)))
           && is_answer_paragraph p3
           && truthy_str (clean_text (get_text p3))
        then [{| question := clean_text (get_text h2);
                 answer := clean_text (get_text p3) |}]
        else []).
Proof.
  intros Hh1 Hk1 Hp1 Ht1 Hp2 Ht2 Hh2 Hp3 Hbelow.
  rewrite two_headings_page by assumption.
  rewrite first_heading_pair, second_heading_pair by assumption.
  apply truthy_str_true in Ht1, Ht2. rewrite Ht1, Ht2. reflexivity.
Qed.

End SiblingWalk.

(* ------------------------------------------------------------------ *)
(** ** The claims on [extract_qa_from_html] *)

(** C4: every pair that either extractor emits has a question and an
    answer that are not empty, also after cleaning (the question is
    already clean, the answer does not clean to the empty string), and
    its question has at least two characters. *)
Theorem emitted_pairs_nonempty (lower : str -> str)
    (BeautifulSoup : str -> exn + node) (html_content file_name : str)
    (p : QAPair) :
  In p (fst (ExtractQa.extract_qa_from_html lower BeautifulSoup
               html_content file_name))
  \/ In p (fst (ExtractQaChinese.extract_qa_from_html BeautifulSoup
                  html_content file_name)) ->
  question p <> [] /\ answer p <> []
  /\ (2 <= length (question p))%nat
  /\ clean_text (question p) = question p
  /\ clean_text (answer p) <> [].
Proof.
  intros [H | H]; apply emitted_pair in H;
    destruct H as [Hs [Hq [Ha [Hcq Hca]]]]; repeat split; try assumption.
  - apply generic_skip_question_false in Hs. tauto.
  - apply book_skip_question_false in Hs. exact Hs.
Qed.

Lemma emitted_pairs_nonempty_witness :
  let p := {| question := [81; FULLWIDTH_QUESTION_MARK];
              answer := lit "a" ++ [NEWLINE] ++ lit "b" |} in
  In p (fst (ExtractQa.extract_qa_from_html ascii_lower example_parser
               two_questions_html []))
  /\ question p <> [] /\ answer p <> []
  /\ (2 <= length (question p))%nat
  /\ clean_text (question p) = question p
  /\ clean_text (answer p) <> [].
Proof.
  intros p.
  assert (H : In p (fst (ExtractQa.extract_qa_from_html ascii_lower
                           example_parser two_questions_html [])))
    by (vm_compute; left; reflexivity).
  split; [exact H|].
  apply (emitted_pairs_nonempty ascii_lower example_parser
           two_questions_html [] p).
  left. exact H.
Defined.

(** C1, as stated, fails: the book-specific extractor emits the question
    "ab", which does not end with ['？'], and the generic extractor
    skips "ab" although it has two characters. *)
Lemma book_question_without_mark :
  In {| question := lit "ab"; answer := lit "c" ++ [NEWLINE] ++ lit "d" |}
     (fst (ExtractQaChinese.extract_qa_from_html example_parser
             book_two_questions_html []))
  /\ endswith (lit "ab") [FULLWIDTH_QUESTION_MARK] = false
  /\ (2 <= length (lit "ab"))%nat
  /\ ExtractQa.skip_question (lit "ab") = true.
Proof.
  split; [vm_compute; left; reflexivity|].
  split; [reflexivity|]. split; [simpl; lia | reflexivity].
Qed.

(** C1, amended: it is the generic extractor ([extract_qa.py]) that
    skips every heading whose cleaned text does not end with ['？'], so
    that every question it emits ends with ['？']; the book-specific
    extractor ([extract_qa_chinese.py]) skips a heading exactly when its
    cleaned text has fewer than two characters. *)
Theorem generic_question_ends_with_mark :
  (forall lower BeautifulSoup html_content file_name p,
      In p (fst (ExtractQa.extract_qa_from_html lower BeautifulSoup
                   html_content file_name)) ->
      endswith (question p) [FULLWIDTH_QUESTION_MARK] = true)
  /\ (forall s, endswith s [FULLWIDTH_QUESTION_MARK] = false ->
                ExtractQa.skip_question s = true)
  /\ (forall s, ExtractQaChinese.skip_question s = true <->
                (length s < 2)%nat).
Proof.
  split; [|split].
  - intros lower BeautifulSoup html_content file_name p H.
    apply emitted_pair in H. destruct H as [Hs _].
    apply generic_skip_question_false in Hs. tauto.
  - intros s H. unfold ExtractQa.skip_question. rewrite H.
    apply orb_true_r.
  - intros s. pose proof (book_skip_question_false s) as H.
    destruct (ExtractQaChinese.skip_question s); split; intros H';
      try discriminate; try reflexivity.
    + destruct (Nat.lt_ge_cases (length s) 2) as [Hlt | Hge]; [exact Hlt|].
      apply H in Hge. discriminate.
    + assert (2 <= length s)%nat by (apply H; reflexivity). lia.
Qed.

Lemma generic_question_ends_with_mark_witness :
  In {| question := [82; FULLWIDTH_QUESTION_MARK]; answer := lit "c" |}
     (fst (ExtractQa.extract_qa_from_html ascii_lower example_parser
             two_questions_html []))
  /\ endswith [82; FULLWIDTH_QUESTION_MARK] [FULLWIDTH_QUESTION_MARK] = true
  /\ ExtractQa.skip_question (lit "Contents") = true
  /\ ExtractQaChinese.skip_question (lit "x") = true.
Proof.
  assert (H : In {| question := [82; FULLWIDTH_QUESTION_MARK];
                    answer := lit "c" |}
                (fst (ExtractQa.extract_qa_from_html ascii_lower
                        example_parser two_questions_html [])))
    by (vm_compute; right; left; reflexivity).
  split; [exact H|]. split; [|split].
  - exact (proj1 generic_question_ends_with_mark ascii_lower example_parser
             two_questions_html [] _ H).
  - apply (proj1 (proj2 generic_question_ends_with_mark)). reflexivity.
  - apply (proj2 (proj2 generic_question_ends_with_mark)). simpl. lia.
Defined.

Lemma filter_none {A : Type} (f : A -> bool) (l : list A) :
  (forall x, In x l -> f x = false) -> filter f l = [].
Proof.
  induction l as [|x l IH]; intros H; [reflexivity|]. simpl.
  rewrite (H x) by (left; reflexivity). apply IH. intros y Hy. apply H.
  right. exact Hy.
Qed.

(** C5: when no node of the document is a heading of the signature, the
    extractor returns the empty list; it logs that no question tag was
    found and does not go through its error handler. *)
Theorem no_heading_no_pairs :
  (forall lower BeautifulSoup html_content file_name soup,
      BeautifulSoup html_content = inr soup ->
      (forall q, In q (descendants soup) ->
         matches ExtractQa.names (ExtractQa.class_ lower) (fst q) = false) ->
      ExtractQa.extract_qa_from_html lower BeautifulSoup html_content
        file_name = ([], [DebugNoQuestion file_name]))
  /\ (forall BeautifulSoup html_content file_name soup,
      BeautifulSoup html_content = inr soup ->
      (forall q, In q (descendants soup) ->
         matches ExtractQaChinese.names ExtractQaChinese.class_ (fst q)
         = false) ->
      ExtractQaChinese.extract_qa_from_html BeautifulSoup html_content
        file_name = ([], [DebugNoQuestion file_name])).
Proof.
  split.
  - intros lower BeautifulSoup html_content file_name soup Hsoup Hnone.
    unfold ExtractQa.extract_qa_from_html, extract_qa_from_html_with.
    rewrite Hsoup. unfold extract_qa_from_soup, find_all.
    rewrite filter_none by exact Hnone. reflexivity.
  - intros BeautifulSoup html_content file_name soup Hsoup Hnone.
    unfold ExtractQaChinese.extract_qa_from_html, extract_qa_from_html_with.
    rewrite Hsoup. unfold extract_qa_from_soup, find_all.
    rewrite filter_none by exact Hnone. reflexivity.
Qed.

Lemma no_heading_no_pairs_witness :
  ExtractQa.extract_qa_from_html ascii_lower example_parser
    (lit "<p>no heading</p>") (lit "ch1.xhtml")
  = ([], [DebugNoQuestion (lit "ch1.xhtml")])
  /\ ExtractQaChinese.extract_qa_from_html example_parser
       (lit "<p>no heading</p>") (lit "ch1.xhtml")
     = ([], [DebugNoQuestion (lit "ch1.xhtml")]).
Proof.
  split.
  - apply (proj1 no_heading_no_pairs ascii_lower example_parser
             (lit "<p>no heading</p>") (lit "ch1.xhtml")
             (page [p_tag None (lit "no heading")])).
    + vm_compute. reflexivity.
    + intros q Hq. vm_compute in Hq.
      repeat (destruct Hq as [<- | Hq]; [vm_compute; reflexivity|]).
      destruct Hq.
  - apply (proj2 no_heading_no_pairs example_parser
             (lit "<p>no heading</p>") (lit "ch1.xhtml")
             (page [p_tag None (lit "no heading")])).
    + vm_compute. reflexivity.
    + intros q Hq. vm_compute in Hq.
      repeat (destruct Hq as [<- | Hq]; [vm_compute; reflexivity|]).
      destruct Hq.
Defined.

(** C3, as stated, fails: on the page [H1 P1 P2 H2 P3] where [P1] is the
    blank paragraph [<p> </p>], every condition of the claim holds, and
    the answer of [H1] is "b", not the cleaned text of [P1], a newline
    and "b". *)
Lemma blank_paragraph_not_in_answer :
  example_parser blank_paragraph_html
  = inr (page [heading_Q; p_blank; p_b; heading_R; p_c])
  /\ matches ExtractQa.names (ExtractQa.class_ ascii_lower) heading_Q = true
  /\ ExtractQa.skip_question (clean_text (get_text heading_Q)) = false
  /\ ExtractQa.is_answer_paragraph p_blank = true
  /\ ExtractQa.is_answer_paragraph p_b = true
  /\ matches ExtractQa.names (ExtractQa.class_ ascii_lower) heading_R = true
  /\ name_is p_c (lit "p") = true
  /\ fst (ExtractQa.extract_qa_from_html ascii_lower example_parser
            blank_paragraph_html [])
     = [{| question := [81; FULLWIDTH_QUESTION_MARK]; answer := lit "b" |};
        {| question := [82; FULLWIDTH_QUESTION_MARK]; answer := lit "c" |}]
  /\ ~ In {| question := clean_text (get_text heading_Q);
             answer := clean_text (get_text p_blank) ++ [NEWLINE]
                       ++ clean_text (get_text p_b) |}
          (fst (ExtractQa.extract_qa_from_html ascii_lower example_parser
                  blank_paragraph_html [])).
Proof.
  repeat (split; [vm_compute; reflexivity|]).
  vm_compute. intros [H | [H | []]]; discriminate.
Qed.

(** C3, amended: on a page whose body is a heading [H1] that is not
    skipped, two paragraphs [P1] and [P2] that are taken and whose
    cleaned texts are not empty, a heading [H2] and a paragraph [P3],
    these five nodes holding no further heading, the extractor returns
    the pair of [H1], whose answer is the cleaned text of [P1], a
    newline and the cleaned text of [P2], followed by a pair for [H2]
    exactly when [H2] is not skipped and [P3] is taken and has a
    non-empty cleaned text.  Both extractors. *)
Theorem sibling_walk_two_headings :
  (forall lower BeautifulSoup html_content file_name h1 p1 p2 h2 p3,
      BeautifulSoup html_content = inr (page [h1; p1; p2; h2; p3]) ->
      matches ExtractQa.names (ExtractQa.class_ lower) h1 = true ->
      ExtractQa.skip_question (clean_text (get_text h1)) = false ->
      ExtractQa.is_answer_paragraph p1 = true ->
      clean_text (get_text p1) <> [] ->
      ExtractQa.is_answer_paragraph p2 = true ->
      clean_text (get_text p2) <> [] ->
      matches ExtractQa.names (ExtractQa.class_ lower) h2 = true ->
      name_is p3 (lit "p") = true ->
      Forall (fun n => find_all ExtractQa.names (ExtractQa.class_ lower) n
                       = []) [h1; p1; p2; h2; p3] ->
      fst (ExtractQa.extract_qa_from_html lower BeautifulSoup html_content
             file_name)
      = {| question := clean_text (get_text h1);
           answer := clean_text (get_text p1) ++ [NEWLINE]
                     ++ clean_text (get_text p2) |}
        :: (if negb (ExtractQa.skip_question (clean_text (get_text h2)))
               && ExtractQa.is_answer_paragraph p3
               && truthy_str (clean_text (get_text p3))
            then [{| question := clean_text (get_text h2);
                     answer := clean_text (get_text p3) |}]
            else []))
  /\ (forall BeautifulSoup html_content file_name h1 p1 p2 h2 p3,
      BeautifulSoup html_content = inr (page [h1; p1; p2; h2; p3]) ->
      matches ExtractQaChinese.names ExtractQaChinese.class_ h1 = true ->
      ExtractQaChinese.skip_question (clean_text (get_text h1)) = false ->
      ExtractQaChinese.is_answer_paragraph p1 = true ->
      clean_text (get_text p1) <> [] ->
      ExtractQaChinese.is_answer_paragraph p2 = true ->
      clean_text (get_text p2) <> [] ->
      matches ExtractQaChinese.names ExtractQaChinese.class_ h2 = true ->
      name_is p3 (lit "p") = true ->
      Forall (fun n => find_all ExtractQaChinese.names
                         ExtractQaChinese.class_ n = [])
             [h1; p1; p2; h2; p3] ->
      fst (ExtractQaChinese.extract_qa_from_html BeautifulSoup html_content
             file_name)
      = {| question := clean_text (get_text h1);
           answer := clean_text (get_text p1) ++ [NEWLINE]
                     ++ clean_text (get_text p2) |}
        :: (if negb (ExtractQaChinese.skip_question
                       (clean_text (get_text h2)))
               && ExtractQaChinese.is_answer_paragraph p3
               && truthy_str (clean_text (get_text p3))
            then [{| question := clean_text (get_text h2);
                     answer := clean_text (get_text p3) |}]
            else [])).
Proof.
  split.
  - intros lower BeautifulSoup html_content file_name h1 p1 p2 h2 p3 Hsoup.
    intros. unfold ExtractQa.extract_qa_from_html, extract_qa_from_html_with.
    rewrite Hsoup. apply two_headings_pairs; try assumption;
      try reflexivity.
    + apply generic_matches_is_next_question.
    + intros n Hn. exact Hn.
    + apply generic_paragraph.
    + intros s Hs. apply generic_skip_question_false in Hs. tauto.
  - intros BeautifulSoup html_content file_name h1 p1 p2 h2 p3 Hsoup.
    intros.
    unfold ExtractQaChinese.extract_qa_from_html, extract_qa_from_html_with.
    rewrite Hsoup. apply two_headings_pairs; try assumption;
      try reflexivity.
    + apply book_matches_is_next_question.
    + intros n Hn. apply andb_true_iff in Hn. tauto.
    + apply book_paragraph.
    + intros s Hs. apply book_skip_question_false in Hs.
      destruct s; [simpl in Hs; lia | discriminate].
Qed.

Lemma sibling_walk_two_headings_witness :
  fst (ExtractQa.extract_qa_from_html ascii_lower example_parser
         two_questions_html [])
  = [{| question := [81; FULLWIDTH_QUESTION_MARK];
        answer := lit "a" ++ [NEWLINE] ++ lit "b" |};
     {| question := [82; FULLWIDTH_QUESTION_MARK]; answer := lit "c" |}]
  /\ fst (ExtractQaChinese.extract_qa_from_html example_parser
            book_two_questions_html [])
     = [{| question := lit "ab";
           answer := lit "c" ++ [NEWLINE] ++ lit "d" |}].
Proof.
  split.
  - apply (proj1 sibling_walk_two_headings ascii_lower example_parser
             two_questions_html [] heading_Q p_a p_b heading_R p_c);
      try (vm_compute; reflexivity); try (vm_compute; discriminate).
    repeat constructor.
  - apply (proj2 sibling_walk_two_headings example_parser
             book_two_questions_html [] book_heading_ab book_p_c book_p_d
             book_heading_ef book_p_note);
      try (vm_compute; reflexivity); try (vm_compute; discriminate).
    repeat constructor.
Defined.

(** C10: in both extractors a sibling that [find_all] takes for a heading
    ends the walk of the heading before it, whether or not it is then
    skipped as a question; and when it is skipped, the nodes between it
    and the next heading reach no answer: the page yields the pairs of
    the page without them. *)
Theorem skipped_heading_ends_walk :
  (forall lower before x after,
      matches ExtractQa.names (ExtractQa.class_ lower) x = true ->
      collect_answer_paragraphs (ExtractQa.is_next_question lower)
        ExtractQa.is_answer_paragraph (before ++ x :: after)
      = collect_answer_paragraphs (ExtractQa.is_next_question lower)
          ExtractQa.is_answer_paragraph before)
  /\ (forall lower BeautifulSoup html_content html_without file_name
             before x mid after,
      BeautifulSoup html_content
      = inr (page (before ++ x :: mid ++ after)) ->
      BeautifulSoup html_without = inr (page (before ++ x :: after)) ->
      matches ExtractQa.names (ExtractQa.class_ lower) x = true ->
      ExtractQa.skip_question (clean_text (get_text x)) = true ->
      Forall (fun n =>
                matches ExtractQa.names (ExtractQa.class_ lower) n = false
                /\ find_all ExtractQa.names (ExtractQa.class_ lower) n = [])
             mid ->
      fst (ExtractQa.extract_qa_from_html lower BeautifulSoup html_content
             file_name)
      = fst (ExtractQa.extract_qa_from_html lower BeautifulSoup html_without
               file_name))
  /\ (forall before x after,
      matches ExtractQaChinese.names ExtractQaChinese.class_ x = true ->
      collect_answer_paragraphs ExtractQaChinese.is_next_question
        ExtractQaChinese.is_answer_paragraph (before ++ x :: after)
      = collect_answer_paragraphs ExtractQaChinese.is_next_question
          ExtractQaChinese.is_answer_paragraph before)
  /\ (forall BeautifulSoup html_content html_without file_name
             before x mid after,
      BeautifulSoup html_content
      = inr (page (before ++ x :: mid ++ after)) ->
      BeautifulSoup html_without = inr (page (before ++ x :: after)) ->
      matches ExtractQaChinese.names ExtractQaChinese.class_ x = true ->
      ExtractQaChinese.skip_question (clean_text (get_text x)) = true ->
      Forall (fun n =>
                matches ExtractQaChinese.names ExtractQaChinese.class_ n
                = false
                /\ find_all ExtractQaChinese.names ExtractQaChinese.class_ n
                   = [])
             mid ->
      fst (ExtractQaChinese.extract_qa_from_html BeautifulSoup html_content
             file_name)
      = fst (ExtractQaChinese.extract_qa_from_html BeautifulSoup
               html_without file_name)).
Proof.
  split; [|split; [|split]].
  - intros lower before x after Hx.
    apply collect_answer_paragraphs_stops,
      generic_matches_is_next_question, Hx.
  - intros lower BeautifulSoup html_content html_without file_name
      before x mid after Hsoup Hwithout Hx Hskip Hmid.
    unfold ExtractQa.extract_qa_from_html, extract_qa_from_html_with.
    rewrite Hsoup, Hwithout.
    apply skipped_heading_page; try assumption; try reflexivity.
    apply generic_matches_is_next_question.
  - intros before x after Hx.
    apply collect_answer_paragraphs_stops,
      book_matches_is_next_question, Hx.
  - intros BeautifulSoup html_content html_without file_name
      before x mid after Hsoup Hwithout Hx Hskip Hmid.
    unfold ExtractQaChinese.extract_qa_from_html, extract_qa_from_html_with.
    rewrite Hsoup, Hwithout.
    apply skipped_heading_page; try assumption; try reflexivity.
    apply book_matches_is_next_question.
Qed.

Lemma skipped_heading_ends_walk_witness :
  collect_answer_paragraphs (ExtractQa.is_next_question ascii_lower)
    ExtractQa.is_answer_paragraph
    ([p_a] ++ skipped_heading :: skipped_mid ++ skipped_after)
  = [lit "a"]
  /\ fst (ExtractQa.extract_qa_from_html ascii_lower example_parser
            skipped_html [])
     = fst (ExtractQa.extract_qa_from_html ascii_lower example_parser
              skipped_short_html [])
  /\ collect_answer_paragraphs ExtractQaChinese.is_next_question
       ExtractQaChinese.is_answer_paragraph
       ([book_p_c] ++ book_skipped_heading
        :: book_skipped_mid ++ book_skipped_after)
     = [lit "c"]
  /\ fst (ExtractQaChinese.extract_qa_from_html example_parser
            book_skipped_html [])
     = fst (ExtractQaChinese.extract_qa_from_html example_parser
              book_skipped_short_html []).
Proof.
  destruct skipped_heading_ends_walk as [Hg [Hgp [Hb Hbp]]].
  split; [|split; [|split]].
  - rewrite (Hg ascii_lower [p_a] skipped_heading
               (skipped_mid ++ skipped_after)) by (vm_compute; reflexivity).
    vm_compute. reflexivity.
  - apply (Hgp ascii_lower example_parser skipped_html skipped_short_html []
             skipped_before skipped_heading skipped_mid skipped_after);
      try (vm_compute; reflexivity).
    repeat constructor.
  - rewrite (Hb [book_p_c] book_skipped_heading
               (book_skipped_mid ++ book_skipped_after))
      by (vm_compute; reflexivity).
    vm_compute. reflexivity.
  - apply (Hbp example_parser book_skipped_html book_skipped_short_html []
             book_skipped_before book_skipped_heading book_skipped_mid
             book_skipped_after);
      try (vm_compute; reflexivity).
    repeat constructor.
Defined.

(* ------------------------------------------------------------------ *)
(** ** The loop over the package *)

Ltac item_cases lower item :=
  destruct (is_content_item lower item);
  [destruct (decode_utf8 (get_content item)) as [e|html_content] | ].

Lemma generic_for_item_pairs lower BeautifulSoup state item :
  fst (fst (ExtractQa.for_item lower BeautifulSoup state item))
  = fst (fst state) ++ ExtractQa.pairs_of_item lower BeautifulSoup item.
Proof.
  destruct state as [[all_qa_pairs processed_files] log].
  unfold ExtractQa.for_item, ExtractQa.pairs_of_item.
  item_cases lower item; cbn [fst]; try (rewrite app_nil_r; reflexivity).
  destruct (ExtractQa.extract_qa_from_html _ _ _ _) as [[|p qa_pairs] log'];
    cbn [fst]; [rewrite app_nil_r|]; reflexivity.
Qed.

Lemma book_for_item_pairs lower BeautifulSoup state item :
  fst (fst (ExtractQaChinese.for_item lower BeautifulSoup state item))
  = fst (fst state)
    ++ ExtractQaChinese.pairs_of_item lower BeautifulSoup item.
Proof.
  destruct state as [[all_qa_pairs processed_files] log].
  unfold ExtractQaChinese.for_item, ExtractQaChinese.pairs_of_item.
  item_cases lower item; cbn [fst]; try (rewrite app_nil_r; reflexivity).
  destruct (ExtractQaChinese.extract_qa_from_html _ _ _) as [[|p qa_pairs] log'];
    cbn [fst]; [rewrite app_nil_r|]; reflexivity.
Qed.

Lemma generic_for_item_log lower BeautifulSoup state item :
  exists more,
    snd (ExtractQa.for_item lower BeautifulSoup state item)
    = snd state ++ more.
Proof.
  destruct state as [[all_qa_pairs processed_files] log].
  unfold ExtractQa.for_item.
  item_cases lower item; cbn [snd]; eauto.
  - destruct (ExtractQa.extract_qa_from_html _ _ _ _) as [[|p qa_pairs] log'];
      cbn [snd]; eexists; reflexivity.
  - exists []. rewrite app_nil_r. reflexivity.
Qed.

Lemma book_for_item_log lower BeautifulSoup state item :
  exists more,
    snd (ExtractQaChinese.for_item lower BeautifulSoup state item)
    = snd state ++ more.
Proof.
  destruct state as [[all_qa_pairs processed_files] log].
  unfold ExtractQaChinese.for_item.
  item_cases lower item; cbn [snd]; eauto.
  - destruct (ExtractQaChinese.extract_qa_from_html _ _ _) as [qa_pairs log'];
      cbn [snd]. eexists. reflexivity.
  - exists []. rewrite app_nil_r. reflexivity.
Qed.

Section PackageLoop.

Variable for_item :
  list QAPair * nat * list log_record -> EpubItem ->
  list QAPair * nat * list log_record.
Variable pairs_of_item : EpubItem -> list QAPair.

Hypothesis for_item_pairs : forall state item,
  fst (fst (for_item state item)) = fst (fst state) ++ pairs_of_item item.
Hypothesis for_item_log : forall state item,
  exists more, snd (for_item state item) = snd state ++ more.

(** [all_qa_pairs] after the loop: what the entries add, in the order
    of [get_items()]. *)
Lemma for_items_pairs (book : list EpubItem) state :
  fst (fst (fold_left for_item book state))
  = fst (fst state) ++ flat_map pairs_of_item book.
Proof.
  revert state; induction book as [|item book IH]; intros state.
  - simpl. rewrite app_nil_r. reflexivity.
  - cbn [fold_left flat_map]. rewrite IH, for_item_pairs, app_assoc.
    reflexivity.
Qed.

(** The log only grows. *)
Lemma for_items_log (book : list EpubItem) state :
  exists more, snd (fold_left for_item book state) = snd state ++ more.
Proof.
  revert state; induction book as [|item book IH]; intros state.
  - exists []. simpl. rewrite app_nil_r. reflexivity.
  - cbn [fold_left]. destruct (IH (for_item state item)) as [more ->].
    destruct (for_item_log state item) as [more' ->].
    rewrite <- app_assoc. eauto.
Qed.

Lemma for_items_logged (before after : list EpubItem) (item : EpubItem)
    state (record : log_record) :
  (forall state', In record (snd (for_item state' item))) ->
  In record (snd (fold_left for_item (before ++ item :: after) state)).
Proof.
  intros Hitem. rewrite fold_left_app. cbn [fold_left].
  destruct (for_items_log after (for_item (fold_left for_item before state)
                                   item)) as [more ->].
  apply in_or_app. left. apply Hitem.
Qed.

End PackageLoop.

Lemma generic_epub_pairs lower BeautifulSoup epub_read_epub epub_path book :
  epub_read_epub epub_path = inr book ->
  fst (ExtractQa.extract_qa_from_epub lower BeautifulSoup epub_read_epub
         epub_path)
  = inr (flat_map (ExtractQa.pairs_of_item lower BeautifulSoup) book).
Proof.
  intros Hread. unfold ExtractQa.extract_qa_from_epub, read_epub.
  rewrite Hread.
  pose proof (for_items_pairs _ _ (generic_for_item_pairs lower BeautifulSoup)
                book ([], O, [InfoReadEpub epub_path])) as H.
  destruct (fold_left _ book _) as [[all_qa_pairs processed_files] log].
  cbn [fst] in *. rewrite H. reflexivity.
Qed.

Lemma book_epub_pairs lower BeautifulSoup epub_read_epub epub_path book :
  epub_read_epub epub_path = inr book ->
  fst (ExtractQaChinese.extract_qa_from_epub lower BeautifulSoup
         epub_read_epub epub_path)
  = inr (flat_map (ExtractQaChinese.pairs_of_item lower BeautifulSoup) book).
Proof.
  intros Hread. unfold ExtractQaChinese.extract_qa_from_epub, read_epub.
  rewrite Hread.
  pose proof (for_items_pairs _ _ (book_for_item_pairs lower BeautifulSoup)
                book ([], O, [InfoReadEpub epub_path])) as H.
  destruct (fold_left _ book _) as [[all_qa_pairs processed_files] log].
  cbn [fst] in *. rewrite H. reflexivity.
Qed.

Lemma generic_epub_logged lower BeautifulSoup epub_read_epub epub_path
    before item after record :
  epub_read_epub epub_path = inr (before ++ item :: after) ->
  (forall state,
     In record (snd (ExtractQa.for_item lower BeautifulSoup state item))) ->
  In record (snd (ExtractQa.extract_qa_from_epub lower BeautifulSoup
                    epub_read_epub epub_path)).
Proof.
  intros Hread Hitem. unfold ExtractQa.extract_qa_from_epub, read_epub.
  rewrite Hread.
  pose proof (for_items_logged _ (generic_for_item_log lower BeautifulSoup)
                before after item ([], O, [InfoReadEpub epub_path])
                record Hitem) as H.
  destruct (fold_left _ _ _) as [[all_qa_pairs processed_files] log].
  cbn [snd] in *. apply in_or_app. left. exact H.
Qed.

Lemma book_epub_logged lower BeautifulSoup epub_read_epub epub_path
    before item after record :
  epub_read_epub epub_path = inr (before ++ item :: after) ->
  (forall state,
     In record
        (snd (ExtractQaChinese.for_item lower BeautifulSoup state item))) ->
  In record (snd (ExtractQaChinese.extract_qa_from_epub lower BeautifulSoup
                    epub_read_epub epub_path)).
Proof.
  intros Hread Hitem. unfold ExtractQaChinese.extract_qa_from_epub, read_epub.
  rewrite Hread.
  pose proof (for_items_logged _ (book_for_item_log lower BeautifulSoup)
                before after item ([], O, [InfoReadEpub epub_path])
                record Hitem) as H.
  destruct (fold_left _ _ _) as [[all_qa_pairs processed_files] log].
  cbn [snd] in *. apply in_or_app. left. exact H.
Qed.

(** An entry whose bytes are no UTF-8 adds nothing and is logged. *)
Lemma generic_undecodable lower BeautifulSoup item e :
  is_content_item lower item = true ->
  decode_utf8 (get_content item) = inl e ->
  ExtractQa.pairs_of_item lower BeautifulSoup item = []
  /\ forall state,
       In (ErrorFile (get_name item) e)
          (snd (ExtractQa.for_item lower BeautifulSoup state item)).
Proof.
  intros Hc Hd. unfold ExtractQa.pairs_of_item, ExtractQa.for_item.
  split; [rewrite Hc, Hd; reflexivity|].
  intros [[all_qa_pairs processed_files] log]. rewrite Hc, Hd. cbn [snd].
  apply in_or_app. right. left. reflexivity.
Qed.

Lemma book_undecodable lower BeautifulSoup item e :
  is_content_item lower item = true ->
  decode_utf8 (get_content item) = inl e ->
  ExtractQaChinese.pairs_of_item lower BeautifulSoup item = []
  /\ forall state,
       In (ErrorFile (get_name item) e)
          (snd (ExtractQaChinese.for_item lower BeautifulSoup state item)).
Proof.
  intros Hc Hd.
  unfold ExtractQaChinese.pairs_of_item, ExtractQaChinese.for_item.
  split; [rewrite Hc, Hd; reflexivity|].
  intros [[all_qa_pairs processed_files] log]. rewrite Hc, Hd. cbn [snd].
  apply in_or_app. right. left. reflexivity.
Qed.

(* ------------------------------------------------------------------ *)
(** ** The claims on [extract_qa_from_epub] and on errors *)

(** What a content entry that decodes adds: the pairs of its page. *)
Lemma generic_content_item lower BeautifulSoup item html_content :
  is_content_item lower item = true ->
  decode_utf8 (get_content item) = inr html_content ->
  ExtractQa.pairs_of_item lower BeautifulSoup item
  = fst (ExtractQa.extract_qa_from_html lower BeautifulSoup html_content
           (get_name item)).
Proof.
  intros Hc Hd. unfold ExtractQa.pairs_of_item. rewrite Hc, Hd. reflexivity.
Qed.

Lemma book_content_item lower BeautifulSoup item html_content :
  is_content_item lower item = true ->
  decode_utf8 (get_content item) = inr html_content ->
  ExtractQaChinese.pairs_of_item lower BeautifulSoup item
  = fst (ExtractQaChinese.extract_qa_from_html BeautifulSoup html_content
           (get_name item)).
Proof.
  intros Hc Hd. unfold ExtractQaChinese.pairs_of_item. rewrite Hc, Hd.
  reflexivity.
Qed.

(** C6: the result of [extract_qa_from_epub] is the concatenation, in the
    order of the package entries, of what each entry yields; for three
    content entries A, B, C whose pages yield one pair each it is
    [pairFromA; pairFromB; pairFromC].  Both files. *)
Theorem accumulation_order :
  (forall lower BeautifulSoup epub_read_epub epub_path book,
      epub_read_epub epub_path = inr book ->
      fst (ExtractQa.extract_qa_from_epub lower BeautifulSoup epub_read_epub
             epub_path)
      = inr (flat_map (ExtractQa.pairs_of_item lower BeautifulSoup) book))
  /\ (forall lower BeautifulSoup epub_read_epub epub_path A B C
             htmlA htmlB htmlC pA pB pC,
      epub_read_epub epub_path = inr [A; B; C] ->
      is_content_item lower A = true ->
      is_content_item lower B = true ->
      is_content_item lower C = true ->
      decode_utf8 (get_content A) = inr htmlA ->
      decode_utf8 (get_content B) = inr htmlB ->
      decode_utf8 (get_content C) = inr htmlC ->
      fst (ExtractQa.extract_qa_from_html lower BeautifulSoup htmlA
             (get_name A)) = [pA] ->
      fst (ExtractQa.extract_qa_from_html lower BeautifulSoup htmlB
             (get_name B)) = [pB] ->
      fst (ExtractQa.extract_qa_from_html lower BeautifulSoup htmlC
             (get_name C)) = [pC] ->
      fst (ExtractQa.extract_qa_from_epub lower BeautifulSoup epub_read_epub
             epub_path)
      = inr [pA; pB; pC])
  /\ (forall lower BeautifulSoup epub_read_epub epub_path book,
      epub_read_epub epub_path = inr book ->
      fst (ExtractQaChinese.extract_qa_from_epub lower BeautifulSoup
             epub_read_epub epub_path)
      = inr (flat_map (ExtractQaChinese.pairs_of_item lower BeautifulSoup)
               book))
  /\ (forall lower BeautifulSoup epub_read_epub epub_path A B C
             htmlA htmlB htmlC pA pB pC,
      epub_read_epub epub_path = inr [A; B; C] ->
      is_content_item lower A = true ->
      is_content_item lower B = true ->
      is_content_item lower C = true ->
      decode_utf8 (get_content A) = inr htmlA ->
      decode_utf8 (get_content B) = inr htmlB ->
      decode_utf8 (get_content C) = inr htmlC ->
      fst (ExtractQaChinese.extract_qa_from_html BeautifulSoup htmlA
             (get_name A)) = [pA] ->
      fst (ExtractQaChinese.extract_qa_from_html BeautifulSoup htmlB
             (get_name B)) = [pB] ->
      fst (ExtractQaChinese.extract_qa_from_html BeautifulSoup htmlC
             (get_name C)) = [pC] ->
      fst (ExtractQaChinese.extract_qa_from_epub lower BeautifulSoup
             epub_read_epub epub_path)
      = inr [pA; pB; pC]).
Proof.
  split; [|split; [|split]].
  - intros. apply generic_epub_pairs. assumption.
  - intros lower BeautifulSoup epub_read_epub epub_path A B C
      htmlA htmlB htmlC pA pB pC Hread HcA HcB HcC HdA HdB HdC HA HB HC.
    rewrite (generic_epub_pairs _ _ _ _ _ Hread). cbn [flat_map].
    rewrite (generic_content_item _ _ _ _ HcA HdA), HA.
    rewrite (generic_content_item _ _ _ _ HcB HdB), HB.
    rewrite (generic_content_item _ _ _ _ HcC HdC), HC.
    reflexivity.
  - intros. apply book_epub_pairs. assumption.
  - intros lower BeautifulSoup epub_read_epub epub_path A B C
      htmlA htmlB htmlC pA pB pC Hread HcA HcB HcC HdA HdB HdC HA HB HC.
    rewrite (book_epub_pairs _ _ _ _ _ Hread). cbn [flat_map].
    rewrite (book_content_item _ _ _ _ HcA HdA), HA.
    rewrite (book_content_item _ _ _ _ HcB HdB), HB.
    rewrite (book_content_item _ _ _ _ HcC HdC), HC.
    reflexivity.
Qed.

Lemma accumulation_order_witness :
  fst (ExtractQa.extract_qa_from_epub ascii_lower example_parser
         (reader_of [generic_A; picture; generic_B; generic_C])
         (lit "book.epub"))
  = inr [{| question := question_A; answer := lit "a" |};
         {| question := question_B; answer := lit "b" |};
         {| question := question_C; answer := lit "c" |}]
  /\ fst (ExtractQa.extract_qa_from_epub ascii_lower example_parser
            (reader_of [generic_A; generic_B; generic_C]) (lit "book.epub"))
     = inr [{| question := question_A; answer := lit "a" |};
            {| question := question_B; answer := lit "b" |};
            {| question := question_C; answer := lit "c" |}]
  /\ fst (ExtractQaChinese.extract_qa_from_epub ascii_lower example_parser
            (reader_of [book_A; book_B; book_C]) (lit "book.epub"))
     = inr [{| question := lit "qa"; answer := lit "a" |};
            {| question := lit "qb"; answer := lit "b" |};
            {| question := lit "qc"; answer := lit "c" |}].
Proof.
  destruct accumulation_order as [Hg [Hg3 [Hb Hb3]]].
  split; [|split].
  - rewrite (Hg ascii_lower example_parser
               (reader_of [generic_A; picture; generic_B; generic_C])
               (lit "book.epub") [generic_A; picture; generic_B; generic_C])
      by reflexivity.
    vm_compute. reflexivity.
  - apply (Hg3 ascii_lower example_parser
             (reader_of [generic_A; generic_B; generic_C]) (lit "book.epub")
             generic_A generic_B generic_C
             (generic_html question_A (lit "a"))
             (generic_html question_B (lit "b"))
             (generic_html question_C (lit "c")));
      vm_compute; reflexivity.
  - apply (Hb3 ascii_lower example_parser
             (reader_of [book_A; book_B; book_C]) (lit "book.epub")
             book_A book_B book_C
             (book_html (lit "qa") (lit "a"))
             (book_html (lit "qb") (lit "b"))
             (book_html (lit "qc") (lit "c")));
      vm_compute; reflexivity.
Defined.

(** C7: a content entry whose bytes are no UTF-8 is logged and skipped:
    it adds no pair, and the pairs of the entries before and after it are
    in the result, in their order; for A, B, C with B failing to decode
    the result is the pairs of A followed by the pairs of C.  Both
    files. *)
Theorem undecodable_entry_skipped :
  (forall lower BeautifulSoup epub_read_epub epub_path before B after e,
      epub_read_epub epub_path = inr (before ++ B :: after) ->
      is_content_item lower B = true ->
      decode_utf8 (get_content B) = inl e ->
      fst (ExtractQa.extract_qa_from_epub lower BeautifulSoup epub_read_epub
             epub_path)
      = inr (flat_map (ExtractQa.pairs_of_item lower BeautifulSoup) before
             ++ flat_map (ExtractQa.pairs_of_item lower BeautifulSoup) after)
      /\ In (ErrorFile (get_name B) e)
            (snd (ExtractQa.extract_qa_from_epub lower BeautifulSoup
                    epub_read_epub epub_path)))
  /\ (forall lower BeautifulSoup epub_read_epub epub_path A B C e,
      epub_read_epub epub_path = inr [A; B; C] ->
      is_content_item lower B = true ->
      decode_utf8 (get_content B) = inl e ->
      fst (ExtractQa.extract_qa_from_epub lower BeautifulSoup epub_read_epub
             epub_path)
      = inr (ExtractQa.pairs_of_item lower BeautifulSoup A
             ++ ExtractQa.pairs_of_item lower BeautifulSoup C))
  /\ (forall lower BeautifulSoup epub_read_epub epub_path before B after e,
      epub_read_epub epub_path = inr (before ++ B :: after) ->
      is_content_item lower B = true ->
      decode_utf8 (get_content B) = inl e ->
      fst (ExtractQaChinese.extract_qa_from_epub lower BeautifulSoup
             epub_read_epub epub_path)
      = inr (flat_map (ExtractQaChinese.pairs_of_item lower BeautifulSoup)
               before
             ++ flat_map (ExtractQaChinese.pairs_of_item lower BeautifulSoup)
                  after)
      /\ In (ErrorFile (get_name B) e)
            (snd (ExtractQaChinese.extract_qa_from_epub lower BeautifulSoup
                    epub_read_epub epub_path)))
  /\ (forall lower BeautifulSoup epub_read_epub epub_path A B C e,
      epub_read_epub epub_path = inr [A; B; C] ->
      is_content_item lower B = true ->
      decode_utf8 (get_content B) = inl e ->
      fst (ExtractQaChinese.extract_qa_from_epub lower BeautifulSoup
             epub_read_epub epub_path)
      = inr (ExtractQaChinese.pairs_of_item lower BeautifulSoup A
             ++ ExtractQaChinese.pairs_of_item lower BeautifulSoup C)).
Proof.
  split; [|split; [|split]].
  - intros lower BeautifulSoup epub_read_epub epub_path before B after e
      Hread Hc Hd.
    destruct (generic_undecodable lower BeautifulSoup B e Hc Hd) as [Hp Hl].
    split.
    + rewrite (generic_epub_pairs _ _ _ _ _ Hread), flat_map_app.
      cbn [flat_map]. rewrite Hp. reflexivity.
    + eapply generic_epub_logged; [exact Hread | exact Hl].
  - intros lower BeautifulSoup epub_read_epub epub_path A B C e Hread Hc Hd.
    destruct (generic_undecodable lower BeautifulSoup B e Hc Hd) as [Hp _].
    rewrite (generic_epub_pairs _ _ _ _ _ Hread). cbn [flat_map].
    rewrite Hp, app_nil_r. reflexivity.
  - intros lower BeautifulSoup epub_read_epub epub_path before B after e
      Hread Hc Hd.
    destruct (book_undecodable lower BeautifulSoup B e Hc Hd) as [Hp Hl].
    split.
    + rewrite (book_epub_pairs _ _ _ _ _ Hread), flat_map_app.
      cbn [flat_map]. rewrite Hp. reflexivity.
    + eapply book_epub_logged; [exact Hread | exact Hl].
  - intros lower BeautifulSoup epub_read_epub epub_path A B C e Hread Hc Hd.
    destruct (book_undecodable lower BeautifulSoup B e Hc Hd) as [Hp _].
    rewrite (book_epub_pairs _ _ _ _ _ Hread). cbn [flat_map].
    rewrite Hp, app_nil_r. reflexivity.
Qed.

Lemma undecodable_entry_skipped_witness :
  is_content_item ascii_lower not_utf8 = true
  /\ decode_utf8 (get_content not_utf8) = inl UnicodeDecodeError
  /\ fst (ExtractQa.extract_qa_from_epub ascii_lower example_parser
            (reader_of [generic_A; not_utf8; generic_C]) (lit "book.epub"))
     = inr [{| question := question_A; answer := lit "a" |};
            {| question := question_C; answer := lit "c" |}]
  /\ In (ErrorFile (get_name not_utf8) UnicodeDecodeError)
        (snd (ExtractQaChinese.extract_qa_from_epub ascii_lower
                example_parser
                (reader_of ([book_A] ++ not_utf8 :: [book_C]))
                (lit "book.epub"))).
Proof.
  destruct undecodable_entry_skipped as [_ [Hg3 [Hb _]]].
  assert (Hc : is_content_item ascii_lower not_utf8 = true)
    by (vm_compute; reflexivity).
  assert (Hd : decode_utf8 (get_content not_utf8) = inl UnicodeDecodeError)
    by (vm_compute; reflexivity).
  split; [exact Hc|]. split; [exact Hd|]. split.
  - rewrite (Hg3 ascii_lower example_parser
               (reader_of [generic_A; not_utf8; generic_C]) (lit "book.epub")
               generic_A not_utf8 generic_C UnicodeDecodeError
               eq_refl Hc Hd).
    vm_compute. reflexivity.
  - exact (proj2 (Hb ascii_lower example_parser
                    (reader_of ([book_A] ++ not_utf8 :: [book_C]))
                    (lit "book.epub") [book_A] not_utf8 [book_C]
                    UnicodeDecodeError eq_refl Hc Hd)).
Defined.

(* ------------------------------------------------------------------ *)
(** ** When a call inside [extract_qa_from_html] raises *)

Lemma fold_left_ext {A B : Type} (f g : A -> B -> A) (l : list B) (a : A) :
  (forall a x, f a x = g a x) -> fold_left f l a = fold_left g l a.
Proof.
  intros H. revert a; induction l as [|x l IH]; intros a; [reflexivity|].
  cbn [fold_left]. rewrite H. apply IH.
Qed.

Section ExtractQaFromHtmlRaisingFacts.

Variable find_all_raises : node -> option exn.
Variable get_text_raises : node -> option exn.
Variable BeautifulSoup : str -> exn + node.
Variable names : list str.
Variable class_ : option str -> bool.
Variable skip_question : str -> bool.
Variable is_next_question : node -> bool.
Variable is_answer_paragraph : node -> bool.

Notation collect :=
  (collect_answer_paragraphs is_next_question is_answer_paragraph).
Notation collect_r :=
  (collect_or_raise get_text_raises is_next_question is_answer_paragraph).
Notation pairs_of :=
  (pairs_of_question skip_question is_next_question is_answer_paragraph).
Notation step :=
  (for_question skip_question is_next_question is_answer_paragraph).
Notation step_r :=
  (for_question_or_raise get_text_raises skip_question is_next_question
     is_answer_paragraph).
Notation loop_r :=
  (for_questions_or_raise get_text_raises skip_question is_next_question
     is_answer_paragraph).
Notation raised :=
  (raised_by get_text_raises skip_question is_next_question
     is_answer_paragraph).
Notation from_html_r :=
  (extract_qa_from_html_raising find_all_raises get_text_raises
     BeautifulSoup names class_ skip_question is_next_question
     is_answer_paragraph).

(** A walk that returns has collected what the walk of the function
    without exceptions collects. *)
Lemma collect_or_raise_returns (siblings : list node)
    (paragraphs : list str) :
  collect_r siblings = inr paragraphs -> paragraphs = collect siblings.
Proof.
  revert paragraphs; induction siblings as [|current rest IH];
    intros paragraphs; cbn [collect_or_raise collect_answer_paragraphs].
  - intros [= <-]. reflexivity.
  - destruct (negb (truthy current)); [intros [= <-]; reflexivity|].
    destruct (is_next_question current); [intros [= <-]; reflexivity|].
    destruct (is_answer_paragraph current); [|apply IH].
    unfold get_text_or_raise.
    destruct (get_text_raises current); [discriminate|].
    destruct (collect_r rest) as [e|more]; [discriminate|].
    cbv zeta. intros [= <-]. rewrite (IH more eq_refl).
    destruct (truthy_str _); reflexivity.
Qed.

Lemma collect_or_raise_no_fault (siblings : list node) :
  (forall n, get_text_raises n = None) ->
  collect_r siblings = inr (collect siblings).
Proof.
  intros H. induction siblings as [|current rest IH];
    cbn [collect_or_raise collect_answer_paragraphs]; [reflexivity|].
  destruct (negb (truthy current)); [reflexivity|].
  destruct (is_next_question current); [reflexivity|].
  destruct (is_answer_paragraph current); [|exact IH].
  unfold get_text_or_raise. rewrite H, IH. cbv zeta.
  destruct (truthy_str _); reflexivity.
Qed.

(** One turn of the loop: it raises, whatever [qa_pairs] holds, or it is
    the turn of the function without exceptions. *)
Lemma for_question_or_raise_eq (state : list QAPair * list log_record)
    (q : located) :
  step_r state q
  = match raised q with
    | Some e => inl e
    | None => inr (step state q)
    end.
Proof.
  unfold raised_by, for_question_or_raise, for_question, get_text_or_raise.
  destruct (get_text_raises (fst q)); [reflexivity|]. cbv beta iota zeta.
  destruct (skip_question _); [reflexivity|].
  destruct (collect_r (snd q)) as [e|paragraphs] eqn:E; [reflexivity|].
  apply collect_or_raise_returns in E. subst paragraphs.
  destruct (_ && _); reflexivity.
Qed.

Lemma raised_by_no_fault (q : located) :
  (forall n, get_text_raises n = None) -> raised q = None.
Proof.
  intros H. unfold raised_by, for_question_or_raise, get_text_or_raise.
  rewrite H. cbv beta iota zeta.
  destruct (skip_question _); [reflexivity|].
  rewrite collect_or_raise_no_fault by exact H.
  destruct (_ && _); reflexivity.
Qed.

Lemma for_questions_or_raise_returns (questions : list located)
    (state : list QAPair * list log_record) :
  (forall d, In d questions -> raised d = None) ->
  loop_r questions state = (fold_left step questions state, None).
Proof.
  revert state; induction questions as [|q questions IH]; intros state H;
    [reflexivity|].
  cbn [for_questions_or_raise fold_left].
  rewrite for_question_or_raise_eq, (H q (or_introl eq_refl)).
  apply IH. intros d Hd. apply H. right. exact Hd.
Qed.

(** The loop ends at the first heading whose turn raises, with
    [qa_pairs] as the headings before it have left it. *)
Lemma for_questions_or_raise_raised (done : list located) (q : located)
    (rest : list located) (state : list QAPair * list log_record)
    (e : exn) :
  (forall d, In d done -> raised d = None) ->
  raised q = Some e ->
  loop_r (done ++ q :: rest) state = (fold_left step done state, Some e).
Proof.
  revert state; induction done as [|d done IH]; intros state H Hq;
    cbn [app for_questions_or_raise fold_left];
    rewrite for_question_or_raise_eq.
  - rewrite Hq. reflexivity.
  - rewrite (H d (or_introl eq_refl)).
    apply IH; [|exact Hq]. intros d' Hd. apply H. right. exact Hd.
Qed.

Lemma extract_qa_from_html_raising_no_fault (html_content file_name : str) :
  (forall n, find_all_raises n = None) ->
  (forall n, get_text_raises n = None) ->
  from_html_r html_content file_name
  = extract_qa_from_html_with BeautifulSoup names class_ skip_question
      is_next_question is_answer_paragraph html_content file_name.
Proof.
  intros Hf Hg.
  unfold extract_qa_from_html_raising, extract_qa_from_html_with,
    extract_qa_from_soup.
  destruct (BeautifulSoup html_content) as [e|soup]; [reflexivity|].
  rewrite Hf. cbv zeta.
  destruct (find_all names class_ soup) as [|q more]; [reflexivity|].
  rewrite for_questions_or_raise_returns; [reflexivity|].
  intros d _. apply raised_by_no_fault, Hg.
Qed.

Lemma extract_qa_from_html_raising_at (html_content file_name : str)
    (soup : node) (done : list located) (q : located)
    (rest : list located) (e : exn) :
  BeautifulSoup html_content = inr soup ->
  find_all_raises soup = None ->
  find_all names class_ soup = done ++ q :: rest ->
  (forall d, In d done -> raised d = None) ->
  raised q = Some e ->
  from_html_r html_content file_name
  = (flat_map pairs_of done,
     map (fun p => DebugPair (firstn 50 (question p)))
       (flat_map pairs_of done)
     ++ [ErrorHtml file_name e]).
Proof.
  intros Hsoup Hf Hfind Hdone Hq. unfold extract_qa_from_html_raising.
  rewrite Hsoup, Hf, Hfind.
  pose proof (for_questions_or_raise_raised done q rest ([], []) e Hdone Hq)
    as Hloop.
  destruct done as [|d done']; cbn [app] in *; cbv beta iota;
    rewrite Hloop; cbv beta iota;
    rewrite for_questions_pairs, for_questions_log; reflexivity.
Qed.

End ExtractQaFromHtmlRaisingFacts.

Lemma raising_generic_no_fault find_all_raises get_text_raises lower
    BeautifulSoup html_content file_name :
  (forall n, find_all_raises n = None) ->
  (forall n, get_text_raises n = None) ->
  ExtractQaRaising.extract_qa_from_html find_all_raises get_text_raises
    lower BeautifulSoup html_content file_name
  = ExtractQa.extract_qa_from_html lower BeautifulSoup html_content
      file_name.
Proof. apply extract_qa_from_html_raising_no_fault. Qed.

Lemma raising_book_no_fault find_all_raises get_text_raises BeautifulSoup
    html_content file_name :
  (forall n, find_all_raises n = None) ->
  (forall n, get_text_raises n = None) ->
  ExtractQaChineseRaising.extract_qa_from_html find_all_raises
    get_text_raises BeautifulSoup html_content file_name
  = ExtractQaChinese.extract_qa_from_html BeautifulSoup html_content
      file_name.
Proof. apply extract_qa_from_html_raising_no_fault. Qed.

Lemma raising_generic_epub_no_fault find_all_raises get_text_raises lower
    BeautifulSoup epub_read_epub epub_path :
  (forall n, find_all_raises n = None) ->
  (forall n, get_text_raises n = None) ->
  ExtractQaRaising.extract_qa_from_epub find_all_raises get_text_raises
    lower BeautifulSoup epub_read_epub epub_path
  = ExtractQa.extract_qa_from_epub lower BeautifulSoup epub_read_epub
      epub_path.
Proof.
  intros Hf Hg.
  unfold ExtractQaRaising.extract_qa_from_epub,
    ExtractQa.extract_qa_from_epub.
  destruct (read_epub epub_read_epub epub_path) as [[e|book] log];
    [reflexivity|].
  rewrite (fold_left_ext
             (ExtractQaRaising.for_item find_all_raises get_text_raises
                lower BeautifulSoup)
             (ExtractQa.for_item lower BeautifulSoup)); [reflexivity|].
  intros [[all_qa_pairs processed_files] log'] item.
  unfold ExtractQaRaising.for_item, ExtractQa.for_item.
  item_cases lower item; try reflexivity.
  rewrite raising_generic_no_fault by assumption. reflexivity.
Qed.

Lemma raising_book_epub_no_fault find_all_raises get_text_raises lower
    BeautifulSoup epub_read_epub epub_path :
  (forall n, find_all_raises n = None) ->
  (forall n, get_text_raises n = None) ->
  ExtractQaChineseRaising.extract_qa_from_epub find_all_raises
    get_text_raises lower BeautifulSoup epub_read_epub epub_path
  = ExtractQaChinese.extract_qa_from_epub lower BeautifulSoup
      epub_read_epub epub_path.
Proof.
  intros Hf Hg.
  unfold ExtractQaChineseRaising.extract_qa_from_epub,
    ExtractQaChinese.extract_qa_from_epub.
  destruct (read_epub epub_read_epub epub_path) as [[e|book] log];
    [reflexivity|].
  rewrite (fold_left_ext
             (ExtractQaChineseRaising.for_item find_all_raises
                get_text_raises lower BeautifulSoup)
             (ExtractQaChinese.for_item lower BeautifulSoup));
    [reflexivity|].
  intros [[all_qa_pairs processed_files] log'] item.
  unfold ExtractQaChineseRaising.for_item, ExtractQaChinese.for_item.
  item_cases lower item; try reflexivity.
  rewrite raising_book_no_fault by assumption. reflexivity.
Qed.

Lemma raising_generic_for_item_pairs find_all_raises get_text_raises lower
    BeautifulSoup state item :
  fst (fst (ExtractQaRaising.for_item find_all_raises get_text_raises lower
              BeautifulSoup state item))
  = fst (fst state)
    ++ ExtractQaRaising.pairs_of_item find_all_raises get_text_raises lower
         BeautifulSoup item.
Proof.
  destruct state as [[all_qa_pairs processed_files] log].
  unfold ExtractQaRaising.for_item, ExtractQaRaising.pairs_of_item.
  item_cases lower item; cbn [fst]; try (rewrite app_nil_r; reflexivity).
  destruct (ExtractQaRaising.extract_qa_from_html _ _ _ _ _ _)
    as [[|p qa_pairs] log'];
    cbn [fst]; [rewrite app_nil_r|]; reflexivity.
Qed.

Lemma raising_book_for_item_pairs find_all_raises get_text_raises lower
    BeautifulSoup state item :
  fst (fst (ExtractQaChineseRaising.for_item find_all_raises get_text_raises
              lower BeautifulSoup state item))
  = fst (fst state)
    ++ ExtractQaChineseRaising.pairs_of_item find_all_raises get_text_raises
         lower BeautifulSoup item.
Proof.
  destruct state as [[all_qa_pairs processed_files] log].
  unfold ExtractQaChineseRaising.for_item,
    ExtractQaChineseRaising.pairs_of_item.
  item_cases lower item; cbn [fst]; try (rewrite app_nil_r; reflexivity).
  destruct (ExtractQaChineseRaising.extract_qa_from_html _ _ _ _ _)
    as [[|p qa_pairs] log'];
    cbn [fst]; [rewrite app_nil_r|]; reflexivity.
Qed.

Lemma raising_generic_for_item_log find_all_raises get_text_raises lower
    BeautifulSoup state item :
  exists more,
    snd (ExtractQaRaising.for_item find_all_raises get_text_raises lower
           BeautifulSoup state item)
    = snd state ++ more.
Proof.
  destruct state as [[all_qa_pairs processed_files] log].
  unfold ExtractQaRaising.for_item.
  item_cases lower item; cbn [snd]; eauto.
  - destruct (ExtractQaRaising.extract_qa_from_html _ _ _ _ _ _)
      as [[|p qa_pairs] log'];
      cbn [snd]; eexists; reflexivity.
  - exists []. rewrite app_nil_r. reflexivity.
Qed.

Lemma raising_book_for_item_log find_all_raises get_text_raises lower
    BeautifulSoup state item :
  exists more,
    snd (ExtractQaChineseRaising.for_item find_all_raises get_text_raises
           lower BeautifulSoup state item)
    = snd state ++ more.
Proof.
  destruct state as [[all_qa_pairs processed_files] log].
  unfold ExtractQaChineseRaising.for_item.
  item_cases lower item; cbn [snd]; eauto.
  - destruct (ExtractQaChineseRaising.extract_qa_from_html _ _ _ _ _)
      as [qa_pairs log'];
      cbn [snd]. eexists. reflexivity.
  - exists []. rewrite app_nil_r. reflexivity.
Qed.

(** In the package loop an entry that decodes adds the pairs that
    [extract_qa_from_html] returns on it, between those of the entries
    before and after it, and what the function logs is in the log. *)
Lemma raising_generic_entry find_all_raises get_text_raises lower
    BeautifulSoup epub_read_epub epub_path before B after html_content :
  epub_read_epub epub_path = inr (before ++ B :: after) ->
  is_content_item lower B = true ->
  decode_utf8 (get_content B) = inr html_content ->
  fst (ExtractQaRaising.extract_qa_from_epub find_all_raises get_text_raises
         lower BeautifulSoup epub_read_epub epub_path)
  = inr (flat_map (ExtractQaRaising.pairs_of_item find_all_raises
                     get_text_raises lower BeautifulSoup) before
         ++ fst (ExtractQaRaising.extract_qa_from_html find_all_raises
                   get_text_raises lower BeautifulSoup html_content
                   (get_name B))
         ++ flat_map (ExtractQaRaising.pairs_of_item find_all_raises
                        get_text_raises lower BeautifulSoup) after)
  /\ forall record,
       In record (snd (ExtractQaRaising.extract_qa_from_html
                         find_all_raises get_text_raises lower BeautifulSoup
                         html_content (get_name B))) ->
       In record (snd (ExtractQaRaising.extract_qa_from_epub
                         find_all_raises get_text_raises lower BeautifulSoup
                         epub_read_epub epub_path)).
Proof.
  intros Hread Hc Hd.
  unfold ExtractQaRaising.extract_qa_from_epub, read_epub. rewrite Hread.
  split.
  - pose proof (for_items_pairs _ _
                  (raising_generic_for_item_pairs find_all_raises
                     get_text_raises lower BeautifulSoup)
                  (before ++ B :: after) ([], O, [InfoReadEpub epub_path]))
      as H.
    destruct (fold_left _ _ _) as [[all_qa_pairs processed_files] log].
    cbn [fst] in *. rewrite H, flat_map_app. cbn [flat_map app].
    unfold ExtractQaRaising.pairs_of_item at 2. rewrite Hc, Hd.
    reflexivity.
  - intros record Hin.
    pose proof (for_items_logged _
                  (raising_generic_for_item_log find_all_raises
                     get_text_raises lower BeautifulSoup)
                  before after B ([], O, [InfoReadEpub epub_path]) record)
      as H.
    destruct (fold_left _ _ _) as [[all_qa_pairs processed_files] log].
    cbn [snd] in *. apply in_or_app. left. apply H.
    intros [[all_qa_pairs' processed_files'] log'].
    unfold ExtractQaRaising.for_item. rewrite Hc, Hd.
    destruct (ExtractQaRaising.extract_qa_from_html _ _ _ _ _ _)
      as [[|p qa_pairs] log''];
      cbn [snd] in *; apply in_or_app; right; [exact Hin|].
    apply in_or_app. left. exact Hin.
Qed.

Lemma raising_book_entry find_all_raises get_text_raises lower
    BeautifulSoup epub_read_epub epub_path before B after html_content :
  epub_read_epub epub_path = inr (before ++ B :: after) ->
  is_content_item lower B = true ->
  decode_utf8 (get_content B) = inr html_content ->
  fst (ExtractQaChineseRaising.extract_qa_from_epub find_all_raises
         get_text_raises lower BeautifulSoup epub_read_epub epub_path)
  = inr (flat_map (ExtractQaChineseRaising.pairs_of_item find_all_raises
                     get_text_raises lower BeautifulSoup) before
         ++ fst (ExtractQaChineseRaising.extract_qa_from_html
                   find_all_raises get_text_raises BeautifulSoup
                   html_content (get_name B))
         ++ flat_map (ExtractQaChineseRaising.pairs_of_item find_all_raises
                        get_text_raises lower BeautifulSoup) after)
  /\ forall record,
       In record (snd (ExtractQaChineseRaising.extract_qa_from_html
                         find_all_raises get_text_raises BeautifulSoup
                         html_content (get_name B))) ->
       In record (snd (ExtractQaChineseRaising.extract_qa_from_epub
                         find_all_raises get_text_raises lower BeautifulSoup
                         epub_read_epub epub_path)).
Proof.
  intros Hread Hc Hd.
  unfold ExtractQaChineseRaising.extract_qa_from_epub, read_epub.
  rewrite Hread. split.
  - pose proof (for_items_pairs _ _
                  (raising_book_for_item_pairs find_all_raises
                     get_text_raises lower BeautifulSoup)
                  (before ++ B :: after) ([], O, [InfoReadEpub epub_path]))
      as H.
    destruct (fold_left _ _ _) as [[all_qa_pairs processed_files] log].
    cbn [fst] in *. rewrite H, flat_map_app. cbn [flat_map app].
    unfold ExtractQaChineseRaising.pairs_of_item at 2. rewrite Hc, Hd.
    reflexivity.
  - intros record Hin.
    pose proof (for_items_logged _
                  (raising_book_for_item_log find_all_raises
                     get_text_raises lower BeautifulSoup)
                  before after B ([], O, [InfoReadEpub epub_path]) record)
      as H.
    destruct (fold_left _ _ _) as [[all_qa_pairs processed_files] log].
    cbn [snd] in *. apply in_or_app. left. apply H.
    intros [[all_qa_pairs' processed_files'] log'].
    unfold ExtractQaChineseRaising.for_item. rewrite Hc, Hd.
    destruct (ExtractQaChineseRaising.extract_qa_from_html _ _ _ _ _)
      as [qa_pairs log''].
    cbn [snd] in *. apply in_or_app. right. apply in_or_app. left.
    exact Hin.
Qed.

(** C2, as stated, fails: on the page of the two questions, with a
    [get_text] that raises on the second heading, the turn of the second
    heading raises when [qa_pairs] holds the pair of the first; the
    function of [extract_qa.py] logs the error and returns that pair,
    not the empty list. *)
Lemma traversal_error_keeps_pairs :
  example_parser two_questions_html = inr (page two_questions_body)
  /\ find_all ExtractQa.names (ExtractQa.class_ ascii_lower)
       (page two_questions_body)
     = [(heading_Q, [p_a; p_b; heading_R; p_c]); (heading_R, [p_c])]
  /\ for_question_or_raise second_heading_raises ExtractQa.skip_question
       (ExtractQa.is_next_question ascii_lower)
       ExtractQa.is_answer_paragraph
       ([{| question := [81; FULLWIDTH_QUESTION_MARK];
            answer := lit "a" ++ [NEWLINE] ++ lit "b" |}],
        [DebugPair [81; FULLWIDTH_QUESTION_MARK]])
       (heading_R, [p_c])
     = inl (Exception (lit "MemoryError"))
  /\ ExtractQaRaising.extract_qa_from_html never_raises
       second_heading_raises ascii_lower example_parser two_questions_html
       (lit "ch2.xhtml")
     = ([{| question := [81; FULLWIDTH_QUESTION_MARK];
            answer := lit "a" ++ [NEWLINE] ++ lit "b" |}],
        [DebugPair [81; FULLWIDTH_QUESTION_MARK];
         ErrorHtml (lit "ch2.xhtml") (Exception (lit "MemoryError"))])
  /\ fst (ExtractQaRaising.extract_qa_from_html never_raises
            second_heading_raises ascii_lower example_parser
            two_questions_html (lit "ch2.xhtml")) <> [].
Proof.
  repeat (split; [vm_compute; reflexivity|]).
  vm_compute. discriminate.
Qed.

(** C2, amended: an exception raised inside [extract_qa_from_html], by
    the parser, by [find_all] or by a later call on the tree, is caught
    and logged, and the function returns [qa_pairs] as it is then: no
    pair when the parser or [find_all] raises, and otherwise the pairs of
    the headings before the one whose turn raises.  In the package loop the entry adds the pairs that the
    function returns, its error record is in the log, and the entries
    before and after it add their pairs.  When no call on the tree
    raises, the function and the loop are those of the other claims.
    Both files. *)
Theorem caught_error_returns_pairs_so_far :
  (forall find_all_raises get_text_raises BeautifulSoup names class_
          skip_question is_next_question is_answer_paragraph
          html_content file_name e,
      BeautifulSoup html_content = inl e ->
      extract_qa_from_html_raising find_all_raises get_text_raises
        BeautifulSoup names class_ skip_question is_next_question
        is_answer_paragraph html_content file_name
      = ([], [ErrorHtml file_name e]))
  /\ (forall find_all_raises get_text_raises BeautifulSoup names class_
             skip_question is_next_question is_answer_paragraph
             html_content file_name soup e,
      BeautifulSoup html_content = inr soup ->
      find_all_raises soup = Some e ->
      extract_qa_from_html_raising find_all_raises get_text_raises
        BeautifulSoup names class_ skip_question is_next_question
        is_answer_paragraph html_content file_name
      = ([], [ErrorHtml file_name e]))
  /\ (forall find_all_raises get_text_raises BeautifulSoup names class_
             skip_question is_next_question is_answer_paragraph
             html_content file_name soup done q rest e,
      BeautifulSoup html_content = inr soup ->
      find_all_raises soup = None ->
      find_all names class_ soup = done ++ q :: rest ->
      (forall d, In d done ->
                 raised_by get_text_raises skip_question is_next_question
                   is_answer_paragraph d = None) ->
      raised_by get_text_raises skip_question is_next_question
        is_answer_paragraph q = Some e ->
      extract_qa_from_html_raising find_all_raises get_text_raises
        BeautifulSoup names class_ skip_question is_next_question
        is_answer_paragraph html_content file_name
      = (flat_map (pairs_of_question skip_question is_next_question
                     is_answer_paragraph) done,
         map (fun p => DebugPair (firstn 50 (question p)))
           (flat_map (pairs_of_question skip_question is_next_question
                        is_answer_paragraph) done)
         ++ [ErrorHtml file_name e]))
  /\ (forall lower BeautifulSoup html_content file_name e,
      BeautifulSoup html_content = inl e ->
      ExtractQa.extract_qa_from_html lower BeautifulSoup html_content
        file_name = ([], [ErrorHtml file_name e])
      /\ ExtractQaChinese.extract_qa_from_html BeautifulSoup html_content
           file_name = ([], [ErrorHtml file_name e]))
  /\ (forall find_all_raises get_text_raises lower BeautifulSoup
             epub_read_epub,
      (forall n, find_all_raises n = None) ->
      (forall n, get_text_raises n = None) ->
      (forall html_content file_name,
          ExtractQaRaising.extract_qa_from_html find_all_raises
            get_text_raises lower BeautifulSoup html_content file_name
          = ExtractQa.extract_qa_from_html lower BeautifulSoup html_content
              file_name)
      /\ (forall html_content file_name,
          ExtractQaChineseRaising.extract_qa_from_html find_all_raises
            get_text_raises BeautifulSoup html_content file_name
          = ExtractQaChinese.extract_qa_from_html BeautifulSoup html_content
              file_name)
      /\ (forall epub_path,
          ExtractQaRaising.extract_qa_from_epub find_all_raises
            get_text_raises lower BeautifulSoup epub_read_epub epub_path
          = ExtractQa.extract_qa_from_epub lower BeautifulSoup
              epub_read_epub epub_path)
      /\ (forall epub_path,
          ExtractQaChineseRaising.extract_qa_from_epub find_all_raises
            get_text_raises lower BeautifulSoup epub_read_epub epub_path
          = ExtractQaChinese.extract_qa_from_epub lower BeautifulSoup
              epub_read_epub epub_path))
  /\ (forall find_all_raises get_text_raises lower BeautifulSoup
             epub_read_epub epub_path before B after html_content,
      epub_read_epub epub_path = inr (before ++ B :: after) ->
      is_content_item lower B = true ->
      decode_utf8 (get_content B) = inr html_content ->
      fst (ExtractQaRaising.extract_qa_from_epub find_all_raises
             get_text_raises lower BeautifulSoup epub_read_epub epub_path)
      = inr (flat_map (ExtractQaRaising.pairs_of_item find_all_raises
                         get_text_raises lower BeautifulSoup) before
             ++ fst (ExtractQaRaising.extract_qa_from_html find_all_raises
                       get_text_raises lower BeautifulSoup html_content
                       (get_name B))
             ++ flat_map (ExtractQaRaising.pairs_of_item find_all_raises
                            get_text_raises lower BeautifulSoup) after)
      /\ forall record,
           In record (snd (ExtractQaRaising.extract_qa_from_html
                             find_all_raises get_text_raises lower
                             BeautifulSoup html_content (get_name B))) ->
           In record (snd (ExtractQaRaising.extract_qa_from_epub
                             find_all_raises get_text_raises lower
                             BeautifulSoup epub_read_epub epub_path)))
  /\ (forall find_all_raises get_text_raises lower BeautifulSoup
             epub_read_epub epub_path before B after html_content,
      epub_read_epub epub_path = inr (before ++ B :: after) ->
      is_content_item lower B = true ->
      decode_utf8 (get_content B) = inr html_content ->
      fst (ExtractQaChineseRaising.extract_qa_from_epub find_all_raises
             get_text_raises lower BeautifulSoup epub_read_epub epub_path)
      = inr (flat_map (ExtractQaChineseRaising.pairs_of_item
                         find_all_raises get_text_raises lower
                         BeautifulSoup) before
             ++ fst (ExtractQaChineseRaising.extract_qa_from_html
                       find_all_raises get_text_raises BeautifulSoup
                       html_content (get_name B))
             ++ flat_map (ExtractQaChineseRaising.pairs_of_item
                            find_all_raises get_text_raises lower
                            BeautifulSoup) after)
      /\ forall record,
           In record (snd (ExtractQaChineseRaising.extract_qa_from_html
                             find_all_raises get_text_raises BeautifulSoup
                             html_content (get_name B))) ->
           In record (snd (ExtractQaChineseRaising.extract_qa_from_epub
                             find_all_raises get_text_raises lower
                             BeautifulSoup epub_read_epub epub_path))).
Proof.
  split; [|split; [|split; [|split; [|split; [|split]]]]].
  - intros find_all_raises get_text_raises BeautifulSoup names class_
      skip_question is_next_question is_answer_paragraph html_content
      file_name e He.
    unfold extract_qa_from_html_raising. rewrite He. reflexivity.
  - intros find_all_raises get_text_raises BeautifulSoup names class_
      skip_question is_next_question is_answer_paragraph html_content
      file_name soup e Hsoup He.
    unfold extract_qa_from_html_raising. rewrite Hsoup, He. reflexivity.
  - intros. eapply extract_qa_from_html_raising_at; eassumption.
  - intros lower BeautifulSoup html_content file_name e He.
    unfold ExtractQa.extract_qa_from_html,
      ExtractQaChinese.extract_qa_from_html, extract_qa_from_html_with.
    rewrite He. split; reflexivity.
  - intros find_all_raises get_text_raises lower BeautifulSoup
      epub_read_epub Hf Hg.
    split; [|split; [|split]]; intros.
    + apply raising_generic_no_fault; assumption.
    + apply raising_book_no_fault; assumption.
    + apply raising_generic_epub_no_fault; assumption.
    + apply raising_book_epub_no_fault; assumption.
  - intros. apply raising_generic_entry; assumption.
  - intros. apply raising_book_entry; assumption.
Qed.

Lemma caught_error_returns_pairs_so_far_witness :
  ExtractQaRaising.extract_qa_from_html never_raises second_heading_raises
    ascii_lower example_parser two_questions_html (lit "ch2.xhtml")
  = ([{| question := [81; FULLWIDTH_QUESTION_MARK];
         answer := lit "a" ++ [NEWLINE] ++ lit "b" |}],
     [DebugPair [81; FULLWIDTH_QUESTION_MARK];
      ErrorHtml (lit "ch2.xhtml") (Exception (lit "MemoryError"))])
  /\ ExtractQaChineseRaising.extract_qa_from_html find_all_fails
       never_raises example_parser book_two_questions_html
       (lit "ch2.xhtml")
     = ([], [ErrorHtml (lit "ch2.xhtml")
               (Exception (lit "RecursionError"))])
  /\ ExtractQa.extract_qa_from_html ascii_lower example_parser
       (lit "<p>?</p>") (lit "ch2.xhtml")
     = ([], [ErrorHtml (lit "ch2.xhtml")
               (Exception (lit "ParserRejectedMarkup"))])
  /\ fst (ExtractQaRaising.extract_qa_from_epub never_raises
            second_heading_raises ascii_lower example_parser
            (reader_of ([generic_A] ++ two_questions_chapter :: [generic_C]))
            (lit "book.epub"))
     = inr [{| question := question_A; answer := lit "a" |};
            {| question := [81; FULLWIDTH_QUESTION_MARK];
               answer := lit "a" ++ [NEWLINE] ++ lit "b" |};
            {| question := question_C; answer := lit "c" |}]
  /\ fst (ExtractQa.extract_qa_from_epub ascii_lower example_parser
            (reader_of ([generic_A] ++ two_questions_chapter :: [generic_C]))
            (lit "book.epub"))
     = inr [{| question := question_A; answer := lit "a" |};
            {| question := [81; FULLWIDTH_QUESTION_MARK];
               answer := lit "a" ++ [NEWLINE] ++ lit "b" |};
            {| question := [82; FULLWIDTH_QUESTION_MARK];
               answer := lit "c" |};
            {| question := question_C; answer := lit "c" |}]
  /\ ExtractQaRaising.extract_qa_from_html never_raises
       second_heading_raises ascii_lower example_parser (lit "<p>?</p>")
       (lit "ch2.xhtml")
     = ([], [ErrorHtml (lit "ch2.xhtml")
               (Exception (lit "ParserRejectedMarkup"))])
  /\ In (ErrorHtml (lit "ch2.xhtml") (Exception (lit "RecursionError")))
        (snd (ExtractQaChineseRaising.extract_qa_from_epub find_all_fails
                never_raises ascii_lower example_parser
                (reader_of ([book_A] ++ book_B :: [book_C]))
                (lit "book.epub"))).
Proof.
  destruct caught_error_returns_pairs_so_far
    as [Hparser [Hfind [Hwalk [Hfiles [Hsame [Hentry Hbook_entry]]]]]].
  assert (Hsoup : example_parser two_questions_html
                  = inr (page two_questions_body))
    by (vm_compute; reflexivity).
  assert (Hbook : example_parser book_two_questions_html
                  = inr (page book_two_questions_body))
    by (vm_compute; reflexivity).
  assert (Hno : example_parser (lit "<p>?</p>")
                = inl (Exception (lit "ParserRejectedMarkup")))
    by (vm_compute; reflexivity).
  assert (Hquestions :
            find_all ExtractQa.names (ExtractQa.class_ ascii_lower)
              (page two_questions_body)
            = [(heading_Q, [p_a; p_b; heading_R; p_c])]
              ++ (heading_R, [p_c]) :: [])
    by (vm_compute; reflexivity).
  assert (Hdone : forall d,
            In d [(heading_Q, [p_a; p_b; heading_R; p_c])] ->
            raised_by second_heading_raises ExtractQa.skip_question
              (ExtractQa.is_next_question ascii_lower)
              ExtractQa.is_answer_paragraph d = None)
    by (intros d [<- | []]; vm_compute; reflexivity).
  assert (Hq : raised_by second_heading_raises ExtractQa.skip_question
                 (ExtractQa.is_next_question ascii_lower)
                 ExtractQa.is_answer_paragraph (heading_R, [p_c])
               = Some (Exception (lit "MemoryError")))
    by (vm_compute; reflexivity).
  assert (Hc : is_content_item ascii_lower two_questions_chapter = true)
    by (vm_compute; reflexivity).
  assert (Hd : decode_utf8 (get_content two_questions_chapter)
               = inr two_questions_html)
    by (vm_compute; reflexivity).
  assert (HcB : is_content_item ascii_lower book_B = true)
    by (vm_compute; reflexivity).
  assert (HdB : decode_utf8 (get_content book_B)
                = inr (book_html (lit "qb") (lit "b")))
    by (vm_compute; reflexivity).
  assert (HsoupB : example_parser (book_html (lit "qb") (lit "b"))
                   = inr (book_soup (lit "qb") (lit "b")))
    by (vm_compute; reflexivity).
  split; [|split; [|split; [|split; [|split; [|split]]]]].
  - unfold ExtractQaRaising.extract_qa_from_html.
    rewrite (Hwalk never_raises second_heading_raises example_parser
               ExtractQa.names (ExtractQa.class_ ascii_lower)
               ExtractQa.skip_question
               (ExtractQa.is_next_question ascii_lower)
               ExtractQa.is_answer_paragraph two_questions_html
               (lit "ch2.xhtml") (page two_questions_body)
               [(heading_Q, [p_a; p_b; heading_R; p_c])] (heading_R, [p_c])
               [] (Exception (lit "MemoryError"))
               Hsoup eq_refl Hquestions Hdone Hq).
    vm_compute. reflexivity.
  - exact (Hfind find_all_fails never_raises example_parser
             ExtractQaChinese.names ExtractQaChinese.class_
             ExtractQaChinese.skip_question
             ExtractQaChinese.is_next_question
             ExtractQaChinese.is_answer_paragraph book_two_questions_html
             (lit "ch2.xhtml") (page book_two_questions_body)
             (Exception (lit "RecursionError")) Hbook eq_refl).
  - exact (proj1 (Hfiles ascii_lower example_parser (lit "<p>?</p>")
                    (lit "ch2.xhtml") _ Hno)).
  - rewrite (proj1 (Hentry never_raises second_heading_raises ascii_lower
                      example_parser
                      (reader_of ([generic_A] ++ two_questions_chapter
                                  :: [generic_C]))
                      (lit "book.epub") [generic_A] two_questions_chapter
                      [generic_C] two_questions_html eq_refl Hc Hd)).
    vm_compute. reflexivity.
  - destruct (Hsame never_raises never_raises ascii_lower example_parser
                (reader_of ([generic_A] ++ two_questions_chapter
                            :: [generic_C]))
                (fun n => eq_refl) (fun n => eq_refl))
      as [_ [_ [Hepub _]]].
    rewrite <- Hepub. vm_compute. reflexivity.
  - exact (Hparser never_raises second_heading_raises example_parser
             ExtractQa.names (ExtractQa.class_ ascii_lower)
             ExtractQa.skip_question
             (ExtractQa.is_next_question ascii_lower)
             ExtractQa.is_answer_paragraph (lit "<p>?</p>")
             (lit "ch2.xhtml") _ Hno).
  - apply (proj2 (Hbook_entry find_all_fails never_raises ascii_lower
                    example_parser
                    (reader_of ([book_A] ++ book_B :: [book_C]))
                    (lit "book.epub") [book_A] book_B [book_C]
                    (book_html (lit "qb") (lit "b")) eq_refl HcB HdB)).
    unfold ExtractQaChineseRaising.extract_qa_from_html.
    rewrite (Hfind find_all_fails never_raises example_parser
               ExtractQaChinese.names ExtractQaChinese.class_
               ExtractQaChinese.skip_question
               ExtractQaChinese.is_next_question
               ExtractQaChinese.is_answer_paragraph
               (book_html (lit "qb") (lit "b")) (get_name book_B)
               (book_soup (lit "qb") (lit "b"))
               (Exception (lit "RecursionError")) HsoupB eq_refl).
    left. reflexivity.
Defined.

(* ================================================================== *)
(** * Further properties *)

(* ------------------------------------------------------------------ *)
(** ** [clean_text] *)

Lemma split_words_nil (x : str) :
  split_words x = [] <-> forallb isspace x = true.
Proof.
  induction x as [|c x IH]; [simpl; tauto|].
  destruct (isspace c) eqn:Hc.
  - cbn [split_words forallb]. rewrite Hc. exact IH.
  - cbn [forallb]. rewrite Hc. split; [|discriminate].
    intros H. exfalso. exact (split_words_head c x Hc H).
Qed.

(** X1: [clean_text] gives the empty string exactly on the texts that
    hold nothing but whitespace (the empty text among them). *)
Theorem clean_text_empty_iff_blank (x : str) :
  clean_text x = [] <-> forallb isspace x = true.
Proof.
  rewrite clean_text_refines_spec. unfold clean_text_spec.
  rewrite <- split_words_nil. split.
  - apply join_nil, split_words_nonempty.
  - intros ->. reflexivity.
Qed.

Lemma re_sub_spaces_keeps (b : bool) (x : str) :
  filter (fun c => negb (isspace c)) (re_sub_spaces b x)
  = filter (fun c => negb (isspace c)) x
  /\ (length (re_sub_spaces b x) <= length x)%nat.
Proof.
  revert b; induction x as [|c x IH]; intros b; [split; reflexivity|].
  cbn [re_sub_spaces filter length]. destruct (isspace c) eqn:Hc; cbn [negb].
  - destruct b.
    + destruct (IH true) as [Hf Hl]. split; [exact Hf | lia].
    + destruct (IH true) as [Hf Hl]. cbn [filter length].
      rewrite space_isspace. cbn [negb]. split; [exact Hf | lia].
  - destruct (IH false) as [Hf Hl]. cbn [filter length]. rewrite Hc.
    cbn [negb]. split; [f_equal; exact Hf | lia].
Qed.

Lemma lstrip_keeps (s : str) :
  filter (fun c => negb (isspace c)) (lstrip s)
  = filter (fun c => negb (isspace c)) s
  /\ (length (lstrip s) <= length s)%nat.
Proof.
  induction s as [|c s [Hf Hl]]; [split; reflexivity|].
  cbn [lstrip]. destruct (isspace c) eqn:Hc; [|split; reflexivity].
  cbn [filter length]. rewrite Hc. cbn [negb]. split; [exact Hf | lia].
Qed.

Lemma rstrip_keeps (s : str) :
  filter (fun c => negb (isspace c)) (rstrip s)
  = filter (fun c => negb (isspace c)) s
  /\ (length (rstrip s) <= length s)%nat.
Proof.
  induction s as [|c s [Hf Hl]]; [split; reflexivity|].
  cbn [rstrip]. destruct (rstrip s) as [|k kept].
  - destruct (isspace c) eqn:Hc; simpl; rewrite Hc; simpl; rewrite <- Hf;
      split; try reflexivity; lia.
  - remember (k :: kept) as r. simpl. rewrite <- Hf.
    split; [reflexivity | lia].
Qed.

(** X2: [clean_text] keeps the characters that are no whitespace, all of
    them and in their order, and its result is never longer than the
    text. *)
Theorem clean_text_keeps_characters (x : str) :
  filter (fun c => negb (isspace c)) (clean_text x)
  = filter (fun c => negb (isspace c)) x
  /\ (length (clean_text x) <= length x)%nat.
Proof.
  unfold clean_text, strip.
  destruct (rstrip_keeps (lstrip (re_sub_spaces false x))) as [Hf1 Hl1].
  destruct (lstrip_keeps (re_sub_spaces false x)) as [Hf2 Hl2].
  destruct (re_sub_spaces_keeps false x) as [Hf3 Hl3].
  split; [congruence | lia].
Qed.

(* ------------------------------------------------------------------ *)
(** ** The answer of a heading *)

(** X3: the paragraphs that the loop of lines 63-72 collects, whatever
    the two tests of the file: of the siblings before the first one that
    ends the loop, those that pass the test of line 68, their texts
    cleaned, the empty ones left out, in order. *)
Theorem collect_answer_paragraphs_closed_form
    (is_next_question is_answer_paragraph : node -> bool)
    (siblings : list node) :
  collect_answer_paragraphs is_next_question is_answer_paragraph siblings
  = filter truthy_str
      (map (fun current => clean_text (get_text current))
         (filter is_answer_paragraph
            (visited_siblings is_next_question siblings))).
Proof.
  induction siblings as [|current rest IH]; [reflexivity|].
  cbn [collect_answer_paragraphs visited_siblings].
  destruct (truthy current); cbn [negb orb]; [|reflexivity].
  destruct (is_next_question current); [reflexivity|].
  cbn [filter]. destruct (is_answer_paragraph current); [|exact IH].
  cbn [map filter]. destruct (truthy_str _); rewrite IH; reflexivity.
Qed.

Lemma collect_answer_paragraphs_ignores
    (is_next_question is_answer_paragraph : node -> bool)
    (before after : list node) (n : node) :
  truthy n = true ->
  is_next_question n = false ->
  is_answer_paragraph n = false ->
  collect_answer_paragraphs is_next_question is_answer_paragraph
    (before ++ n :: after)
  = collect_answer_paragraphs is_next_question is_answer_paragraph
      (before ++ after).
Proof.
  intros Ht Hn Hp. induction before as [|current rest IH].
  - cbn [app collect_answer_paragraphs]. rewrite Ht, Hn, Hp. reflexivity.
  - cbn [app collect_answer_paragraphs]. rewrite IH. reflexivity.
Qed.

(** X4: a sibling that is neither a heading of the signature nor a
    paragraph that the file takes changes no answer: the walk passes
    over it and does not look inside it.  So in the generic file a [div]
    is passed over with the paragraphs it holds, and in the book-specific
    file a [p] without the class [bodycontent-text] is passed over and
    does not end the walk. *)
Theorem walk_passes_over_other_nodes :
  (forall lower before n after,
      truthy n = true ->
      ExtractQa.is_next_question lower n = false ->
      ExtractQa.is_answer_paragraph n = false ->
      collect_answer_paragraphs (ExtractQa.is_next_question lower)
        ExtractQa.is_answer_paragraph (before ++ n :: after)
      = collect_answer_paragraphs (ExtractQa.is_next_question lower)
          ExtractQa.is_answer_paragraph (before ++ after))
  /\ (forall lower before class inside after,
      collect_answer_paragraphs (ExtractQa.is_next_question lower)
        ExtractQa.is_answer_paragraph
        (before ++ Tag (lit "div") class inside :: after)
      = collect_answer_paragraphs (ExtractQa.is_next_question lower)
          ExtractQa.is_answer_paragraph (before ++ after))
  /\ (forall before n after,
      truthy n = true ->
      ExtractQaChinese.is_next_question n = false ->
      ExtractQaChinese.is_answer_paragraph n = false ->
      collect_answer_paragraphs ExtractQaChinese.is_next_question
        ExtractQaChinese.is_answer_paragraph (before ++ n :: after)
      = collect_answer_paragraphs ExtractQaChinese.is_next_question
          ExtractQaChinese.is_answer_paragraph (before ++ after))
  /\ (forall before n after,
      name_is n (lit "p") = true ->
      str_in (lit "bodycontent-text") (get_class n) = false ->
      collect_answer_paragraphs ExtractQaChinese.is_next_question
        ExtractQaChinese.is_answer_paragraph (before ++ n :: after)
      = collect_answer_paragraphs ExtractQaChinese.is_next_question
          ExtractQaChinese.is_answer_paragraph (before ++ after)).
Proof.
  split; [|split; [|split]].
  - intros. apply collect_answer_paragraphs_ignores; assumption.
  - intros. apply collect_answer_paragraphs_ignores; reflexivity.
  - intros. apply collect_answer_paragraphs_ignores; assumption.
  - intros before n after Hp Hc.
    destruct (book_paragraph n Hp) as [Ht [Hn _]].
    apply collect_answer_paragraphs_ignores; try assumption.
    unfold ExtractQaChinese.is_answer_paragraph. rewrite Hp, Hc. reflexivity.
Qed.

Lemma walk_passes_over_other_nodes_witness :
  collect_answer_paragraphs (ExtractQa.is_next_question ascii_lower)
    ExtractQa.is_answer_paragraph
    ([p_a] ++ NavigableString [NEWLINE] :: [p_b; heading_R; p_c])
  = [lit "a"; lit "b"]
  /\ collect_answer_paragraphs ExtractQaChinese.is_next_question
       ExtractQaChinese.is_answer_paragraph
       ([book_p_c] ++ book_p_note :: [book_p_d])
     = [lit "c"; lit "d"].
Proof.
  destruct walk_passes_over_other_nodes as [Hg [_ [_ Hb]]].
  split.
  - rewrite (Hg ascii_lower [p_a] (NavigableString [NEWLINE])
               [p_b; heading_R; p_c]) by (vm_compute; reflexivity).
    vm_compute. reflexivity.
  - rewrite (Hb [book_p_c] book_p_note [book_p_d])
      by (vm_compute; reflexivity).
    vm_compute. reflexivity.
Defined.

(* ------------------------------------------------------------------ *)
(** ** The pairs and the log of a document *)

Section PairsOfDocument.

Variable BeautifulSoup : str -> exn + node.
Variable names : list str.
Variable class_ : option str -> bool.
Variable skip_question : str -> bool.
Variable is_next_question : node -> bool.
Variable is_answer_paragraph : node -> bool.

Hypothesis kept_question_nonempty :
  forall s, skip_question s = false -> s <> [].

Notation collect :=
  (collect_answer_paragraphs is_next_question is_answer_paragraph).
Notation pairs_of :=
  (pairs_of_question skip_question is_next_question is_answer_paragraph).
Notation step :=
  (for_question skip_question is_next_question is_answer_paragraph).
Notation from_soup :=
  (extract_qa_from_soup names class_ skip_question is_next_question
     is_answer_paragraph).

Notation kept :=
  (fun q : located =>
     negb (skip_question (clean_text (get_text (fst q))))
     && truthy_str (join [NEWLINE] (collect (snd q)))).
Notation pair_of :=
  (fun q : located =>
     {| question := clean_text (get_text (fst q));
        answer := join [NEWLINE] (collect (snd q)) |}).

Lemma pairs_of_question_kept_or_not (q : located) :
  pairs_of q = if kept q then [pair_of q] else [].
Proof.
  rewrite pairs_of_question_eq. cbv zeta.
  destruct (skip_question _) eqn:Hs; [reflexivity|].
  apply kept_question_nonempty, truthy_str_true in Hs. rewrite Hs.
  reflexivity.
Qed.

Lemma pairs_of_questions (questions : list located) :
  flat_map pairs_of questions = map pair_of (filter kept questions).
Proof.
  induction questions as [|q questions IH]; [reflexivity|].
  cbn [flat_map filter]. rewrite pairs_of_question_kept_or_not, IH.
  destruct (kept q); reflexivity.
Qed.

Lemma soup_pairs_closed_form (soup : node) (file_name : str) :
  fst (from_soup soup file_name)
  = map pair_of (filter kept (find_all names class_ soup)).
Proof. rewrite extract_qa_from_soup_pairs. apply pairs_of_questions. Qed.

Lemma soup_log (soup : node) (file_name : str) :
  snd (from_soup soup file_name)
  = match find_all names class_ soup with
    | [] => [DebugNoQuestion file_name]
    | _ :: _ =>
        map (fun p => DebugPair (firstn 50 (question p)))
          (fst (from_soup soup file_name))
    end.
Proof.
  rewrite extract_qa_from_soup_pairs. unfold extract_qa_from_soup.
  destruct (find_all names class_ soup) as [|q questions]; [reflexivity|].
  apply for_questions_log.
Qed.

End PairsOfDocument.

Lemma generic_kept_question_nonempty (s : str) :
  ExtractQa.skip_question s = false -> s <> [].
Proof. intros H. apply generic_skip_question_false in H. tauto. Qed.

Lemma book_kept_question_nonempty (s : str) :
  ExtractQaChinese.skip_question s = false -> s <> [].
Proof.
  intros H. apply book_skip_question_false in H.
  destruct s; [simpl in H; lia | discriminate].
Qed.

(** X5: on a document that parses, each file returns one pair for every
    heading that [find_all] returns, that is not skipped and whose answer
    is not empty, and nothing else, in the order of the headings in the
    document: the question is the cleaned text of the heading, the answer
    its collected paragraphs joined by newlines. *)
Theorem pairs_are_the_kept_headings :
  (forall lower BeautifulSoup html_content file_name soup,
      BeautifulSoup html_content = inr soup ->
      fst (ExtractQa.extract_qa_from_html lower BeautifulSoup html_content
             file_name)
      = map (fun q =>
               {| question := clean_text (get_text (fst q));
                  answer :=
                    join [NEWLINE]
                      (collect_answer_paragraphs
                         (ExtractQa.is_next_question lower)
                         ExtractQa.is_answer_paragraph (snd q)) |})
          (filter (fun q =>
                     negb (ExtractQa.skip_question
                             (clean_text (get_text (fst q))))
                     && truthy_str
                          (join [NEWLINE]
                             (collect_answer_paragraphs
                                (ExtractQa.is_next_question lower)
                                ExtractQa.is_answer_paragraph (snd q))))
             (find_all ExtractQa.names (ExtractQa.class_ lower) soup)))
  /\ (forall BeautifulSoup html_content file_name soup,
      BeautifulSoup html_content = inr soup ->
      fst (ExtractQaChinese.extract_qa_from_html BeautifulSoup html_content
             file_name)
      = map (fun q =>
               {| question := clean_text (get_text (fst q));
                  answer :=
                    join [NEWLINE]
                      (collect_answer_paragraphs
                         ExtractQaChinese.is_next_question
                         ExtractQaChinese.is_answer_paragraph (snd q)) |})
          (filter (fun q =>
                     negb (ExtractQaChinese.skip_question
                             (clean_text (get_text (fst q))))
                     && truthy_str
                          (join [NEWLINE]
                             (collect_answer_paragraphs
                                ExtractQaChinese.is_next_question
                                ExtractQaChinese.is_answer_paragraph
                                (snd q))))
             (find_all ExtractQaChinese.names ExtractQaChinese.class_
                soup))).
Proof.
  split.
  - intros lower BeautifulSoup html_content file_name soup Hsoup.
    unfold ExtractQa.extract_qa_from_html, extract_qa_from_html_with.
    rewrite Hsoup.
    apply soup_pairs_closed_form, generic_kept_question_nonempty.
  - intros BeautifulSoup html_content file_name soup Hsoup.
    unfold ExtractQaChinese.extract_qa_from_html, extract_qa_from_html_with.
    rewrite Hsoup.
    apply soup_pairs_closed_form, book_kept_question_nonempty.
Qed.

Lemma pairs_are_the_kept_headings_witness :
  fst (ExtractQa.extract_qa_from_html ascii_lower example_parser
         skipped_html [])
  = [{| question := [81; FULLWIDTH_QUESTION_MARK]; answer := lit "a" |};
     {| question := [82; FULLWIDTH_QUESTION_MARK]; answer := lit "c" |}]
  /\ fst (ExtractQaChinese.extract_qa_from_html example_parser
            book_skipped_html [])
     = [{| question := lit "ab"; answer := lit "a" |};
        {| question := lit "cd"; answer := lit "c" |}].
Proof.
  destruct pairs_are_the_kept_headings as [Hg Hb]. split.
  - rewrite (Hg ascii_lower example_parser skipped_html []
               (page (skipped_before ++ skipped_heading
                      :: skipped_mid ++ skipped_after)))
      by (vm_compute; reflexivity).
    vm_compute. reflexivity.
  - rewrite (Hb example_parser book_skipped_html []
               (page (book_skipped_before ++ book_skipped_heading
                      :: book_skipped_mid ++ book_skipped_after)))
      by (vm_compute; reflexivity).
    vm_compute. reflexivity.
Defined.

Lemma debug_pairs_not_emitted (qa_pairs : list QAPair) :
  filter emitted
    (map (fun p => DebugPair (firstn 50 (question p))) qa_pairs) = [].
Proof. induction qa_pairs as [|p qa_pairs IH]; [reflexivity | exact IH]. Qed.

(** X6: the calls of [logging] in [extract_qa_from_html], and what they
    emit.  On a document that parses, the calls are those of
    [logging.debug]: the one that no question tag was found when
    [find_all] returns nothing, and otherwise one for each returned pair,
    in order, with the first 50 characters of its question (so none at
    all when headings are found and none yields a pair); at the level
    [INFO] that line 10 sets none of them is emitted, so that the
    function logs nothing.  When the parser raises, what is emitted is
    the one error record.  Both files. *)
Theorem log_follows_pairs :
  (forall lower BeautifulSoup html_content file_name soup,
      BeautifulSoup html_content = inr soup ->
      snd (ExtractQa.extract_qa_from_html lower BeautifulSoup html_content
             file_name)
      = match find_all ExtractQa.names (ExtractQa.class_ lower) soup with
        | [] => [DebugNoQuestion file_name]
        | _ :: _ =>
            map (fun p => DebugPair (firstn 50 (question p)))
              (fst (ExtractQa.extract_qa_from_html lower BeautifulSoup
                      html_content file_name))
        end
      /\ filter emitted
           (snd (ExtractQa.extract_qa_from_html lower BeautifulSoup
                   html_content file_name)) = [])
  /\ (forall BeautifulSoup html_content file_name soup,
      BeautifulSoup html_content = inr soup ->
      snd (ExtractQaChinese.extract_qa_from_html BeautifulSoup html_content
             file_name)
      = match find_all ExtractQaChinese.names ExtractQaChinese.class_ soup
        with
        | [] => [DebugNoQuestion file_name]
        | _ :: _ =>
            map (fun p => DebugPair (firstn 50 (question p)))
              (fst (ExtractQaChinese.extract_qa_from_html BeautifulSoup
                      html_content file_name))
        end
      /\ filter emitted
           (snd (ExtractQaChinese.extract_qa_from_html BeautifulSoup
                   html_content file_name)) = [])
  /\ (forall lower BeautifulSoup html_content file_name e,
      BeautifulSoup html_content = inl e ->
      filter emitted
        (snd (ExtractQa.extract_qa_from_html lower BeautifulSoup
                html_content file_name)) = [ErrorHtml file_name e]
      /\ filter emitted
           (snd (ExtractQaChinese.extract_qa_from_html BeautifulSoup
                   html_content file_name)) = [ErrorHtml file_name e]).
Proof.
  split; [|split].
  - intros lower BeautifulSoup html_content file_name soup Hsoup.
    unfold ExtractQa.extract_qa_from_html, extract_qa_from_html_with.
    rewrite Hsoup.
    pose proof (soup_log ExtractQa.names (ExtractQa.class_ lower)
                  ExtractQa.skip_question (ExtractQa.is_next_question lower)
                  ExtractQa.is_answer_paragraph soup file_name) as Hlog.
    split; [exact Hlog|]. rewrite Hlog.
    destruct (find_all _ _ soup); [reflexivity|].
    apply debug_pairs_not_emitted.
  - intros BeautifulSoup html_content file_name soup Hsoup.
    unfold ExtractQaChinese.extract_qa_from_html, extract_qa_from_html_with.
    rewrite Hsoup.
    pose proof (soup_log ExtractQaChinese.names ExtractQaChinese.class_
                  ExtractQaChinese.skip_question
                  ExtractQaChinese.is_next_question
                  ExtractQaChinese.is_answer_paragraph soup file_name)
      as Hlog.
    split; [exact Hlog|]. rewrite Hlog.
    destruct (find_all _ _ soup); [reflexivity|].
    apply debug_pairs_not_emitted.
  - intros lower BeautifulSoup html_content file_name e He.
    unfold ExtractQa.extract_qa_from_html,
      ExtractQaChinese.extract_qa_from_html, extract_qa_from_html_with.
    rewrite He. split; reflexivity.
Qed.

Lemma log_follows_pairs_witness :
  snd (ExtractQa.extract_qa_from_html ascii_lower example_parser
         two_questions_html [])
  = [DebugPair [81; FULLWIDTH_QUESTION_MARK];
     DebugPair [82; FULLWIDTH_QUESTION_MARK]]
  /\ filter emitted
       (snd (ExtractQa.extract_qa_from_html ascii_lower example_parser
               two_questions_html [])) = []
  /\ snd (ExtractQaChinese.extract_qa_from_html example_parser
            book_two_questions_html [])
     = [DebugPair (lit "ab")]
  /\ filter emitted
       (snd (ExtractQa.extract_qa_from_html ascii_lower example_parser
               (lit "<p>?</p>") (lit "ch2.xhtml")))
     = [ErrorHtml (lit "ch2.xhtml")
          (Exception (lit "ParserRejectedMarkup"))].
Proof.
  destruct log_follows_pairs as [Hg [Hb He]].
  split; [|split; [|split]].
  - rewrite (proj1 (Hg ascii_lower example_parser two_questions_html []
                      (page two_questions_body) eq_refl)).
    vm_compute. reflexivity.
  - exact (proj2 (Hg ascii_lower example_parser two_questions_html []
                    (page two_questions_body) eq_refl)).
  - rewrite (proj1 (Hb example_parser book_two_questions_html []
                      (page book_two_questions_body) eq_refl)).
    vm_compute. reflexivity.
  - exact (proj1 (He ascii_lower example_parser (lit "<p>?</p>")
                    (lit "ch2.xhtml")
                    (Exception (lit "ParserRejectedMarkup")) eq_refl)).
Defined.

(* ------------------------------------------------------------------ *)
(** ** The lines of an answer *)

Lemma normalized_no_newline (b : bool) (s : str) :
  normalized b s = true -> forallb (fun c => negb (c =? NEWLINE)) s = true.
Proof.
  revert b; induction s as [|c s IH]; intros b; [reflexivity|].
  cbn [normalized forallb]. destruct (isspace c) eqn:Hc.
  - rewrite !andb_true_iff, N.eqb_eq. intros [[_ ->] H].
    split; [reflexivity | eapply IH; exact H].
  - intros H. rewrite andb_true_iff. split; [|eapply IH; exact H].
    destruct (c =? NEWLINE) eqn:E; [|reflexivity].
    apply N.eqb_eq in E. subst c. discriminate.
Qed.

Lemma split_on_none (sep : char) (t : str) :
  forallb (fun c => negb (c =? sep)) t = true -> split_on sep t = [t].
Proof.
  induction t as [|c t IH]; [reflexivity|].
  cbn [forallb split_on]. rewrite andb_true_iff, negb_true_iff.
  intros [-> H]. rewrite (IH H). reflexivity.
Qed.

Lemma split_on_first (sep : char) (t rest : str) :
  forallb (fun c => negb (c =? sep)) t = true ->
  split_on sep (t ++ sep :: rest) = t :: split_on sep rest.
Proof.
  induction t as [|c t IH].
  - intros _. cbn [app split_on]. rewrite N.eqb_refl. reflexivity.
  - cbn [forallb app split_on]. rewrite andb_true_iff, negb_true_iff.
    intros [-> H]. rewrite (IH H). reflexivity.
Qed.

(** Joining by a separator that is in none of the parts, then splitting
    on it, gives the parts back. *)
Lemma split_on_join (sep : char) (parts : list str) :
  parts <> [] ->
  Forall (fun t => forallb (fun c => negb (c =? sep)) t = true) parts ->
  split_on sep (join [sep] parts) = parts.
Proof.
  intros Hne Hall. revert Hne.
  induction Hall as [|t parts Ht Hall IH]; intros Hne;
    [exfalso; apply Hne; reflexivity|].
  destruct parts as [|u more]; [apply split_on_none, Ht|].
  change (join [sep] (t :: u :: more))
    with (t ++ sep :: join [sep] (u :: more)).
  rewrite split_on_first by exact Ht. rewrite IH by discriminate. reflexivity.
Qed.

Section AnswerLines.

Variable BeautifulSoup : str -> exn + node.
Variable names : list str.
Variable class_ : option str -> bool.
Variable skip_question : str -> bool.
Variable is_next_question : node -> bool.
Variable is_answer_paragraph : node -> bool.

Hypothesis kept_question_nonempty :
  forall s, skip_question s = false -> s <> [].

Notation collect :=
  (collect_answer_paragraphs is_next_question is_answer_paragraph).

(** The collected paragraphs hold no newline: splitting their join on
    newlines gives them back. *)
Lemma split_joined_paragraphs (siblings : list node) :
  truthy_str (join [NEWLINE] (collect siblings)) = true ->
  split_on NEWLINE (join [NEWLINE] (collect siblings)) = collect siblings.
Proof.
  intros Ht. apply split_on_join.
  - intros E. rewrite E in Ht. discriminate.
  - eapply Forall_impl; [|apply collect_answer_paragraphs_cleaned].
    intros t [_ [x ->]].
    apply (normalized_no_newline true), clean_text_normalized.
Qed.

Lemma answer_lines_of_soup (soup : node) (file_name : str) :
  map (fun p => split_on NEWLINE (answer p))
    (fst (extract_qa_from_soup names class_ skip_question is_next_question
            is_answer_paragraph soup file_name))
  = map (fun q : located => collect (snd q))
      (filter (fun q : located =>
                 negb (skip_question (clean_text (get_text (fst q))))
                 && truthy_str (join [NEWLINE] (collect (snd q))))
         (find_all names class_ soup)).
Proof.
  rewrite soup_pairs_closed_form by exact kept_question_nonempty.
  rewrite map_map. apply map_ext_in. intros q Hq.
  apply filter_In in Hq. destruct Hq as [_ Hk].
  apply andb_true_iff in Hk. destruct Hk as [_ Ht].
  cbn [answer]. apply split_joined_paragraphs, Ht.
Qed.

Lemma answer_lines (html_content file_name : str) (p : QAPair) :
  In p (fst (extract_qa_from_html_with BeautifulSoup names class_
               skip_question is_next_question is_answer_paragraph
               html_content file_name)) ->
  exists q : located,
    split_on NEWLINE (answer p) = collect (snd q).
Proof.
  rewrite extract_qa_from_html_pairs.
  destruct (BeautifulSoup html_content) as [e|soup]; [intros []|].
  rewrite in_flat_map. intros [q [_ Hp]].
  apply pairs_of_question_emitted in Hp.
  destruct Hp as [_ [_ [_ [Ha Hane]]]].
  exists q. rewrite Ha. apply split_joined_paragraphs.
  rewrite <- Ha. apply truthy_str_true. exact Hane.
Qed.

End AnswerLines.

(** X7: the lines of the answers.  On a document that parses, splitting
    the answers that either file returns on their newlines gives, pair
    by pair, the paragraphs that the walk has collected after the
    heading of the pair (the headings being those that [find_all]
    returns, that are not skipped and whose answer is not empty, in
    their order); and every line of every answer is a cleaned text that
    is not empty (no blank line, no whitespace at the ends of a line, no
    tab inside). *)
Theorem answer_lines_are_paragraphs :
  (forall lower BeautifulSoup html_content file_name soup,
      BeautifulSoup html_content = inr soup ->
      map (fun p => split_on NEWLINE (answer p))
        (fst (ExtractQa.extract_qa_from_html lower BeautifulSoup
                html_content file_name))
      = map (fun q : located =>
               collect_answer_paragraphs (ExtractQa.is_next_question lower)
                 ExtractQa.is_answer_paragraph (snd q))
          (filter (fun q : located =>
                     negb (ExtractQa.skip_question
                             (clean_text (get_text (fst q))))
                     && truthy_str
                          (join [NEWLINE]
                             (collect_answer_paragraphs
                                (ExtractQa.is_next_question lower)
                                ExtractQa.is_answer_paragraph (snd q))))
             (find_all ExtractQa.names (ExtractQa.class_ lower) soup)))
  /\ (forall BeautifulSoup html_content file_name soup,
      BeautifulSoup html_content = inr soup ->
      map (fun p => split_on NEWLINE (answer p))
        (fst (ExtractQaChinese.extract_qa_from_html BeautifulSoup
                html_content file_name))
      = map (fun q : located =>
               collect_answer_paragraphs ExtractQaChinese.is_next_question
                 ExtractQaChinese.is_answer_paragraph (snd q))
          (filter (fun q : located =>
                     negb (ExtractQaChinese.skip_question
                             (clean_text (get_text (fst q))))
                     && truthy_str
                          (join [NEWLINE]
                             (collect_answer_paragraphs
                                ExtractQaChinese.is_next_question
                                ExtractQaChinese.is_answer_paragraph
                                (snd q))))
             (find_all ExtractQaChinese.names ExtractQaChinese.class_
                soup)))
  /\ (forall lower BeautifulSoup html_content file_name p,
      In p (fst (ExtractQa.extract_qa_from_html lower BeautifulSoup
                   html_content file_name))
      \/ In p (fst (ExtractQaChinese.extract_qa_from_html BeautifulSoup
                      html_content file_name)) ->
      Forall (fun line => line <> [] /\ clean_text line = line)
             (split_on NEWLINE (answer p))).
Proof.
  split; [|split].
  - intros lower BeautifulSoup html_content file_name soup Hsoup.
    unfold ExtractQa.extract_qa_from_html, extract_qa_from_html_with.
    rewrite Hsoup.
    apply answer_lines_of_soup, generic_kept_question_nonempty.
  - intros BeautifulSoup html_content file_name soup Hsoup.
    unfold ExtractQaChinese.extract_qa_from_html, extract_qa_from_html_with.
    rewrite Hsoup.
    apply answer_lines_of_soup, book_kept_question_nonempty.
  - intros lower BeautifulSoup html_content file_name p [H | H];
      apply answer_lines in H; destruct H as [q ->];
      (eapply Forall_impl; [|apply collect_answer_paragraphs_cleaned]);
      intros t [Ht [x ->]]; (split; [exact Ht | apply clean_text_idempotent]).
Qed.

Lemma answer_lines_are_paragraphs_witness :
  let p := {| question := [81; FULLWIDTH_QUESTION_MARK];
              answer := lit "a" ++ [NEWLINE] ++ lit "b" |} in
  map (fun p => split_on NEWLINE (answer p))
    (fst (ExtractQa.extract_qa_from_html ascii_lower example_parser
            two_questions_html []))
  = [[lit "a"; lit "b"]; [lit "c"]]
  /\ map (fun p => split_on NEWLINE (answer p))
       (fst (ExtractQaChinese.extract_qa_from_html example_parser
               book_two_questions_html []))
     = [[lit "c"; lit "d"]]
  /\ In p (fst (ExtractQa.extract_qa_from_html ascii_lower example_parser
                  two_questions_html []))
  /\ Forall (fun line => line <> [] /\ clean_text line = line)
            (split_on NEWLINE (answer p)).
Proof.
  intros p. destruct answer_lines_are_paragraphs as [Hg [Hb Hlines]].
  assert (H : In p (fst (ExtractQa.extract_qa_from_html ascii_lower
                           example_parser two_questions_html [])))
    by (vm_compute; left; reflexivity).
  split; [|split; [|split]].
  - rewrite (Hg ascii_lower example_parser two_questions_html []
               (page two_questions_body) eq_refl).
    vm_compute. reflexivity.
  - rewrite (Hb example_parser book_two_questions_html []
               (page book_two_questions_body) eq_refl).
    vm_compute. reflexivity.
  - exact H.
  - apply (Hlines ascii_lower example_parser two_questions_html [] p).
    left. exact H.
Defined.

(* ------------------------------------------------------------------ *)
(** ** Headings at any depth *)

Lemma find_all_wrapped (names : list str) (f : option str -> bool)
    (name : str) (class : option (list str)) (body : list node) :
  str_in (lit "html") names = false ->
  str_in (lit "body") names = false ->
  str_in name names = false ->
  find_all names f (page [Tag name class body]) = find_all names f (page body).
Proof.
  intros Hh Hb Hn. rewrite !find_all_page by assumption.
  rewrite headings_cons. unfold find_all at 1. rewrite descendants_tag.
  assert (Hm : matches names f (Tag name class body) = false)
    by (unfold matches, name_in; cbn [name_of]; rewrite Hn; reflexivity).
  rewrite Hm. cbn [descendants_of_list filter app]. apply app_nil_r.
Qed.

(** X8: headings are found at any depth.  Putting the whole body of a
    page into one container whose tag is none of the heading tags of the
    file (a [div], say, whatever its class) changes neither the pairs nor
    the log. *)
Theorem wrapped_page_same_result :
  (forall lower BeautifulSoup html_content html_wrapped file_name
          name class body,
      BeautifulSoup html_content = inr (page body) ->
      BeautifulSoup html_wrapped = inr (page [Tag name class body]) ->
      str_in name ExtractQa.names = false ->
      ExtractQa.extract_qa_from_html lower BeautifulSoup html_wrapped
        file_name
      = ExtractQa.extract_qa_from_html lower BeautifulSoup html_content
          file_name)
  /\ (forall BeautifulSoup html_content html_wrapped file_name
             name class body,
      BeautifulSoup html_content = inr (page body) ->
      BeautifulSoup html_wrapped = inr (page [Tag name class body]) ->
      str_in name ExtractQaChinese.names = false ->
      ExtractQaChinese.extract_qa_from_html BeautifulSoup html_wrapped
        file_name
      = ExtractQaChinese.extract_qa_from_html BeautifulSoup html_content
          file_name).
Proof.
  split.
  - intros lower BeautifulSoup html_content html_wrapped file_name
      name class body Hplain Hwrapped Hn.
    unfold ExtractQa.extract_qa_from_html, extract_qa_from_html_with.
    rewrite Hplain, Hwrapped. unfold extract_qa_from_soup.
    rewrite find_all_wrapped by (reflexivity || exact Hn). reflexivity.
  - intros BeautifulSoup html_content html_wrapped file_name
      name class body Hplain Hwrapped Hn.
    unfold ExtractQaChinese.extract_qa_from_html, extract_qa_from_html_with.
    rewrite Hplain, Hwrapped. unfold extract_qa_from_soup.
    rewrite find_all_wrapped by (reflexivity || exact Hn). reflexivity.
Qed.

Lemma wrapped_page_same_result_witness :
  ExtractQa.extract_qa_from_html ascii_lower wider_parser wrapped_html []
  = ExtractQa.extract_qa_from_html ascii_lower wider_parser
      two_questions_html []
  /\ ExtractQaChinese.extract_qa_from_html wider_parser wrapped_html []
     = ExtractQaChinese.extract_qa_from_html wider_parser
         two_questions_html [].
Proof.
  destruct wrapped_page_same_result as [Hg Hb]. split.
  - apply (Hg ascii_lower wider_parser two_questions_html wrapped_html []
             (lit "div") (Some [lit "chapter"]) two_questions_body);
      vm_compute; reflexivity.
  - apply (Hb wider_parser two_questions_html wrapped_html []
             (lit "div") (Some [lit "chapter"]) two_questions_body);
      vm_compute; reflexivity.
Defined.

(* ------------------------------------------------------------------ *)
(** ** More on the loop over the package *)

Section PackageLoopMore.

Variable for_item :
  list QAPair * nat * list log_record -> EpubItem ->
  list QAPair * nat * list log_record.

Lemma for_items_filter (keep : EpubItem -> bool) (book : list EpubItem)
    state :
  (forall state item, keep item = false -> for_item state item = state) ->
  fold_left for_item book state = fold_left for_item (filter keep book) state.
Proof.
  intros Hskip. revert state.
  induction book as [|item book IH]; intros state; [reflexivity|].
  cbn [fold_left filter]. destruct (keep item) eqn:Hk.
  - cbn [fold_left]. apply IH.
  - rewrite (Hskip state item Hk). apply IH.
Qed.

Lemma for_items_count (counted : EpubItem -> bool) (book : list EpubItem)
    state :
  (forall state item,
     snd (fst (for_item state item))
     = (snd (fst state) + (if counted item then 1 else 0))%nat) ->
  snd (fst (fold_left for_item book state))
  = (snd (fst state) + length (filter counted book))%nat.
Proof.
  intros Hstep. revert state.
  induction book as [|item book IH]; intros state.
  - simpl. lia.
  - cbn [fold_left filter]. rewrite IH, Hstep.
    destruct (counted item); cbn [length]; lia.
Qed.

End PackageLoopMore.

(** X9: the entries that [is_content_item] refuses (pictures, style
    sheets, the navigation and cover pages) change nothing in a run of
    [extract_qa_from_epub]: neither the pairs nor the log nor the count
    of files.  Both files. *)
Theorem other_entries_have_no_effect :
  (forall lower BeautifulSoup reader reader_content epub_path book,
      reader epub_path = inr book ->
      reader_content epub_path = inr (filter (is_content_item lower) book) ->
      ExtractQa.extract_qa_from_epub lower BeautifulSoup reader epub_path
      = ExtractQa.extract_qa_from_epub lower BeautifulSoup reader_content
          epub_path)
  /\ (forall lower BeautifulSoup reader reader_content epub_path book,
      reader epub_path = inr book ->
      reader_content epub_path = inr (filter (is_content_item lower) book) ->
      ExtractQaChinese.extract_qa_from_epub lower BeautifulSoup reader
        epub_path
      = ExtractQaChinese.extract_qa_from_epub lower BeautifulSoup
          reader_content epub_path).
Proof.
  split.
  - intros lower BeautifulSoup reader reader_content epub_path book Hr Hc.
    unfold ExtractQa.extract_qa_from_epub, read_epub. rewrite Hr, Hc.
    rewrite (for_items_filter _ (is_content_item lower) book); [reflexivity|].
    intros [[all_qa_pairs processed_files] log] item Hk.
    unfold ExtractQa.for_item. rewrite Hk. reflexivity.
  - intros lower BeautifulSoup reader reader_content epub_path book Hr Hc.
    unfold ExtractQaChinese.extract_qa_from_epub, read_epub. rewrite Hr, Hc.
    rewrite (for_items_filter _ (is_content_item lower) book); [reflexivity|].
    intros [[all_qa_pairs processed_files] log] item Hk.
    unfold ExtractQaChinese.for_item. rewrite Hk. reflexivity.
Qed.

Lemma other_entries_have_no_effect_witness :
  ExtractQa.extract_qa_from_epub ascii_lower example_parser
    (reader_of [picture; generic_A; picture; generic_B]) (lit "book.epub")
  = ExtractQa.extract_qa_from_epub ascii_lower example_parser
      (reader_of [generic_A; generic_B]) (lit "book.epub")
  /\ ExtractQaChinese.extract_qa_from_epub ascii_lower example_parser
       (reader_of [picture; book_A; picture; book_B]) (lit "book.epub")
     = ExtractQaChinese.extract_qa_from_epub ascii_lower example_parser
         (reader_of [book_A; book_B]) (lit "book.epub").
Proof.
  destruct other_entries_have_no_effect as [Hg Hb]. split.
  - apply (Hg ascii_lower example_parser
             (reader_of [picture; generic_A; picture; generic_B])
             (reader_of [generic_A; generic_B]) (lit "book.epub")
             [picture; generic_A; picture; generic_B]);
      vm_compute; reflexivity.
  - apply (Hb ascii_lower example_parser
             (reader_of [picture; book_A; picture; book_B])
             (reader_of [book_A; book_B]) (lit "book.epub")
             [picture; book_A; picture; book_B]);
      vm_compute; reflexivity.
Defined.

Lemma generic_for_item_count lower BeautifulSoup state item :
  snd (fst (ExtractQa.for_item lower BeautifulSoup state item))
  = (snd (fst state)
     + (if match ExtractQa.pairs_of_item lower BeautifulSoup item with
           | [] => false
           | _ :: _ => true
           end
        then 1 else 0))%nat.
Proof.
  destruct state as [[all_qa_pairs processed_files] log].
  unfold ExtractQa.for_item, ExtractQa.pairs_of_item.
  item_cases lower item; cbn [fst snd]; try lia.
  destruct (ExtractQa.extract_qa_from_html _ _ _ _) as [[|p qa_pairs] log'];
    cbn [fst snd]; lia.
Qed.

Lemma book_for_item_count lower BeautifulSoup state item :
  snd (fst (ExtractQaChinese.for_item lower BeautifulSoup state item))
  = (snd (fst state)
     + (if is_content_item lower item
           && match decode_utf8 (get_content item) with
              | inl _ => false
              | inr _ => true
              end
        then 1 else 0))%nat.
Proof.
  destruct state as [[all_qa_pairs processed_files] log].
  unfold ExtractQaChinese.for_item.
  item_cases lower item; cbn [fst snd andb]; try lia.
  destruct (ExtractQaChinese.extract_qa_from_html _ _ _) as [qa_pairs log'];
    cbn [fst snd]; lia.
Qed.

(** X10: the last record of the log of [extract_qa_from_epub] gives the
    number of returned pairs and the count [processed_files].  In
    [extract_qa.py] that count is the number of entries that yielded at
    least one pair; in [extract_qa_chinese.py] it is the number of
    content entries whose bytes decoded, whether or not the page parsed
    or yielded a pair. *)
Theorem total_record_counts :
  (forall lower BeautifulSoup epub_read_epub epub_path book,
      epub_read_epub epub_path = inr book ->
      exists log,
        snd (ExtractQa.extract_qa_from_epub lower BeautifulSoup
               epub_read_epub epub_path)
        = log
          ++ [InfoTotal
                (length
                   (filter
                      (fun item =>
                         match ExtractQa.pairs_of_item lower BeautifulSoup
                                 item with
                         | [] => false
                         | _ :: _ => true
                         end) book))
                (length
                   (flat_map (ExtractQa.pairs_of_item lower BeautifulSoup)
                      book))])
  /\ (forall lower BeautifulSoup epub_read_epub epub_path book,
      epub_read_epub epub_path = inr book ->
      exists log,
        snd (ExtractQaChinese.extract_qa_from_epub lower BeautifulSoup
               epub_read_epub epub_path)
        = log
          ++ [InfoTotal
                (length
                   (filter
                      (fun item =>
                         is_content_item lower item
                         && match decode_utf8 (get_content item) with
                            | inl _ => false
                            | inr _ => true
                            end) book))
                (length
                   (flat_map
                      (ExtractQaChinese.pairs_of_item lower BeautifulSoup)
                      book))]).
Proof.
  split.
  - intros lower BeautifulSoup epub_read_epub epub_path book Hread.
    unfold ExtractQa.extract_qa_from_epub, read_epub. rewrite Hread.
    pose proof (for_items_pairs _ _
                  (generic_for_item_pairs lower BeautifulSoup)
                  book ([], O, [InfoReadEpub epub_path])) as Hp.
    pose proof (for_items_count _ _ book ([], O, [InfoReadEpub epub_path])
                  (generic_for_item_count lower BeautifulSoup)) as Hn.
    destruct (fold_left _ book _) as [[all_qa_pairs processed_files] log].
    cbn [fst snd] in *. subst. eexists. reflexivity.
  - intros lower BeautifulSoup epub_read_epub epub_path book Hread.
    unfold ExtractQaChinese.extract_qa_from_epub, read_epub. rewrite Hread.
    pose proof (for_items_pairs _ _
                  (book_for_item_pairs lower BeautifulSoup)
                  book ([], O, [InfoReadEpub epub_path])) as Hp.
    pose proof (for_items_count _ _ book ([], O, [InfoReadEpub epub_path])
                  (book_for_item_count lower BeautifulSoup)) as Hn.
    destruct (fold_left _ book _) as [[all_qa_pairs processed_files] log].
    cbn [fst snd] in *. subst. eexists. reflexivity.
Qed.

Lemma total_record_counts_witness :
  (exists log,
      snd (ExtractQa.extract_qa_from_epub ascii_lower example_parser
             (reader_of [generic_A; generic_plain; refused; generic_C])
             (lit "book.epub"))
      = log ++ [InfoTotal 2 2])
  /\ (exists log,
      snd (ExtractQaChinese.extract_qa_from_epub ascii_lower example_parser
             (reader_of [book_A; generic_plain; refused; not_utf8])
             (lit "book.epub"))
      = log ++ [InfoTotal 3 1]).
Proof.
  destruct total_record_counts as [Hg Hb]. split.
  - destruct (Hg ascii_lower example_parser
                (reader_of [generic_A; generic_plain; refused; generic_C])
                (lit "book.epub")
                [generic_A; generic_plain; refused; generic_C] eq_refl)
      as [log H].
    exists log. rewrite H. vm_compute. reflexivity.
  - destruct (Hb ascii_lower example_parser
                (reader_of [book_A; generic_plain; refused; not_utf8])
                (lit "book.epub")
                [book_A; generic_plain; refused; not_utf8] eq_refl)
      as [log H].
    exists log. rewrite H. vm_compute. reflexivity.
Defined.

(* ------------------------------------------------------------------ *)
(** ** [main] and [save_qa_to_json] *)

Lemma dumps_app (a b : list event) : dumps (a ++ b) = dumps a ++ dumps b.
Proof.
  induction a as [|x a IH]; [reflexivity|].
  destruct x; cbn [app dumps]; rewrite IH; reflexivity.
Qed.

Lemma printed_app (a b : list event) :
  printed (a ++ b) = printed a ++ printed b.
Proof.
  induction a as [|x a IH]; [reflexivity|].
  destruct x; cbn [app printed]; rewrite IH; reflexivity.
Qed.

Lemma logging_only (log : list log_record) :
  dumps (map Logging log) = [] /\ printed (map Logging log) = [].
Proof. induction log as [|r log [Hd Hp]]; split; simpl; auto. Qed.

Lemma print_only (lines : list print_line) :
  dumps (map Print lines) = [] /\ printed (map Print lines) = lines.
Proof.
  induction lines as [|l lines [Hd Hp]]; split; simpl; auto.
  rewrite Hp. reflexivity.
Qed.

(** [json.dump] is called when the file opens, and only then. *)
Lemma save_qa_to_json_events open_file json_dump qa_pairs output_file :
  dumps (snd (save_qa_to_json open_file json_dump qa_pairs output_file))
  = match open_file output_file with
    | Some _ => []
    | None => [(output_file, qa_pairs)]
    end
  /\ printed (snd (save_qa_to_json open_file json_dump qa_pairs
                     output_file)) = [].
Proof.
  unfold save_qa_to_json. destruct (open_file output_file);
    [split; reflexivity|].
  destruct (json_dump output_file qa_pairs); split; reflexivity.
Qed.

(** When the save raises, its events end with the error record. *)
Lemma save_qa_to_json_raises open_file json_dump qa_pairs output_file e :
  open_file output_file = Some e
  \/ (open_file output_file = None
      /\ json_dump output_file qa_pairs = Some e) ->
  exists before,
    save_qa_to_json open_file json_dump qa_pairs output_file
    = (Some e, before ++ [ErrorSave e]).
Proof.
  unfold save_qa_to_json. intros [Ho | [Ho Hd]].
  - rewrite Ho. exists []. reflexivity.
  - rewrite Ho, Hd. exists [JsonDump output_file qa_pairs]. reflexivity.
Qed.

Lemma generic_main_read_fails lower BeautifulSoup epub_read_epub open_file
    json_dump e :
  epub_read_epub ExtractQaMain.epub_path = inl e ->
  ExtractQaMain.main lower BeautifulSoup epub_read_epub open_file json_dump
  = [Logging (ErrorReadEpub e); ErrorMain e].
Proof.
  intros Hread.
  unfold ExtractQaMain.main, ExtractQa.extract_qa_from_epub, read_epub.
  rewrite Hread. reflexivity.
Qed.

Lemma generic_main_dumps_pairs lower BeautifulSoup epub_read_epub open_file
    json_dump book :
  epub_read_epub ExtractQaMain.epub_path = inr book ->
  dumps (ExtractQaMain.main lower BeautifulSoup epub_read_epub open_file
           json_dump)
  = match open_file (lit "qa_pairs.json") with
    | Some _ => []
    | None =>
        [(lit "qa_pairs.json",
          flat_map (ExtractQa.pairs_of_item lower BeautifulSoup) book)]
    end.
Proof.
  intros Hread. unfold ExtractQaMain.main.
  pose proof (generic_epub_pairs lower BeautifulSoup epub_read_epub
                ExtractQaMain.epub_path book Hread) as Hp.
  destruct (ExtractQa.extract_qa_from_epub _ _ _ _) as [[e|qa_pairs] log];
    [discriminate|].
  cbn [fst] in Hp. injection Hp as ->.
  rewrite dumps_app, (proj1 (logging_only log)). cbn [app].
  pose proof (save_qa_to_json_events open_file json_dump
                (flat_map (ExtractQa.pairs_of_item lower BeautifulSoup) book)
                ExtractQaMain.output_file) as [Hd _].
  destruct (save_qa_to_json _ _ _ _) as [[e|] saved]; cbn [snd] in Hd;
    rewrite dumps_app, Hd.
  - apply app_nil_r.
  - rewrite (proj1 (print_only _)). apply app_nil_r.
Qed.

Lemma generic_main_save_raises lower BeautifulSoup epub_read_epub open_file
    json_dump book e :
  epub_read_epub ExtractQaMain.epub_path = inr book ->
  open_file (lit "qa_pairs.json") = Some e
  \/ (open_file (lit "qa_pairs.json") = None
      /\ json_dump (lit "qa_pairs.json")
           (flat_map (ExtractQa.pairs_of_item lower BeautifulSoup) book)
         = Some e) ->
  printed (ExtractQaMain.main lower BeautifulSoup epub_read_epub open_file
             json_dump) = []
  /\ exists before,
       ExtractQaMain.main lower BeautifulSoup epub_read_epub open_file
         json_dump = before ++ [ErrorSave e; ErrorMain e].
Proof.
  intros Hread Hraise. unfold ExtractQaMain.main.
  pose proof (generic_epub_pairs lower BeautifulSoup epub_read_epub
                ExtractQaMain.epub_path book Hread) as Hp.
  destruct (ExtractQa.extract_qa_from_epub _ _ _ _) as [[e'|qa_pairs] log];
    [discriminate|].
  cbn [fst] in Hp. injection Hp as ->.
  destruct (save_qa_to_json_raises open_file json_dump _
              ExtractQaMain.output_file e Hraise) as [before Hs].
  pose proof (save_qa_to_json_events open_file json_dump
                (flat_map (ExtractQa.pairs_of_item lower BeautifulSoup) book)
                ExtractQaMain.output_file) as [_ Hpr].
  rewrite Hs in *. cbn [snd] in Hpr. cbv beta iota. split.
  - rewrite printed_app, (proj2 (logging_only log)), printed_app, Hpr.
    reflexivity.
  - exists (map Logging log ++ before). rewrite <- !app_assoc. reflexivity.
Qed.

(** X11: a run of [main] of [extract_qa.py].  When the package cannot be
    read, the run is the error record of [read_epub] and the error record
    of [main]: nothing is opened, dumped or printed.  When it can be read
    and the output file opens, [json.dump] is called once, on
    [qa_pairs.json], with exactly the pairs of the package, also when
    there is none and whether or not the dump then raises.  When the
    output file does not open, [json.dump] is not called and the run ends
    with the error records of [save_qa_to_json] and of [main]. *)
Theorem generic_main_dumps :
  (forall lower BeautifulSoup epub_read_epub open_file json_dump e,
      epub_read_epub ExtractQaMain.epub_path = inl e ->
      ExtractQaMain.main lower BeautifulSoup epub_read_epub open_file
        json_dump
      = [Logging (ErrorReadEpub e); ErrorMain e])
  /\ (forall lower BeautifulSoup epub_read_epub open_file json_dump book,
      epub_read_epub ExtractQaMain.epub_path = inr book ->
      open_file (lit "qa_pairs.json") = None ->
      dumps (ExtractQaMain.main lower BeautifulSoup epub_read_epub open_file
               json_dump)
      = [(lit "qa_pairs.json",
          flat_map (ExtractQa.pairs_of_item lower BeautifulSoup) book)])
  /\ (forall lower BeautifulSoup epub_read_epub open_file json_dump book e,
      epub_read_epub ExtractQaMain.epub_path = inr book ->
      open_file (lit "qa_pairs.json") = Some e ->
      dumps (ExtractQaMain.main lower BeautifulSoup epub_read_epub open_file
               json_dump) = []
      /\ exists before,
           ExtractQaMain.main lower BeautifulSoup epub_read_epub open_file
             json_dump = before ++ [ErrorSave e; ErrorMain e]).
Proof.
  split; [|split].
  - intros. apply generic_main_read_fails. assumption.
  - intros lower BeautifulSoup epub_read_epub open_file json_dump book
      Hread Hopen.
    rewrite (generic_main_dumps_pairs _ _ _ _ _ _ Hread), Hopen. reflexivity.
  - intros lower BeautifulSoup epub_read_epub open_file json_dump book e
      Hread Hopen.
    split.
    + rewrite (generic_main_dumps_pairs _ _ _ _ _ _ Hread), Hopen.
      reflexivity.
    + apply (generic_main_save_raises _ _ _ _ _ _ _ Hread). left. exact Hopen.
Qed.

Lemma generic_main_dumps_witness :
  ExtractQaMain.main ascii_lower example_parser reader_fails open_ok dump_ok
  = [Logging (ErrorReadEpub (Exception (lit "BadZipFile")));
     ErrorMain (Exception (lit "BadZipFile"))]
  /\ dumps (ExtractQaMain.main ascii_lower example_parser
              (reader_of [generic_plain; picture]) open_ok dump_ok)
     = [(lit "qa_pairs.json", [])]
  /\ dumps (ExtractQaMain.main ascii_lower example_parser
              (reader_of [generic_A; generic_B]) open_ok dump_fails)
     = [(lit "qa_pairs.json",
         [{| question := question_A; answer := lit "a" |};
          {| question := question_B; answer := lit "b" |}])]
  /\ dumps (ExtractQaMain.main ascii_lower example_parser
              (reader_of [generic_A; generic_B]) open_fails dump_ok) = [].
Proof.
  destruct generic_main_dumps as [Hfail [Hok Hclosed]].
  split; [|split; [|split]].
  - apply (Hfail ascii_lower example_parser reader_fails open_ok dump_ok).
    reflexivity.
  - rewrite (Hok ascii_lower example_parser
               (reader_of [generic_plain; picture]) open_ok dump_ok
               [generic_plain; picture] eq_refl eq_refl).
    vm_compute. reflexivity.
  - rewrite (Hok ascii_lower example_parser
               (reader_of [generic_A; generic_B]) open_ok dump_fails
               [generic_A; generic_B] eq_refl eq_refl).
    vm_compute. reflexivity.
  - apply (Hclosed ascii_lower example_parser
             (reader_of [generic_A; generic_B]) open_fails dump_ok
             [generic_A; generic_B] (Exception (lit "PermissionError"))
             eq_refl eq_refl).
Defined.

Lemma combine_length_le {A B : Type} (a : list A) (b : list B) :
  (length (combine a b) <= length a)%nat.
Proof. rewrite length_combine. lia. Qed.

Lemma printed_examples (numbered : list (nat * QAPair)) :
  length (filter (fun line => match line with
                              | PrintExample _ => true
                              | _ => false
                              end)
            (flat_map ExtractQaMain.print_example numbered))
  = length numbered
  /\ Forall (fun line => match line with
                         | PrintAnswer answer_prefix =>
                             (length answer_prefix <= 200)%nat
                         | _ => True
                         end)
            (flat_map ExtractQaMain.print_example numbered).
Proof.
  induction numbered as [|[i qa] numbered [Hn Ha]]; [split; constructor|].
  cbn [flat_map ExtractQaMain.print_example app filter length].
  split; [rewrite Hn; reflexivity|].
  constructor; [exact I|]. constructor; [exact I|].
  constructor; [apply firstn_le_length | exact Ha].
Qed.

(** X12: what [main] of [extract_qa.py] prints.  It prints at most three
    example pairs and at most 200 characters of each of their answers;
    and when the save raises, be it [open] or [json.dump], it prints
    nothing: the run ends with the error records of [save_qa_to_json]
    and of [main]. *)
Theorem generic_main_prints :
  (forall lower BeautifulSoup epub_read_epub open_file json_dump,
      (length (filter (fun line => match line with
                                   | PrintExample _ => true
                                   | _ => false
                                   end)
                 (printed (ExtractQaMain.main lower BeautifulSoup
                             epub_read_epub open_file json_dump))) <= 3)%nat
      /\ Forall (fun line => match line with
                             | PrintAnswer answer_prefix =>
                                 (length answer_prefix <= 200)%nat
                             | _ => True
                             end)
                (printed (ExtractQaMain.main lower BeautifulSoup
                            epub_read_epub open_file json_dump)))
  /\ (forall lower BeautifulSoup epub_read_epub open_file json_dump book e,
      epub_read_epub ExtractQaMain.epub_path = inr book ->
      open_file (lit "qa_pairs.json") = Some e
      \/ (open_file (lit "qa_pairs.json") = None
          /\ json_dump (lit "qa_pairs.json")
               (flat_map (ExtractQa.pairs_of_item lower BeautifulSoup) book)
             = Some e) ->
      printed (ExtractQaMain.main lower BeautifulSoup epub_read_epub
                 open_file json_dump) = []
      /\ exists before,
           ExtractQaMain.main lower BeautifulSoup epub_read_epub open_file
             json_dump = before ++ [ErrorSave e; ErrorMain e]).
Proof.
  split.
  - intros lower BeautifulSoup epub_read_epub open_file json_dump.
    unfold ExtractQaMain.main.
    destruct (ExtractQa.extract_qa_from_epub _ _ _ _) as [[e|qa_pairs] log];
      rewrite printed_app, (proj2 (logging_only log)); cbn [app].
    + split; [simpl; lia | constructor].
    + pose proof (save_qa_to_json_events open_file json_dump qa_pairs
                    ExtractQaMain.output_file) as [_ Hp].
      destruct (save_qa_to_json _ _ _ _) as [[e|] saved]; cbn [snd] in Hp;
        rewrite printed_app, Hp; cbn [app].
      * split; [simpl; lia | constructor].
      * rewrite (proj2 (print_only _)). cbn [app filter].
        destruct (printed_examples
                    (combine (seq 1 3) (firstn 3 qa_pairs))) as [Hn Ha].
        split; [|do 3 (constructor; [exact I|]); exact Ha].
        rewrite Hn.
        pose proof (combine_length_le (seq 1 3) (firstn 3 qa_pairs)) as H.
        simpl in H. exact H.
  - intros. eapply generic_main_save_raises; eassumption.
Qed.

Lemma generic_main_prints_witness :
  printed (ExtractQaMain.main ascii_lower example_parser
             (reader_of [generic_A; generic_B]) open_ok dump_fails) = []
  /\ printed (ExtractQaMain.main ascii_lower example_parser
                (reader_of [generic_A; generic_B]) open_fails dump_ok) = []
  /\ printed (ExtractQaMain.main ascii_lower example_parser
                (reader_of [generic_A]) open_ok dump_ok)
     = [PrintStatistics; PrintTotal 1; PrintExamples; PrintExample 1;
        PrintQuestion question_A; PrintAnswer (lit "a")].
Proof.
  destruct generic_main_prints as [_ Hfail]. split; [|split].
  - apply (Hfail ascii_lower example_parser
             (reader_of [generic_A; generic_B]) open_ok dump_fails
             [generic_A; generic_B] (Exception (lit "OSError")) eq_refl).
    right. split; reflexivity.
  - apply (Hfail ascii_lower example_parser
             (reader_of [generic_A; generic_B]) open_fails dump_ok
             [generic_A; generic_B] (Exception (lit "PermissionError"))
             eq_refl).
    left. reflexivity.
  - vm_compute. reflexivity.
Defined.

Lemma book_main_dumps_pairs lower BeautifulSoup epub_read_epub open_file
    json_dump book :
  epub_read_epub ExtractQaChineseMain.epub_path = inr book ->
  dumps (ExtractQaChineseMain.main lower BeautifulSoup epub_read_epub
           open_file json_dump)
  = match flat_map (ExtractQaChinese.pairs_of_item lower BeautifulSoup) book
    with
    | [] => []
    | p :: more =>
        match open_file (lit "qa_pairs_chinese.json") with
        | Some _ => []
        | None => [(lit "qa_pairs_chinese.json", p :: more)]
        end
    end.
Proof.
  intros Hread. unfold ExtractQaChineseMain.main.
  pose proof (book_epub_pairs lower BeautifulSoup epub_read_epub
                ExtractQaChineseMain.epub_path book Hread) as Hp.
  destruct (ExtractQaChinese.extract_qa_from_epub _ _ _ _)
    as [[e|qa_pairs] log]; [discriminate|].
  cbn [fst] in Hp. injection Hp as ->.
  cbn [app dumps]. rewrite dumps_app, (proj1 (logging_only log)). cbn [app].
  destruct (flat_map _ book) as [|p qa_pairs]; [reflexivity|].
  pose proof (save_qa_to_json_events open_file json_dump (p :: qa_pairs)
                ExtractQaChineseMain.output_file) as [Hd _].
  destruct (save_qa_to_json _ _ _ _) as [[e|] saved]; cbn [snd] in Hd;
    rewrite dumps_app, Hd; apply app_nil_r.
Qed.

Lemma book_main_read_fails lower BeautifulSoup epub_read_epub open_file
    json_dump e :
  epub_read_epub ExtractQaChineseMain.epub_path = inl e ->
  ExtractQaChineseMain.main lower BeautifulSoup epub_read_epub open_file
    json_dump
  = [InfoStart; Logging (ErrorReadEpub e); ErrorMain e].
Proof.
  intros Hread.
  unfold ExtractQaChineseMain.main, ExtractQaChinese.extract_qa_from_epub,
    read_epub.
  rewrite Hread. reflexivity.
Qed.

Lemma book_main_open_raises lower BeautifulSoup epub_read_epub open_file
    json_dump book e :
  epub_read_epub ExtractQaChineseMain.epub_path = inr book ->
  flat_map (ExtractQaChinese.pairs_of_item lower BeautifulSoup) book <> [] ->
  open_file (lit "qa_pairs_chinese.json") = Some e ->
  exists before,
    ExtractQaChineseMain.main lower BeautifulSoup epub_read_epub open_file
      json_dump = before ++ [ErrorSave e; ErrorMain e].
Proof.
  intros Hread Hsome Hopen. unfold ExtractQaChineseMain.main.
  pose proof (book_epub_pairs lower BeautifulSoup epub_read_epub
                ExtractQaChineseMain.epub_path book Hread) as Hp.
  destruct (ExtractQaChinese.extract_qa_from_epub _ _ _ _)
    as [[e'|qa_pairs] log]; [discriminate|].
  cbn [fst] in Hp. injection Hp as ->.
  destruct (flat_map _ book) as [|p qa_pairs]; [congruence|].
  unfold save_qa_to_json, ExtractQaChineseMain.output_file. rewrite Hopen.
  exists ([InfoStart] ++ map Logging log). rewrite <- !app_assoc.
  reflexivity.
Qed.

(** X13: a run of [main] of [extract_qa_chinese.py] never calls
    [json.dump] on an empty list, and calls it on [qa_pairs_chinese.json]
    only.  When the package is read and yields no pair, nothing is dumped
    and the run ends with the warning that no pair was extracted.  When
    it yields pairs and the output file opens, [json.dump] is called
    once, with exactly these pairs; when the output file does not open,
    [json.dump] is not called and the run ends with the error records of
    [save_qa_to_json] and of [main]. *)
Theorem book_main_dumps :
  (forall lower BeautifulSoup epub_read_epub open_file json_dump,
      Forall (fun dumped => fst dumped = lit "qa_pairs_chinese.json"
                            /\ snd dumped <> [])
             (dumps (ExtractQaChineseMain.main lower BeautifulSoup
                       epub_read_epub open_file json_dump)))
  /\ (forall lower BeautifulSoup epub_read_epub open_file json_dump book,
      epub_read_epub ExtractQaChineseMain.epub_path = inr book ->
      flat_map (ExtractQaChinese.pairs_of_item lower BeautifulSoup) book
      = [] ->
      dumps (ExtractQaChineseMain.main lower BeautifulSoup epub_read_epub
               open_file json_dump) = []
      /\ exists before,
           ExtractQaChineseMain.main lower BeautifulSoup epub_read_epub
             open_file json_dump = before ++ [WarningNoPairs])
  /\ (forall lower BeautifulSoup epub_read_epub open_file json_dump book,
      epub_read_epub ExtractQaChineseMain.epub_path = inr book ->
      flat_map (ExtractQaChinese.pairs_of_item lower BeautifulSoup) book
      <> [] ->
      open_file (lit "qa_pairs_chinese.json") = None ->
      dumps (ExtractQaChineseMain.main lower BeautifulSoup epub_read_epub
               open_file json_dump)
      = [(lit "qa_pairs_chinese.json",
          flat_map (ExtractQaChinese.pairs_of_item lower BeautifulSoup)
            book)])
  /\ (forall lower BeautifulSoup epub_read_epub open_file json_dump book e,
      epub_read_epub ExtractQaChineseMain.epub_path = inr book ->
      flat_map (ExtractQaChinese.pairs_of_item lower BeautifulSoup) book
      <> [] ->
      open_file (lit "qa_pairs_chinese.json") = Some e ->
      dumps (ExtractQaChineseMain.main lower BeautifulSoup epub_read_epub
               open_file json_dump) = []
      /\ exists before,
           ExtractQaChineseMain.main lower BeautifulSoup epub_read_epub
             open_file json_dump = before ++ [ErrorSave e; ErrorMain e]).
Proof.
  split; [|split; [|split]].
  - intros lower BeautifulSoup epub_read_epub open_file json_dump.
    destruct (epub_read_epub ExtractQaChineseMain.epub_path) as [e|book]
      eqn:Hread.
    + rewrite (book_main_read_fails _ _ _ _ _ _ Hread). constructor.
    + rewrite (book_main_dumps_pairs _ _ _ _ _ _ Hread).
      destruct (flat_map _ book); [constructor|].
      destruct (open_file _); repeat constructor. discriminate.
  - intros lower BeautifulSoup epub_read_epub open_file json_dump book
      Hread Hnone.
    split.
    + rewrite (book_main_dumps_pairs _ _ _ _ _ _ Hread), Hnone. reflexivity.
    + unfold ExtractQaChineseMain.main.
      pose proof (book_epub_pairs lower BeautifulSoup epub_read_epub
                    ExtractQaChineseMain.epub_path book Hread) as Hp.
      destruct (ExtractQaChinese.extract_qa_from_epub _ _ _ _)
        as [[e|qa_pairs] log]; [discriminate|].
      cbn [fst] in Hp. injection Hp as ->. rewrite Hnone.
      exists ([InfoStart] ++ map Logging log). rewrite <- app_assoc.
      reflexivity.
  - intros lower BeautifulSoup epub_read_epub open_file json_dump book
      Hread Hsome Hopen.
    rewrite (book_main_dumps_pairs _ _ _ _ _ _ Hread), Hopen.
    destruct (flat_map _ book); [congruence | reflexivity].
  - intros lower BeautifulSoup epub_read_epub open_file json_dump book e
      Hread Hsome Hopen.
    split.
    + rewrite (book_main_dumps_pairs _ _ _ _ _ _ Hread), Hopen.
      destruct (flat_map _ book); reflexivity.
    + eapply book_main_open_raises; eassumption.
Qed.

Lemma book_main_dumps_witness :
  dumps (ExtractQaChineseMain.main ascii_lower example_parser
           (reader_of [generic_plain; picture]) open_ok dump_ok) = []
  /\ dumps (ExtractQaChineseMain.main ascii_lower example_parser
              (reader_of [book_A; book_B]) open_ok dump_fails)
     = [(lit "qa_pairs_chinese.json",
         [{| question := lit "qa"; answer := lit "a" |};
          {| question := lit "qb"; answer := lit "b" |}])]
  /\ dumps (ExtractQaChineseMain.main ascii_lower example_parser
              (reader_of [book_A; book_B]) open_fails dump_ok) = [].
Proof.
  destruct book_main_dumps as [_ [Hnone [Hsome Hclosed]]].
  split; [|split].
  - apply (Hnone ascii_lower example_parser
             (reader_of [generic_plain; picture]) open_ok dump_ok
             [generic_plain; picture] eq_refl).
    vm_compute. reflexivity.
  - rewrite (Hsome ascii_lower example_parser
               (reader_of [book_A; book_B]) open_ok dump_fails
               [book_A; book_B] eq_refl)
      by (vm_compute; (discriminate || reflexivity)).
    vm_compute. reflexivity.
  - apply (Hclosed ascii_lower example_parser
             (reader_of [book_A; book_B]) open_fails dump_ok
             [book_A; book_B] (Exception (lit "PermissionError")) eq_refl);
      vm_compute; (discriminate || reflexivity).
Defined.

(* ------------------------------------------------------------------ *)
(** ** UTF-8 *)

Ltac decide_tests :=
  repeat match goal with
         | |- context [?a <? ?b] =>
             destruct (N.ltb_spec a b); try lia
         | |- context [?a <=? ?b] =>
             destruct (N.leb_spec a b); try lia
         end.

Lemma decode_1 (b0 : N) (rest : list N) :
  b0 < 128 -> decode_utf8 (b0 :: rest) = then_cons b0 (decode_utf8 rest).
Proof.
  intros H. cbn [decode_utf8]. decide_tests. reflexivity.
Qed.

Lemma decode_2 (b0 b1 : N) (rest : list N) :
  194 <= b0 <= 223 -> 128 <= b1 <= 191 ->
  decode_utf8 (b0 :: b1 :: rest)
  = then_cons ((b0 - 192) * 64 + (b1 - 128)) (decode_utf8 rest).
Proof.
  intros H0 H1. cbn [decode_utf8]. unfold continuation.
  decide_tests. reflexivity.
Qed.

Lemma decode_3 (b0 b1 b2 : N) (rest : list N) :
  224 <= b0 <= 239 -> 128 <= b1 <= 191 -> 128 <= b2 <= 191 ->
  let c := (b0 - 224) * 4096 + (b1 - 128) * 64 + (b2 - 128) in
  2048 <= c -> (c < 55296 \/ 57343 < c) ->
  decode_utf8 (b0 :: b1 :: b2 :: rest) = then_cons c (decode_utf8 rest).
Proof.
  intros H0 H1 H2 c. cbn [decode_utf8]. unfold continuation. fold c.
  generalize dependent c. intros c Hc Hs.
  decide_tests; reflexivity.
Qed.

Lemma decode_4 (b0 b1 b2 b3 : N) (rest : list N) :
  240 <= b0 <= 244 -> 128 <= b1 <= 191 -> 128 <= b2 <= 191 ->
  128 <= b3 <= 191 ->
  let c := (b0 - 240) * 262144 + (b1 - 128) * 4096 + (b2 - 128) * 64
           + (b3 - 128) in
  65536 <= c <= 1114111 ->
  decode_utf8 (b0 :: b1 :: b2 :: b3 :: rest) = then_cons c (decode_utf8 rest).
Proof.
  intros H0 H1 H2 H3 c. cbn [decode_utf8]. unfold continuation. fold c.
  generalize dependent c. intros c Hc.
  decide_tests; reflexivity.
Qed.

Lemma some_inj {A : Type} (a b : A) : Some a = Some b -> a = b.
Proof. intros H. injection H. trivial. Qed.

Lemma div_mod_64 (c : N) : c = 64 * (c / 64) + c mod 64 /\ c mod 64 < 64.
Proof. split; [apply N.div_mod | apply N.mod_lt]; lia. Qed.

Lemma decode_encode_char (c : N) (bs rest : list N) :
  encode_char c = Some bs ->
  decode_utf8 (bs ++ rest) = then_cons c (decode_utf8 rest).
Proof.
  unfold encode_char.
  destruct (div_mod_64 c) as [E1 L1].
  destruct (div_mod_64 (c / 64)) as [E2 L2].
  destruct (div_mod_64 (c / 64 / 64)) as [E3 L3].
  assert (D2 : c / 4096 = c / 64 / 64) by (rewrite N.Div0.div_div; reflexivity).
  assert (D3 : c / 262144 = c / 64 / 64 / 64)
    by (rewrite !N.Div0.div_div; reflexivity).
  rewrite D2, D3. clear D2 D3.
  set (r1 := c mod 64) in *. set (q1 := c / 64) in *.
  set (r2 := q1 mod 64) in *. set (q2 := q1 / 64) in *.
  set (r3 := q2 mod 64) in *. set (q3 := q2 / 64) in *.
  clearbody r1 q1 r2 q2 r3 q3.
  destruct (N.ltb_spec c 128).
  { intros H'; cbv iota in H'. assert (bs = [c]) by (symmetry; apply some_inj; exact H'). subst bs.
    cbn [app]. apply decode_1. assumption. }
  destruct (N.ltb_spec c 2048).
  { intros H'; cbv iota in H'. assert (bs = [192 + q1; 128 + r1]) by (symmetry; apply some_inj; exact H').
    subst bs. cbn [app]. rewrite decode_2 by lia. f_equal. lia. }
  destruct (N.ltb_spec c 65536).
  { destruct (N.leb_spec 55296 c); destruct (N.leb_spec c 57343);
      cbn [andb]; try discriminate;
      intros H'; cbv iota in H';
      assert (bs = [224 + q2; 128 + r2; 128 + r1])
        by (symmetry; apply some_inj; exact H');
      subst bs; cbn [app]; rewrite decode_3 by lia; f_equal; lia. }
  destruct (N.leb_spec c 1114111); [|discriminate].
  intros H'. cbv iota in H'.
  assert (bs = [240 + q3; 128 + r3; 128 + r2; 128 + r1]) by (symmetry; apply some_inj; exact H').
  subst bs. cbn [app]. rewrite decode_4 by lia. f_equal. lia.
Qed.

Lemma decode_encode (s : str) (bs : list N) :
  encode_utf8 s = Some bs -> decode_utf8 bs = inr s.
Proof.
  revert bs; induction s as [|c s IH]; intros bs.
  - intros H. injection H as <-. reflexivity.
  - cbn [encode_utf8]. destruct (encode_char c) as [chunk|] eqn:Hc;
      [|discriminate].
    destruct (encode_utf8 s) as [more|]; [|discriminate].
    intros H. injection H as <-.
    rewrite (decode_encode_char c chunk more Hc), (IH more eq_refl).
    reflexivity.
Qed.

Lemma encode_char_scalar (c : N) :
  encode_char c <> None <-> scalar_value c = true.
Proof.
  unfold encode_char, scalar_value.
  destruct (N.ltb_spec c 128); destruct (N.ltb_spec c 2048);
    destruct (N.ltb_spec c 65536); destruct (N.leb_spec c 1114111);
    destruct (N.leb_spec 55296 c); destruct (N.leb_spec c 57343);
    cbn [andb negb]; try lia; split; congruence.
Qed.

Lemma div_mod_unique (c q r : N) :
  c = 64 * q + r -> r < 64 -> c / 64 = q /\ c mod 64 = r.
Proof.
  intros E L. split; symmetry.
  - apply (N.div_unique c 64 q r L E).
  - apply (N.mod_unique c 64 q r L E).
Qed.

Lemma encode_2 (b0 b1 : N) :
  194 <= b0 <= 223 -> 128 <= b1 <= 191 ->
  encode_char ((b0 - 192) * 64 + (b1 - 128)) = Some [b0; b1].
Proof.
  intros H0 H1. unfold encode_char.
  destruct (div_mod_unique ((b0 - 192) * 64 + (b1 - 128)) (b0 - 192)
              (b1 - 128)) as [-> ->]; [lia | lia |].
  decide_tests. do 2 f_equal; [lia | f_equal; lia].
Qed.

Lemma encode_3 (b0 b1 b2 : N) :
  224 <= b0 <= 239 -> 128 <= b1 <= 191 -> 128 <= b2 <= 191 ->
  let c := (b0 - 224) * 4096 + (b1 - 128) * 64 + (b2 - 128) in
  2048 <= c -> (c < 55296 \/ 57343 < c) ->
  encode_char c = Some [b0; b1; b2].
Proof.
  intros H0 H1 H2 c Hc Hs. unfold encode_char.
  assert (D2 : c / 4096 = c / 64 / 64) by (rewrite N.Div0.div_div; reflexivity).
  rewrite D2.
  destruct (div_mod_unique c ((b0 - 224) * 64 + (b1 - 128)) (b2 - 128))
    as [-> ->]; [unfold c; lia | lia |].
  destruct (div_mod_unique ((b0 - 224) * 64 + (b1 - 128)) (b0 - 224)
              (b1 - 128)) as [-> ->]; [lia | lia |].
  assert (c < 65536) by (unfold c; lia).
  clearbody c. decide_tests; cbn [andb];
    (do 2 f_equal; [lia | f_equal; [lia | f_equal; lia]]).
Qed.

Lemma encode_4 (b0 b1 b2 b3 : N) :
  240 <= b0 <= 244 -> 128 <= b1 <= 191 -> 128 <= b2 <= 191 ->
  128 <= b3 <= 191 ->
  let c := (b0 - 240) * 262144 + (b1 - 128) * 4096 + (b2 - 128) * 64
           + (b3 - 128) in
  65536 <= c <= 1114111 ->
  encode_char c = Some [b0; b1; b2; b3].
Proof.
  intros H0 H1 H2 H3 c Hc. unfold encode_char.
  assert (D2 : c / 4096 = c / 64 / 64) by (rewrite N.Div0.div_div; reflexivity).
  assert (D3 : c / 262144 = c / 64 / 64 / 64)
    by (rewrite !N.Div0.div_div; reflexivity).
  rewrite D2, D3.
  destruct (div_mod_unique c
              ((b0 - 240) * 4096 + (b1 - 128) * 64 + (b2 - 128)) (b3 - 128))
    as [-> ->]; [unfold c; lia | lia |].
  destruct (div_mod_unique
              ((b0 - 240) * 4096 + (b1 - 128) * 64 + (b2 - 128))
              ((b0 - 240) * 64 + (b1 - 128)) (b2 - 128))
    as [-> ->]; [lia | lia |].
  destruct (div_mod_unique ((b0 - 240) * 64 + (b1 - 128)) (b0 - 240)
              (b1 - 128)) as [-> ->]; [lia | lia |].
  clearbody c. decide_tests.
  do 2 f_equal; [lia | f_equal; [lia | f_equal; [lia | f_equal; lia]]].
Qed.

Lemma then_cons_inr (c : char) (r : exn + str) (s : str) :
  then_cons c r = inr s -> exists cs, r = inr cs /\ s = c :: cs.
Proof.
  destruct r as [e|cs]; [discriminate|]. intros H. injection H as <-. eauto.
Qed.

Lemma decode_step (b0 : N) (r0 : list N) (s : str) :
  decode_utf8 (b0 :: r0) = inr s ->
  exists c cs chunk rest,
    b0 :: r0 = chunk ++ rest
    /\ (length rest < length (b0 :: r0))%nat
    /\ s = c :: cs
    /\ encode_char c = Some chunk
    /\ decode_utf8 rest = inr cs.
Proof.
  cbn [decode_utf8]. fold (then_cons).
  destruct (N.ltb_spec b0 128).
  { intros H'. apply then_cons_inr in H'. destruct H' as [cs [Hr ->]].
    exists b0, cs, [b0], r0. repeat split; [simpl; lia | | exact Hr].
    unfold encode_char. decide_tests. reflexivity. }
  destruct (N.leb_spec 194 b0); destruct (N.leb_spec b0 223); cbn [andb].
  { destruct r0 as [|b1 r1]; [discriminate|]. unfold continuation.
    destruct (N.leb_spec 128 b1); destruct (N.leb_spec b1 191); cbn [andb];
      try discriminate.
    intros H'. apply then_cons_inr in H'. destruct H' as [cs [Hr ->]].
    exists ((b0 - 192) * 64 + (b1 - 128)), cs, [b0; b1], r1.
    repeat split; [simpl; lia | apply encode_2; lia | exact Hr]. }
  all: destruct (N.leb_spec 224 b0); destruct (N.leb_spec b0 239);
    cbn [andb]; try lia.
  all: try (destruct (N.leb_spec 240 b0); destruct (N.leb_spec b0 244);
            cbn [andb]; try lia; try discriminate).
  - destruct r0 as [|b1 [|b2 r2]]; try discriminate. unfold continuation.
    set (c := (b0 - 224) * 4096 + (b1 - 128) * 64 + (b2 - 128)).
    destruct (N.leb_spec 128 b1); destruct (N.leb_spec b1 191);
      destruct (N.leb_spec 128 b2); destruct (N.leb_spec b2 191);
      destruct (N.leb_spec 2048 c); destruct (N.leb_spec 55296 c);
      destruct (N.leb_spec c 57343);
      cbn [andb negb]; try discriminate;
      intros H'; apply then_cons_inr in H'; destruct H' as [cs [Hr ->]];
      exists c, cs, [b0; b1; b2], r2;
      (repeat split; [simpl; lia | apply encode_3; fold c; lia | exact Hr]).
  - destruct r0 as [|b1 [|b2 [|b3 r3]]]; try discriminate.
    unfold continuation.
    set (c := (b0 - 240) * 262144 + (b1 - 128) * 4096 + (b2 - 128) * 64
              + (b3 - 128)).
    destruct (N.leb_spec 128 b1); destruct (N.leb_spec b1 191);
      destruct (N.leb_spec 128 b2); destruct (N.leb_spec b2 191);
      destruct (N.leb_spec 128 b3); destruct (N.leb_spec b3 191);
      destruct (N.leb_spec 65536 c); destruct (N.leb_spec c 1114111);
      cbn [andb negb]; try discriminate;
      intros H'; apply then_cons_inr in H'; destruct H' as [cs [Hr ->]];
      exists c, cs, [b0; b1; b2; b3], r3;
      (repeat split; [simpl; lia | apply encode_4; fold c; lia | exact Hr]).
Qed.

Lemma encode_decode (bs : list N) (s : str) :
  decode_utf8 bs = inr s -> encode_utf8 s = Some bs.
Proof.
  remember (length bs) as n eqn:Hn. revert bs s Hn.
  induction n as [n IH] using lt_wf_ind. intros bs s Hn Hd.
  destruct bs as [|b0 r0].
  - injection Hd as <-. reflexivity.
  - apply decode_step in Hd.
    destruct Hd as [c [cs [chunk [rest [Hb [Hl [-> [Hc Hr]]]]]]]].
    cbn [encode_utf8]. rewrite Hc.
    rewrite (IH (length rest) ltac:(lia) rest cs eq_refl Hr), Hb.
    reflexivity.
Qed.

Lemma encode_utf8_scalar (s : str) :
  encode_utf8 s <> None <-> forallb scalar_value s = true.
Proof.
  induction s as [|c s IH]; [simpl; split; congruence|].
  cbn [encode_utf8 forallb]. rewrite andb_true_iff, <- IH, <- encode_char_scalar.
  destruct (encode_char c); destruct (encode_utf8 s); split; intros H;
    try congruence; try (split; congruence); destruct H; congruence.
Qed.

(** X14: [decode('utf-8')] returns a text exactly on the bytes that are
    the UTF-8 encoding of that text: decoding is the inverse of encoding,
    no two byte sequences decode to the same text, and overlong forms,
    truncated sequences and encoded surrogates all raise. *)
Theorem decode_utf8_iff_encoded (bs : list N) (s : str) :
  decode_utf8 bs = inr s <-> encode_utf8 s = Some bs.
Proof. split; [apply encode_decode | apply decode_encode]. Qed.

(** X15: the text that [extract_qa_from_epub] hands to
    [extract_qa_from_html] holds Unicode scalar values only: no
    surrogate and nothing above U+10FFFF. *)
Theorem decoded_text_is_scalar (bs : list N) (s : str) :
  decode_utf8 bs = inr s -> forallb scalar_value s = true.
Proof.
  intros H. apply encode_utf8_scalar. apply encode_decode in H.
  congruence.
Qed.

Lemma decoded_text_is_scalar_witness :
  decode_utf8 [65; 239; 188; 159; 240; 159; 152; 128]
  = inr [65; FULLWIDTH_QUESTION_MARK; 128512]
  /\ forallb scalar_value [65; FULLWIDTH_QUESTION_MARK; 128512] = true
  /\ decode_utf8 [237; 160; 128] = inl UnicodeDecodeError
  /\ decode_utf8 [192; 175] = inl UnicodeDecodeError.
Proof.
  assert (H : decode_utf8 [65; 239; 188; 159; 240; 159; 152; 128]
              = inr [65; FULLWIDTH_QUESTION_MARK; 128512])
    by (vm_compute; reflexivity).
  split; [exact H|]. split; [|split; vm_compute; reflexivity].
  exact (decoded_text_is_scalar _ _ H).
Defined.

(* ------------------------------------------------------------------ *)
(** ** The records of the package loop *)


Lemma html_log_records BeautifulSoup names class_ skip_question
    is_next_question is_answer_paragraph html_content file_name :
  Forall html_record
    (snd (extract_qa_from_html_with BeautifulSoup names class_ skip_question
            is_next_question is_answer_paragraph html_content file_name)).
Proof.
  unfold extract_qa_from_html_with.
  destruct (BeautifulSoup html_content) as [e|soup];
    [repeat constructor|].
  unfold extract_qa_from_soup.
  destruct (find_all names class_ soup) as [|q questions];
    [repeat constructor|].
  rewrite for_questions_log. cbn [snd app].
  apply Forall_forall. intros r Hr. apply in_map_iff in Hr.
  destruct Hr as [p [<- _]]. exact I.
Qed.

Lemma html_records_filtered (log : list log_record) :
  Forall html_record log ->
  progress_records log = [] /\ file_records log = [].
Proof.
  induction 1 as [|r log Hr _ [Hp Hf]]; [split; reflexivity|].
  unfold progress_records, file_records in *. cbn [filter].
  destruct r; try contradiction; split; assumption.
Qed.

Lemma next_tenth (n : nat) :
  (S n / 10 = n / 10 + (if Nat.eqb (S n mod 10) 0 then 1 else 0))%nat.
Proof.
  pose proof (Nat.div_mod_eq n 10) as E.
  pose proof (Nat.div_mod_eq (S n) 10) as E'.
  pose proof (Nat.mod_upper_bound n 10 ltac:(lia)) as L.
  pose proof (Nat.mod_upper_bound (S n) 10 ltac:(lia)) as L'.
  destruct (Nat.eqb_spec (S n mod 10) 0) as [Hz | Hz];
    generalize dependent (S n / 10)%nat;
    generalize dependent (S n mod 10)%nat;
    generalize dependent (n / 10)%nat;
    generalize dependent (n mod 10)%nat; intros; lia.
Qed.

Lemma book_for_item_progress lower BeautifulSoup state item :
  (length (progress_records
             (snd (ExtractQaChinese.for_item lower BeautifulSoup state item)))
   + snd (fst state) / 10
   = length (progress_records (snd state))
     + snd (fst (ExtractQaChinese.for_item lower BeautifulSoup state item))
       / 10)%nat.
Proof.
  destruct state as [[all_qa_pairs processed_files] log].
  unfold ExtractQaChinese.for_item.
  item_cases lower item; cbn [fst snd]; try lia.
  - unfold progress_records. rewrite filter_app. cbn [filter].
    rewrite app_nil_r. lia.
  - pose proof (html_log_records BeautifulSoup ExtractQaChinese.names
                  ExtractQaChinese.class_ ExtractQaChinese.skip_question
                  ExtractQaChinese.is_next_question
                  ExtractQaChinese.is_answer_paragraph html_content
                  (get_name item)) as Hh.
    apply html_records_filtered in Hh. destruct Hh as [Hp _].
    unfold ExtractQaChinese.extract_qa_from_html.
    destruct (extract_qa_from_html_with _ _ _ _ _ _ _ _) as [qa_pairs log'].
    cbn [fst snd] in *. unfold progress_records in *.
    rewrite !filter_app, Hp. cbn [app]. rewrite length_app.
    rewrite (next_tenth processed_files).
    destruct (Nat.eqb (S processed_files mod 10) 0); cbn [filter length]; lia.
Qed.

Lemma book_for_items_progress lower BeautifulSoup book state :
  (length (progress_records
             (snd (fold_left (ExtractQaChinese.for_item lower BeautifulSoup)
                     book state)))
   + snd (fst state) / 10
   = length (progress_records (snd state))
     + snd (fst (fold_left (ExtractQaChinese.for_item lower BeautifulSoup)
                   book state)) / 10)%nat.
Proof.
  revert state; induction book as [|item book IH]; intros state;
    [reflexivity|].
  cbn [fold_left].
  pose proof (IH (ExtractQaChinese.for_item lower BeautifulSoup state item)).
  pose proof (book_for_item_progress lower BeautifulSoup state item).
  lia.
Qed.

(** X16: [extract_qa_chinese.py] logs its progress once for every ten
    files counted: the number of progress records in the log of a run is
    the tenth, rounded down, of the number of content entries whose bytes
    decoded. *)
Theorem progress_every_ten_files lower BeautifulSoup epub_read_epub
    epub_path book :
  epub_read_epub epub_path = inr book ->
  length (progress_records
            (snd (ExtractQaChinese.extract_qa_from_epub lower BeautifulSoup
                    epub_read_epub epub_path)))
  = (length
       (filter
          (fun item =>
             is_content_item lower item
             && match decode_utf8 (get_content item) with
                | inl _ => false
                | inr _ => true
                end) book) / 10)%nat.
Proof.
  intros Hread.
  unfold ExtractQaChinese.extract_qa_from_epub, read_epub. rewrite Hread.
  pose proof (book_for_items_progress lower BeautifulSoup book
                ([], O, [InfoReadEpub epub_path])) as Hp.
  pose proof (for_items_count _ _ book ([], O, [InfoReadEpub epub_path])
                (book_for_item_count lower BeautifulSoup)) as Hn.
  destruct (fold_left _ book _) as [[all_qa_pairs processed_files] log].
  cbn [fst snd] in *. unfold progress_records in *.
  rewrite filter_app, length_app. cbn [filter length] in *.
  rewrite Hn in Hp. cbn [Nat.add] in Hp.
  change (0 / 10)%nat with O in Hp. lia.
Qed.

Lemma progress_every_ten_files_witness :
  length (progress_records
            (snd (ExtractQaChinese.extract_qa_from_epub ascii_lower
                    example_parser
                    (reader_of
                       (repeat book_A 10 ++ [picture; not_utf8]
                        ++ repeat generic_plain 11))
                    (lit "book.epub")))) = 2%nat.
Proof.
  rewrite (progress_every_ten_files ascii_lower example_parser
             (reader_of
                (repeat book_A 10 ++ [picture; not_utf8]
                 ++ repeat generic_plain 11))
             (lit "book.epub")
             (repeat book_A 10 ++ [picture; not_utf8]
              ++ repeat generic_plain 11) eq_refl).
  vm_compute. reflexivity.
Defined.

Lemma generic_for_item_file_record lower BeautifulSoup state item :
  file_records (snd (ExtractQa.for_item lower BeautifulSoup state item))
  = file_records (snd state)
    ++ match ExtractQa.pairs_of_item lower BeautifulSoup item with
       | [] => []
       | p :: more => [InfoFile (get_name item) (length (p :: more))]
       end.
Proof.
  destruct state as [[all_qa_pairs processed_files] log].
  unfold ExtractQa.for_item, ExtractQa.pairs_of_item.
  item_cases lower item; cbn [fst snd];
    try (rewrite app_nil_r; reflexivity).
  - unfold file_records. rewrite filter_app. reflexivity.
  - pose proof (html_log_records BeautifulSoup ExtractQa.names
                  (ExtractQa.class_ lower) ExtractQa.skip_question
                  (ExtractQa.is_next_question lower)
                  ExtractQa.is_answer_paragraph html_content
                  (get_name item)) as Hh.
    apply html_records_filtered in Hh. destruct Hh as [_ Hf].
    unfold ExtractQa.extract_qa_from_html.
    destruct (extract_qa_from_html_with _ _ _ _ _ _ _ _)
      as [[|p qa_pairs] log'];
      cbn [fst snd] in *; unfold file_records in *;
      rewrite !filter_app, Hf; reflexivity.
Qed.

Lemma generic_for_items_file_records lower BeautifulSoup book state :
  file_records (snd (fold_left (ExtractQa.for_item lower BeautifulSoup)
                       book state))
  = file_records (snd state)
    ++ flat_map
         (fun item =>
            match ExtractQa.pairs_of_item lower BeautifulSoup item with
            | [] => []
            | p :: more => [InfoFile (get_name item) (length (p :: more))]
            end) book.
Proof.
  revert state; induction book as [|item book IH]; intros state.
  - simpl. rewrite app_nil_r. reflexivity.
  - cbn [fold_left flat_map].
    rewrite IH, generic_for_item_file_record, app_assoc. reflexivity.
Qed.

(** X17: [extract_qa.py] logs one record for each entry that yields
    pairs, in the order of the package, with the name of the entry and
    the number of its pairs, and none for the other entries. *)
Theorem file_records_name_the_entries lower BeautifulSoup epub_read_epub
    epub_path book :
  epub_read_epub epub_path = inr book ->
  file_records (snd (ExtractQa.extract_qa_from_epub lower BeautifulSoup
                       epub_read_epub epub_path))
  = flat_map
      (fun item =>
         match ExtractQa.pairs_of_item lower BeautifulSoup item with
         | [] => []
         | p :: more => [InfoFile (get_name item) (length (p :: more))]
         end) book.
Proof.
  intros Hread. unfold ExtractQa.extract_qa_from_epub, read_epub.
  rewrite Hread.
  pose proof (generic_for_items_file_records lower BeautifulSoup book
                ([], O, [InfoReadEpub epub_path])) as Hf.
  destruct (fold_left _ book _) as [[all_qa_pairs processed_files] log].
  cbn [fst snd] in *. unfold file_records in *.
  rewrite filter_app, Hf. cbn [filter app]. apply app_nil_r.
Qed.

Lemma file_records_name_the_entries_witness :
  file_records
    (snd (ExtractQa.extract_qa_from_epub ascii_lower example_parser
            (reader_of [generic_A; generic_plain; picture; generic_C])
            (lit "book.epub")))
  = [InfoFile (lit "ch1.xhtml") 1; InfoFile (lit "ch3.xhtml") 1].
Proof.
  rewrite (file_records_name_the_entries ascii_lower example_parser
             (reader_of [generic_A; generic_plain; picture; generic_C])
             (lit "book.epub")
             [generic_A; generic_plain; picture; generic_C] eq_refl).
  vm_compute. reflexivity.
Defined.

(* ------------------------------------------------------------------ *)
(** ** The two tests for a heading *)

Lemma existsb_same {A : Type} (f g : A -> bool) (l : list A) :
  (forall x, f x = g x) -> existsb f l = existsb g l.
Proof.
  intros H. induction l as [|x l IH]; [reflexivity|].
  simpl. rewrite H, IH. reflexivity.
Qed.

Lemma book_class_token (c : str) :
  ExtractQaChinese.class_ (Some c)
  = contains (lit "bodycontent-second-title") c.
Proof.
  unfold ExtractQaChinese.class_.
  destruct (contains (lit "bodycontent-second-title") c) eqn:Ha.
  - destruct c as [|x c]; [discriminate|]. reflexivity.
  - destruct (contains (lit "bodycontent-second-title1") c) eqn:Hb;
      [|rewrite andb_false_r; reflexivity].
    exfalso. apply contains_substring in Hb.
    destruct Hb as [before [after ->]].
    assert (contains (lit "bodycontent-second-title")
              (before ++ lit "bodycontent-second-title1" ++ after) = true)
      by (apply contains_substring; exists before, ([49] ++ after);
          reflexivity).
    congruence.
Qed.

(** X18: the test by which [find_all] takes a tag for a question and the
    test by which the walk of lines 64-65 ends at a tag are the same
    test.  In [extract_qa_chinese.py] they agree on every node (the
    second name in the [class_] function of line 46 adds nothing to the
    first); in [extract_qa.py] they agree on every node as soon as
    [lower] maps the empty string to the empty string. *)
Theorem heading_tests_agree :
  (forall n,
      matches ExtractQaChinese.names ExtractQaChinese.class_ n
      = ExtractQaChinese.is_next_question n)
  /\ (forall lower n,
      lower [] = [] ->
      matches ExtractQa.names (ExtractQa.class_ lower) n
      = ExtractQa.is_next_question lower n).
Proof.
  split.
  - intros n. unfold matches, ExtractQaChinese.is_next_question.
    rewrite andb_true_r. f_equal.
    destruct n as [name [tokens|] contents| |]; try reflexivity.
    cbn [class_passes get_class]. apply existsb_same, book_class_token.
  - intros lower n Hlower. unfold matches, ExtractQa.is_next_question.
    rewrite andb_true_r. f_equal.
    destruct n as [name [tokens|] contents| |]; try reflexivity.
    cbn [class_passes get_class]. apply existsb_same. intros c.
    cbn [ExtractQa.class_]. destruct c as [|x c]; [|reflexivity].
    unfold ExtractQa.heading_or_title. rewrite Hlower. reflexivity.
Qed.

Lemma heading_tests_agree_witness :
  ascii_lower [] = []
  /\ matches ExtractQa.names (ExtractQa.class_ ascii_lower) heading_R
     = ExtractQa.is_next_question ascii_lower heading_R
  /\ matches ExtractQaChinese.names ExtractQaChinese.class_ book_heading_ef
     = ExtractQaChinese.is_next_question book_heading_ef.
Proof.
  destruct heading_tests_agree as [Hb Hg].
  split; [reflexivity|]. split.
  - apply (Hg ascii_lower heading_R). reflexivity.
  - apply (Hb book_heading_ef).
Defined.

(* ------------------------------------------------------------------ *)
(** ** What reaches the output file *)

Lemma generic_item_pair lower BeautifulSoup item p :
  In p (ExtractQa.pairs_of_item lower BeautifulSoup item) ->
  exists html_content file_name,
    In p (fst (ExtractQa.extract_qa_from_html lower BeautifulSoup
                 html_content file_name)).
Proof.
  unfold ExtractQa.pairs_of_item.
  item_cases lower item; try (intros []). eauto.
Qed.

Lemma book_item_pair lower BeautifulSoup item p :
  In p (ExtractQaChinese.pairs_of_item lower BeautifulSoup item) ->
  exists html_content file_name,
    In p (fst (ExtractQaChinese.extract_qa_from_html BeautifulSoup
                 html_content file_name)).
Proof.
  unfold ExtractQaChinese.pairs_of_item.
  item_cases lower item; try (intros []). eauto.
Qed.

Lemma generic_main_dumped lower BeautifulSoup epub_read_epub open_file
    json_dump dumped :
  In dumped (dumps (ExtractQaMain.main lower BeautifulSoup epub_read_epub
                      open_file json_dump)) ->
  exists book,
    snd dumped = flat_map (ExtractQa.pairs_of_item lower BeautifulSoup) book.
Proof.
  destruct (epub_read_epub ExtractQaMain.epub_path) as [e|book] eqn:Hread.
  - rewrite (generic_main_read_fails _ _ _ _ _ _ Hread). intros [].
  - rewrite (generic_main_dumps_pairs _ _ _ _ _ _ Hread).
    destruct (open_file _); [intros []|].
    intros [<- | []]. exists book. reflexivity.
Qed.

Lemma book_main_dumped lower BeautifulSoup epub_read_epub open_file
    json_dump dumped :
  In dumped (dumps (ExtractQaChineseMain.main lower BeautifulSoup
                      epub_read_epub open_file json_dump)) ->
  exists book,
    snd dumped
    = flat_map (ExtractQaChinese.pairs_of_item lower BeautifulSoup) book.
Proof.
  destruct (epub_read_epub ExtractQaChineseMain.epub_path) as [e|book]
    eqn:Hread.
  - rewrite (book_main_read_fails _ _ _ _ _ _ Hread). intros [].
  - rewrite (book_main_dumps_pairs _ _ _ _ _ _ Hread).
    destruct (flat_map _ book) as [|p more] eqn:E; [intros []|].
    destruct (open_file _); [intros []|].
    intros [<- | []]. exists book. symmetry. exact E.
Qed.

(** X19: what the two programs hand to [json.dump].  Every pair in the
    list that [main] of [extract_qa.py] dumps has a question of at least
    two characters that ends with ['？'] and an answer that is not empty;
    every pair that [main] of [extract_qa_chinese.py] dumps has a
    question of at least two characters and an answer that is not
    empty. *)
Theorem dumped_pairs_are_well_formed :
  (forall lower BeautifulSoup epub_read_epub open_file json_dump dumped p,
      In dumped (dumps (ExtractQaMain.main lower BeautifulSoup
                          epub_read_epub open_file json_dump)) ->
      In p (snd dumped) ->
      (2 <= length (question p))%nat
      /\ endswith (question p) [FULLWIDTH_QUESTION_MARK] = true
      /\ answer p <> [])
  /\ (forall lower BeautifulSoup epub_read_epub open_file json_dump dumped
        p,
      In dumped (dumps (ExtractQaChineseMain.main lower BeautifulSoup
                          epub_read_epub open_file json_dump)) ->
      In p (snd dumped) ->
      (2 <= length (question p))%nat /\ answer p <> []).
Proof.
  split.
  - intros lower BeautifulSoup epub_read_epub open_file json_dump dumped p
      Hd Hp.
    apply generic_main_dumped in Hd. destruct Hd as [book Hd].
    rewrite Hd in Hp. apply in_flat_map in Hp. destruct Hp as [item [_ Hp]].
    apply generic_item_pair in Hp.
    destruct Hp as [html_content [file_name Hp]].
    apply emitted_pair in Hp. destruct Hp as [Hs [_ [Ha _]]].
    apply generic_skip_question_false in Hs. tauto.
  - intros lower BeautifulSoup epub_read_epub open_file json_dump dumped p
      Hd Hp.
    apply book_main_dumped in Hd. destruct Hd as [book Hd].
    rewrite Hd in Hp. apply in_flat_map in Hp. destruct Hp as [item [_ Hp]].
    apply book_item_pair in Hp.
    destruct Hp as [html_content [file_name Hp]].
    apply emitted_pair in Hp. destruct Hp as [Hs [_ [Ha _]]].
    apply book_skip_question_false in Hs. tauto.
Qed.

Lemma dumped_pairs_are_well_formed_witness :
  let dumped := (lit "qa_pairs.json",
                 [{| question := question_A; answer := lit "a" |}]) in
  let p := {| question := question_A; answer := lit "a" |} in
  In dumped (dumps (ExtractQaMain.main ascii_lower example_parser
                      (reader_of [generic_A]) open_ok dump_ok))
  /\ In p (snd dumped)
  /\ (2 <= length (question p))%nat
  /\ endswith (question p) [FULLWIDTH_QUESTION_MARK] = true
  /\ answer p <> [].
Proof.
  intros dumped p.
  assert (Hd : In dumped (dumps (ExtractQaMain.main ascii_lower
                                   example_parser (reader_of [generic_A])
                                   open_ok dump_ok)))
    by (vm_compute; left; reflexivity).
  assert (Hp : In p (snd dumped)) by (left; reflexivity).
  split; [exact Hd|]. split; [exact Hp|].
  exact (proj1 dumped_pairs_are_well_formed ascii_lower example_parser
           (reader_of [generic_A]) open_ok dump_ok dumped p Hd Hp).
Defined.
